(** * Photo metadata extraction: a model of [photo_processor.py]

    The development embeds the metadata-resolution code of the photo
    processing module: the GPS coordinate normaliser, the GPS and the
    orientation resolvers, the caption cascade with its filename fallback,
    the per-photo orchestrator, the batch entry point and the temporary
    file clean-up.

    Conventions.
    - A Python value is a [pyval]; a [dict] is an association list, because
      the code iterates over items in insertion order.
    - A Python [str] is a [string] with one character per code point, for
      texts whose code points are below 256. In that range the decimal
      digits of the regular expressions and of [int] are the ten ASCII
      digits, the whitespace of [strip], [split] and the regular
      expressions is [is_space], and [lower] is [lower_char].
    - A Python [float] is the rational ([Q]) it denotes. Arithmetic rounds
      to the nearest binary64 number, ties to even ([round64]); the values
      [2^1024] and [-2^1024] stand for the two infinities. NaN and the sign
      of zero are outside the model.
    - Code that can raise returns a [result]; [try ... except] is
      [try_except] / [catch].
    - Everything the code obtains from its collaborators (external metadata
      tool, tag reader, OS metadata service, image library, file system) is
      read from a [World] record. *)

From Stdlib Require Import ZArith QArith Qabs Qround Qpower String Ascii List Bool.
From Stdlib Require Import Lia Lqa.
Import ListNotations.

Local Open Scope string_scope.
Local Open Scope Z_scope.

(** ** Exceptions and results *)

Inductive exn : Type :=
| ValueError
| TypeError
| OverflowError
| KeyError
| AttributeError
| IndexError
| ZeroDivisionError
| OSError.

Inductive result (A : Type) : Type :=
| Ok (a : A)
| Raise (e : exn).

Arguments Ok {A} a.
Arguments Raise {A} e.

Definition bind {A B : Type} (m : result A) (k : A -> result B) : result B :=
  match m with
  | Ok a => k a
  | Raise e => Raise e
  end.

Notation "x <- m ;; k" := (bind m (fun x => k))
  (at level 61, m at next level, right associativity).

(** [try: m except Exception: h] *)
Definition try_except {A : Type} (m : result A) (h : A) : A :=
  match m with
  | Ok a => a
  | Raise _ => h
  end.

(** [try: m except (e1, e2, ...): h]; other exceptions propagate. *)
Definition catch {A : Type} (caught : exn -> bool) (m : result A)
  (h : result A) : result A :=
  match m with
  | Ok a => Ok a
  | Raise e => if caught e then h else Raise e
  end.

Definition is_ok {A : Type} (m : result A) : bool :=
  match m with
  | Ok _ => true
  | Raise _ => false
  end.

(** ** Floating-point arithmetic (binary64) *)

Definition pow2 (e : Z) : Q := (2 ^ e)%Q.

(** The nearest integer, ties to the even one. *)
Definition round_half_even (x : Q) : Z :=
  let f := Qfloor x in
  match (x - inject_Z f ?= 1 # 2)%Q with
  | Lt => f
  | Gt => f + 1
  | Eq => if Z.even f then f else f + 1
  end.

(** The position of the leading bit of a positive rational: the [e] with
    [2^e <= x < 2^(e+1)]. *)
Definition ilog2 (x : Q) : Z :=
  let e := Z.log2 (Qnum x) - Z.log2 (Zpos (Qden x)) in
  if Qle_bool (pow2 e) x then e else e - 1.

(** A positive rational on the grid of its binade: 53 significant bits,
    and the fixed spacing [2^-1074] below [2^-1022]. *)
Definition round_mag (x : Q) : Q :=
  let e := Z.max (ilog2 x) (-1022) in
  (inject_Z (round_half_even (x / pow2 (e - 52))) * pow2 (e - 52))%Q.

(** Rounding of a positive rational; from [2^1024 - 2^970] on the result
    is infinite. *)
Definition round_pos (x : Q) : Q :=
  if Qle_bool (pow2 1024) (round_mag x) then pow2 1024 else round_mag x.

(** The binary64 number nearest to [x], in lowest terms. *)
Definition round64 (x : Q) : Q :=
  Qred match (x ?= 0)%Q with
       | Eq => 0%Q
       | Gt => round_pos x
       | Lt => (- round_pos (- x))%Q
       end.

(** [a + b] and [a / b] on floats *)
Definition fadd (a b : Q) : Q := round64 (a + b).

Definition fdiv (a b : Q) : Q := round64 (a / b).

(** [x] is infinite. *)
Definition is_inf (x : Q) : bool := Qle_bool (pow2 1024) (Qabs x).

(** ** Python values *)

#[warnings="-register-all"]
Inductive pyval : Type :=
| PyNone
| PyBool (b : bool)
| PyInt (z : Z)
| PyFloat (q : Q)
| PyRatio (num den : Z)
| PyStr (s : string)
| PyList (l : list pyval)
| PyDict (d : list (string * pyval)).

(** [PyRatio num den] is the [Ratio] of the embedded-tag reader, a
    [Fraction] that may carry a zero denominator as read from the file. *)

(** A metadata bag: the [dict] built from one JSON object. *)
Definition MetadataBag : Type := list (string * pyval).

Fixpoint lookup (k : string) (d : MetadataBag) : option pyval :=
  match d with
  | [] => None
  | (k', v) :: d' => if String.eqb k k' then Some v else lookup k d'
  end.

(** [k in d] *)
Definition has_key (k : string) (d : MetadataBag) : bool :=
  match lookup k d with
  | Some _ => true
  | None => false
  end.

(** [d.get(k, default)] *)
Definition get_default (k : string) (default : pyval) (d : MetadataBag) : pyval :=
  match lookup k d with
  | Some v => v
  | None => default
  end.

(** [isinstance(v, dict)] *)
Definition is_dict (v : pyval) : bool :=
  match v with
  | PyDict _ => true
  | _ => false
  end.

(** The items of a dict; a value of another type has none. *)
Definition as_dict (v : pyval) : MetadataBag :=
  match v with
  | PyDict d => d
  | _ => []
  end.

Definition Qzerob (q : Q) : bool := Qeq_bool q 0.

(** Truth value of a Python object. *)
Definition truthy (v : pyval) : bool :=
  match v with
  | PyNone => false
  | PyBool b => b
  | PyInt z => negb (z =? 0)
  | PyFloat q => negb (Qzerob q)
  | PyRatio num _ => negb (num =? 0)
  | PyStr s => negb (String.eqb s EmptyString)
  | PyList l => match l with [] => false | _ => true end
  | PyDict d => match d with [] => false | _ => true end
  end.

(** [isinstance(v, (int, float)) and v < 0]; a [bool] counts as an [int]
    and is never negative. *)
Definition is_negative_number (v : pyval) : bool :=
  match v with
  | PyInt z => z <? 0
  | PyFloat q => negb (Qle_bool 0 q)
  | _ => false
  end.

(** [ref in ['S', 'W']] *)
Definition is_south_or_west (v : pyval) : bool :=
  match v with
  | PyStr s => String.eqb s "S" || String.eqb s "W"
  | _ => false
  end.

(** The largest magnitude an [int] may have for [float(int)] to succeed:
    from [2^1024 - 2^970] on, rounding reaches [2^1024] and Python raises
    [OverflowError]. *)
Definition float_int_limit : Z := 2 ^ 1024 - 2 ^ 970.

(** ** Text helpers ([str] methods used by the code) *)

(** [c.isspace()]: the whitespace below code point 256 *)
Definition is_space (c : ascii) : bool :=
  let n := nat_of_ascii c in
  ((9 <=? n) && (n <=? 13) || (28 <=? n) && (n <=? 32)
   || (n =? 133) || (n =? 160))%nat.

Definition is_digit (c : ascii) : bool :=
  let n := nat_of_ascii c in
  ((48 <=? n) && (n <=? 57))%nat.

Fixpoint lstrip (s : string) : string :=
  match s with
  | String c s' => if is_space c then lstrip s' else s
  | EmptyString => EmptyString
  end.

Fixpoint rstrip (s : string) : string :=
  match s with
  | String c s' =>
      let r := rstrip s' in
      if is_space c && String.eqb r EmptyString then EmptyString else String c r
  | EmptyString => EmptyString
  end.

(** [s.strip()] *)
Definition strip (s : string) : string := rstrip (lstrip s).

(** [s.replace(c, '')] for a one-character [c] *)
Fixpoint remove_char (c : ascii) (s : string) : string :=
  match s with
  | String a s' =>
      if Ascii.eqb a c then remove_char c s' else String a (remove_char c s')
  | EmptyString => EmptyString
  end.

(** [s.replace('deg', '')]: occurrences are removed left to right and the
    scan resumes after each one. *)
Fixpoint remove_deg (s : string) : string :=
  match s with
  | String "d" (String "e" (String "g" rest)) => remove_deg rest
  | String a s' => String a (remove_deg s')
  | EmptyString => EmptyString
  end.

(** [s.replace(a, b)] for one-character [a] and [b] *)
Fixpoint replace_char (a b : ascii) (s : string) : string :=
  match s with
  | String c s' => String (if Ascii.eqb c a then b else c) (replace_char a b s')
  | EmptyString => EmptyString
  end.

(** [s.split()]: maximal runs of non-space characters. [cur] is the token
    being read, in reverse. *)
Fixpoint split_ws_aux (cur : list ascii) (s : string) : list string :=
  let flush (k : list string) :=
    match cur with
    | [] => k
    | _ => string_of_list_ascii (rev cur) :: k
    end in
  match s with
  | String c s' =>
      if is_space c then flush (split_ws_aux [] s')
      else split_ws_aux (c :: cur) s'
  | EmptyString => flush []
  end.

Definition split_ws (s : string) : list string := split_ws_aux [] s.

(** [needle in s] for strings *)
Fixpoint contains (needle s : string) : bool :=
  if String.prefix needle s then true
  else match s with
       | String _ s' => contains needle s'
       | EmptyString => false
       end.

(** [s.lower()]: the upper-case letters below code point 256 are A to Z
    and the codes 192 to 222 without the multiplication sign (215). *)
Definition lower_char (c : ascii) : ascii :=
  let n := nat_of_ascii c in
  if ((65 <=? n) && (n <=? 90)
      || (192 <=? n) && (n <=? 222) && negb (n =? 215))%nat
  then ascii_of_nat (n + 32) else c.

Fixpoint lower (s : string) : string :=
  match s with
  | String c s' => String (lower_char c) (lower s')
  | EmptyString => EmptyString
  end.

(** [s.endswith(suffix)] *)
Definition endswith (suffix s : string) : bool :=
  let n := String.length s in
  let m := String.length suffix in
  ((m <=? n)%nat && String.eqb (String.substring (n - m) m s) suffix).

(** [s.split(sep)] for a one-character separator: a string with [n]
    separators gives [n + 1] parts. *)
Fixpoint split_on (sep : ascii) (s : string) : list string :=
  match s with
  | String c s' =>
      match split_on sep s' with
      | part :: parts =>
          if Ascii.eqb c sep then EmptyString :: part :: parts
          else String c part :: parts
      | [] => []
      end
  | EmptyString => [EmptyString]
  end.

Fixpoint take_while (p : ascii -> bool) (s : string) : string :=
  match s with
  | String c s' => if p c then String c (take_while p s') else EmptyString
  | EmptyString => EmptyString
  end.

Fixpoint drop_while (p : ascii -> bool) (s : string) : string :=
  match s with
  | String c s' => if p c then drop_while p s' else s
  | EmptyString => EmptyString
  end.

(** [s] with the literal prefix [lit] removed, when [s] starts with it *)
Fixpoint strip_prefix (lit s : string) : option string :=
  match lit, s with
  | EmptyString, _ => Some s
  | String a lit', String b s' =>
      if Ascii.eqb a b then strip_prefix lit' s' else None
  | String _ _, EmptyString => None
  end.

(** ** Regular-expression searches of the code

    Each search is written for its pattern; [re.search] returns the match
    with the leftmost start. *)

Definition is_coord_char (c : ascii) : bool :=
  is_digit c || Ascii.eqb c "-" || Ascii.eqb c ".".

(** [re.search(r'= ([-\d.]+)', s).group(1)] *)
Fixpoint search_eq_number (s : string) : option string :=
  match s with
  | String "=" (String " " rest as tl) =>
      let g := take_while is_coord_char rest in
      if String.eqb g EmptyString then search_eq_number tl else Some g
  | String _ s' => search_eq_number s'
  | EmptyString => None
  end.

(** The double-quote character (code 34). *)
Definition dquote : ascii := "034"%char.

Definition quoted (s : string) : string :=
  String dquote (s ++ String dquote EmptyString).

Definition not_quote (c : ascii) : bool := negb (Ascii.eqb c dquote).

(** The pattern QUOTE ([^QUOTE]+) QUOTE matched at the start of [s]: the
    group. The class is greedy, so the group runs up to the next quote. *)
Definition match_quoted_at (s : string) : option string :=
  match s with
  | String c s' =>
      if Ascii.eqb c dquote then
        let g := take_while not_quote s' in
        match drop_while not_quote s' with
        | String _ _ => if String.eqb g EmptyString then None else Some g
        | EmptyString => None
        end
      else None
  | EmptyString => None
  end.

(** [re.search] of the quoted-group pattern, [.group(1)] *)
Fixpoint search_quoted (s : string) : option string :=
  match match_quoted_at s with
  | Some g => Some g
  | None =>
      match s with
      | String _ s' => search_quoted s'
      | EmptyString => None
      end
  end.

(** The pattern QUOTE [dD]escription QUOTE \s* : \s* QUOTE ([^QUOTE]+) QUOTE
    at the start of [s]. *)
Definition match_sips_description_at (s : string) : option string :=
  let after_key :=
    match strip_prefix (quoted "description") s with
    | Some r => Some r
    | None => strip_prefix (quoted "Description") s
    end in
  match after_key with
  | Some r =>
      match drop_while is_space r with
      | String ":" r' => match_quoted_at (drop_while is_space r')
      | _ => None
      end
  | None => None
  end.

Fixpoint search_sips_description (s : string) : option string :=
  match match_sips_description_at s with
  | Some g => Some g
  | None =>
      match s with
      | String _ s' => search_sips_description s'
      | EmptyString => None
      end
  end.

Definition not_lt (c : ascii) : bool := negb (Ascii.eqb c "<").

(** The pattern <string name=QUOTE description QUOTE>([^<]+)</string> at
    the start of [s]. *)
Definition match_aae_description_at (s : string) : option string :=
  match strip_prefix ("<string name=" ++ quoted "description" ++ ">") s with
  | Some r =>
      let g := take_while not_lt r in
      match strip_prefix "</string>" (drop_while not_lt r) with
      | Some _ => if String.eqb g EmptyString then None else Some g
      | None => None
      end
  | None => None
  end.

Fixpoint search_aae_description (s : string) : option string :=
  match match_aae_description_at s with
  | Some g => Some g
  | None =>
      match s with
      | String _ s' => search_aae_description s'
      | EmptyString => None
      end
  end.

(** ** File names: [os.path.basename], [os.path.splitext] (POSIX) *)

Fixpoint rfind_from (c : ascii) (s : string) (i : nat) : option nat :=
  match s with
  | String a s' =>
      match rfind_from c s' (S i) with
      | Some j => Some j
      | None => if Ascii.eqb a c then Some i else None
      end
  | EmptyString => None
  end.

(** [s.rfind(c)], [None] standing for [-1] *)
Definition rfind (c : ascii) (s : string) : option nat := rfind_from c s 0.

Definition basename (p : string) : string :=
  match rfind "/" p with
  | Some i => String.substring (S i) (String.length p - S i) p
  | None => p
  end.

Definition is_dot (c : ascii) : bool := Ascii.eqb c ".".

(** [os.path.splitext(p)[0]]: the extension starts at the last dot of the
    last path component, unless only dots precede it there. *)
Definition splitext_root (p : string) : string :=
  match rfind "." p with
  | Some dot =>
      let start := match rfind "/" p with Some sp => S sp | None => O end in
      if ((start <=? dot)%nat &&
          negb (String.eqb
                  (drop_while is_dot (String.substring start (dot - start) p))
                  EmptyString))%bool
      then String.substring 0 dot p
      else p
  | None => p
  end.

(** ** The date pattern of the filename fallback

    [(\d{4})[-_]?(\d{2})[-_]?(\d{2})] *)

Fixpoint take_digits (n : nat) (s : string) : option (string * string) :=
  match n with
  | O => Some (EmptyString, s)
  | S n' =>
      match s with
      | String c s' =>
          if is_digit c then
            match take_digits n' s' with
            | Some (ds, r) => Some (String c ds, r)
            | None => None
            end
          else None
      | EmptyString => None
      end
  end.

Definition is_date_sep (c : ascii) : bool := Ascii.eqb c "-" || Ascii.eqb c "_".

(** [[-_]?]: the separator is taken when it is there. Leaving it would put
    the next [\d{2}] on the separator, so no backtracking is needed. *)
Definition skip_date_sep (s : string) : string :=
  match s with
  | String c s' => if is_date_sep c then s' else s
  | EmptyString => EmptyString
  end.

Definition match_date_at (s : string) : option (string * string * string) :=
  match take_digits 4 s with
  | Some (y, r1) =>
      match take_digits 2 (skip_date_sep r1) with
      | Some (m, r2) =>
          match take_digits 2 (skip_date_sep r2) with
          | Some (d, _) => Some (y, m, d)
          | None => None
          end
      | None => None
      end
  | None => None
  end.

(** [re.search(pattern, s).groups()] *)
Fixpoint search_date (s : string) : option (string * string * string) :=
  match match_date_at s with
  | Some g => Some g
  | None =>
      match s with
      | String _ s' => search_date s'
      | EmptyString => None
      end
  end.

Definition digit_value (c : ascii) : Z := Z.of_nat (nat_of_ascii c) - 48.

Fixpoint int_of_digits_from (acc : Z) (s : string) : Z :=
  match s with
  | String c s' => int_of_digits_from (10 * acc + digit_value c) s'
  | EmptyString => acc
  end.

(** [int(s)] for a string of decimal digits *)
Definition int_of_digits (s : string) : Z := int_of_digits_from 0 s.

Definition is_leap (y : Z) : bool :=
  (y mod 4 =? 0) && (negb (y mod 100 =? 0) || (y mod 400 =? 0)).

Definition days_in_month (y m : Z) : Z :=
  if m =? 2 then (if is_leap y then 29 else 28)
  else if (m =? 4) || (m =? 6) || (m =? 9) || (m =? 11) then 30
  else 31.

Definition valid_date (y m d : Z) : bool :=
  (1 <=? y) && (y <=? 9999) && (1 <=? m) && (m <=? 12) &&
  (1 <=? d) && (d <=? days_in_month y m).

(** [datetime(y, m, d)] raises [ValueError] outside the calendar. *)
Definition datetime (y m d : Z) : result (Z * Z * Z) :=
  if valid_date y m d then Ok (y, m, d) else Raise ValueError.

Definition month_name (m : Z) : string :=
  match m with
  | 1 => "January" | 2 => "February" | 3 => "March" | 4 => "April"
  | 5 => "May" | 6 => "June" | 7 => "July" | 8 => "August"
  | 9 => "September" | 10 => "October" | 11 => "November"
  | _ => "December"
  end.

Definition digit_char (n : Z) : ascii := ascii_of_nat (Z.to_nat (48 + n mod 10)).

Definition pad2 (n : Z) : string :=
  String (digit_char (n / 10)) (String (digit_char n) EmptyString).

Definition pad4 (n : Z) : string :=
  String (digit_char (n / 1000)) (String (digit_char (n / 100)) (pad2 n)).

(** A year from 1 to 9999 without leading zeros. *)
Definition unpadded_year (y : Z) : string :=
  if y <? 10 then String (digit_char y) EmptyString
  else if y <? 100 then pad2 y
  else if y <? 1000 then String (digit_char (y / 100)) (pad2 y)
  else pad4 y.

(** [%Y] of [strftime], which Python hands to the C library: the year on
    four digits where the library pads it, and without leading zeros where
    it does not (glibc). The two agree from the year 1000 on. *)
Definition strftime_Y (zero_pad : bool) (y : Z) : string :=
  if zero_pad then pad4 y else unpadded_year y.

(** [date_obj.strftime("%B %d, %Y")]: English month name, day on two
    digits, year as [%Y] prints it. *)
Definition strftime_B_d_Y (zero_pad : bool) (dt : Z * Z * Z) : string :=
  let '(y, m, d) := dt in
  month_name m ++ " " ++ pad2 d ++ ", " ++ strftime_Y zero_pad y.

(** [re.sub(r'^IMG_', '', s)] *)
Definition strip_IMG (s : string) : string :=
  match strip_prefix "IMG_" s with
  | Some r => r
  | None => s
  end.

(** The filename-based caption of both fallback branches. *)
Definition clean_name (filename : string) : string :=
  replace_char "_" " " (strip_IMG (splitext_root filename)).

(** The block under [if not photo_data['caption']] at the end of the
    caption cascade; [zero_pad] tells how the host prints [%Y]. *)
Definition fallback_caption (zero_pad : bool) (filename : string) : string :=
  match search_date filename with
  | Some (year, month, day) =>
      try_except
        (date_obj <- datetime (int_of_digits year) (int_of_digits month)
                              (int_of_digits day) ;;
         Ok ("Photo taken on " ++ strftime_B_d_Y zero_pad date_obj))
        (clean_name filename)
  | None => clean_name filename
  end.

(** ** The collaborators *)

(** The outcome of [subprocess.run(cmd, capture_output=True, check=False)]. *)
Inductive proc : Type :=
| ProcFails
| ProcDone (returncode : Z) (stdout : string).

(** A tag of the embedded-tag reader: [str(tag)] and [tag.values]. *)
Record IfdTag : Type := {
  printable : string;
  values : pyval
}.

Definition Tags : Type := list (string * IfdTag).

Fixpoint lookup_tag (k : string) (t : Tags) : option IfdTag :=
  match t with
  | [] => None
  | (k', v) :: t' => if String.eqb k k' then Some v else lookup_tag k t'
  end.

Record World : Type := {
  (** [json.loads(result.stdout)] for [exiftool -j -n -a -u -G1 path]:
      [None] when the command cannot be run, exits with a non-zero code,
      prints nothing, or prints no JSON *)
  exiftool_json : string -> option pyval;
  (** [extract_all_metadata(path)]: the (tag name, text) pairs of the
      debugging scan; it catches every exception itself *)
  extract_all_metadata : string -> list (string * string);
  (** [open(path, 'rb')] and [exifread.process_file(f, details=False)];
      [None] when either raises *)
  exifread_tags : string -> option Tags;
  (** [Image.open(path)] and [img.size]; [None] when opening raises *)
  image_size : string -> option (Z * Z);
  (** the temporary JPEG written for a HEIC image: its name, or [None]
      when creating, converting or saving raises *)
  heic_to_jpeg : string -> option string;
  (** [os.path.exists('/usr/bin/mdls')], [os.path.exists('/usr/bin/sips')] *)
  mdls_exists : bool;
  sips_exists : bool;
  (** [/usr/bin/mdls -name attribute path] *)
  mdls : string -> string -> proc;
  (** [/usr/bin/sips -j metadata path] *)
  sips : string -> proc;
  (** [exiftool -n -json -GPSLatitude -GPSLongitude path]: the value
      decoded from its JSON output; [None] when the command cannot be run,
      exits with a non-zero code, prints nothing, or prints no JSON *)
  exiftool_gps : string -> option pyval;
  (** [os.path.exists(path)] and the text of a readable file *)
  path_exists : string -> bool;
  read_text : string -> option string;
  (** whether [strftime] prints [%Y] on four digits on this host *)
  strftime_pads_year : bool
}.

(** [get_heic_metadata_with_exiftool(photo_path)]: the first element of
    the JSON array the tool printed, whatever its type, and the empty dict
    in every other case. *)
Definition get_heic_metadata_with_exiftool (w : World) (photo_path : string)
  : pyval :=
  match exiftool_json w photo_path with
  | Some (PyList (first :: _)) => first
  | _ => PyDict []
  end.

(** [field == x] for a string [field] *)
Definition is_text (field : string) (x : pyval) : bool :=
  match x with
  | PyStr s => String.eqb field s
  | _ => false
  end.

(** [field in v]: a key of a dict, a part of a text, an element of a
    list; other values are no containers. *)
Definition py_in (field : string) (v : pyval) : result bool :=
  match v with
  | PyDict d => Ok (has_key field d)
  | PyStr s => Ok (contains field s)
  | PyList l => Ok (existsb (is_text field) l)
  | PyNone | PyBool _ | PyInt _ | PyFloat _ | PyRatio _ _ => Raise TypeError
  end.

(** The loop [for field in fields: if field in v and v[field] ...] on a
    value [v] that is no dict: for the first field found in [v] the
    subscript [v[field]] raises [TypeError], a text and a list having
    integer indices only. *)
Fixpoint subscript_fields (v : pyval) (fields : list string) : result unit :=
  match fields with
  | [] => Ok tt
  | field :: rest =>
      present <- py_in field v ;;
      if present then Raise TypeError else subscript_fields v rest
  end.

(** ** The GPS coordinate normaliser *)

Section Processor.

(** [float(s)] for a string: [Some q] when Python parses [s] as the float
    [q], [None] when it raises [ValueError]. *)
Variable float_of_str : string -> option Q.

(** [float(v)]: an [int] and a rational are rounded to the nearest float,
    and raise [OverflowError] when that is infinite. *)
Definition py_float (v : pyval) : result Q :=
  match v with
  | PyBool b => Ok (if b then 1%Q else 0%Q)
  | PyInt z =>
      if Z.abs z <? float_int_limit then Ok (round64 (inject_Z z))
      else Raise OverflowError
  | PyFloat q => Ok q
  | PyRatio num den =>
      if den =? 0 then Raise ZeroDivisionError
      else
        let q := round64 (inject_Z num / inject_Z den)%Q in
        if is_inf q then Raise OverflowError else Ok q
  | PyStr s =>
      match float_of_str s with
      | Some q => Ok q
      | None => Raise ValueError
      end
  | PyNone | PyList _ | PyDict _ => Raise TypeError
  end.

(** [degrees + (minutes / 60.0) + (seconds / 3600.0)] *)
Definition dms_to_decimal (degrees minutes seconds : Q) : Q :=
  fadd (fadd degrees (fdiv minutes 60)) (fdiv seconds 3600).

(** The body of [convert_gps_to_decimal] inside its [try]: [Ok None] is the
    explicit [return None] of the unknown-format branch. *)
Definition convert_gps_body (gps_coords gps_ref : pyval) : result (option Q) :=
  decimal <-
    match gps_coords with
    | PyList [d; m; s] =>
        degrees <- py_float d ;;
        minutes <- py_float m ;;
        seconds <- py_float s ;;
        Ok (Some (dms_to_decimal degrees minutes seconds))
    | PyStr text =>
        let text := strip (remove_char dquote (remove_char "'" (remove_deg text))) in
        match split_ws text with
        | p0 :: rest =>
            degrees <- py_float (PyStr p0) ;;
            minutes <- match rest with
                       | p1 :: _ => py_float (PyStr p1)
                       | [] => Ok 0%Q
                       end ;;
            seconds <- match rest with
                       | _ :: p2 :: _ => py_float (PyStr p2)
                       | _ => Ok 0%Q
                       end ;;
            Ok (Some (dms_to_decimal degrees minutes seconds))
        | [] =>
            q <- py_float (PyStr text) ;;
            Ok (Some q)
        end
    | PyBool _ | PyInt _ | PyFloat _ =>
        q <- py_float gps_coords ;;
        Ok (Some q)
    | _ => Ok None
    end ;;
  match decimal with
  | None => Ok None
  | Some q => Ok (Some (if is_south_or_west gps_ref then (- q)%Q else q))
  end.

Definition convert_gps_to_decimal (gps_coords gps_ref : pyval) : option Q :=
  try_except (convert_gps_body gps_coords gps_ref) None.

(** ** The GPS resolver *)

(** The local variables [latitude, longitude] of [extract_gps_data]. *)
Definition gps_state : Type := (option Q * option Q)%type.

(** [latitude is None or longitude is None] *)
Definition incomplete (st : gps_state) : bool :=
  match st with
  | (Some _, Some _) => false
  | _ => true
  end.

(** [latitude = e1; longitude = e2] inside a [try]: an exception in [e1]
    leaves both variables, an exception in [e2] leaves [longitude]. The
    flag tells whether both assignments were made. *)
Definition assign_both (st : gps_state) (e1 e2 : result (option Q))
  : gps_state * bool :=
  match e1 with
  | Raise _ => (st, false)
  | Ok la =>
      match e2 with
      | Raise _ => ((la, snd st), false)
      | Ok lo => ((la, lo), true)
      end
  end.

Definition float_opt (v : pyval) : result (option Q) :=
  q <- py_float v ;; Ok (Some q).

Definition gps_keys : list (string * option string * option string * option string) :=
  [ ("EXIF:GPSLatitude", Some "EXIF:GPSLatitudeRef",
     Some "EXIF:GPSLongitude", Some "EXIF:GPSLongitudeRef");
    ("Composite:GPSLatitude", Some "Composite:GPSLatitudeRef",
     Some "Composite:GPSLongitude", Some "Composite:GPSLongitudeRef");
    ("XMP:GPSLatitude", Some "XMP:GPSLatitudeRef",
     Some "XMP:GPSLongitude", Some "XMP:GPSLongitudeRef");
    ("GPS:Latitude", Some "GPS:LatitudeRef",
     Some "GPS:Longitude", Some "GPS:LongitudeRef");
    ("EXIF:GPSLatitude", None, Some "EXIF:GPSLongitude", None);
    ("Composite:GPSPosition", None, None, None) ].

(** [md.get(ref_key, default) if ref_key else default] *)
Definition reference (md : MetadataBag) (ref_key : option string)
  (default : string) : pyval :=
  match ref_key with
  | Some k => if String.eqb k EmptyString then PyStr default
              else get_default k (PyStr default) md
  | None => PyStr default
  end.

(** [convert_gps_to_decimal(v, ref) if ref else float(v)], after the
    reference of an already negative number has been dropped. *)
Definition coordinate (v ref : pyval) : result (option Q) :=
  let ref := if is_negative_number v then PyNone else ref in
  if truthy ref then Ok (convert_gps_to_decimal v ref) else float_opt v.

(** One iteration of the loop over [gps_keys]; the flag is [true] when the
    iteration ends in [break]. *)
Definition gps_try_keys (md : MetadataBag)
  (keys : string * option string * option string * option string)
  (st : gps_state) : gps_state * bool :=
  let '(lat_key, lat_ref_key, lon_key, lon_ref_key) := keys in
  if String.eqb lat_key "Composite:GPSPosition" && has_key lat_key md then
    match lookup lat_key md with
    | Some (PyStr position) =>
        if contains "," position then
          match split_on "," position with
          | [lat_str; lon_str] =>
              assign_both st (float_opt (PyStr (strip lat_str)))
                             (float_opt (PyStr (strip lon_str)))
          | _ => (st, false)
          end
        else (st, false)
    | _ => (st, false)
    end
  else
    match lon_key with
    | Some lon_key =>
        match lookup lat_key md, lookup lon_key md with
        | Some lat, Some lon =>
            assign_both st
              (coordinate lat (reference md lat_ref_key "N"))
              (coordinate lon (reference md lon_ref_key "E"))
        | _, _ => (st, false)
        end
    | None => (st, false)
    end.

Fixpoint gps_key_loop (md : MetadataBag)
  (keys : list (string * option string * option string * option string))
  (st : gps_state) : gps_state :=
  match keys with
  | [] => st
  | k :: rest =>
      let '(st', broke) := gps_try_keys md k st in
      if broke then st' else gps_key_loop md rest st'
  end.

(** Source 1: the external tool's metadata. *)
Definition gps_from_exiftool (md : MetadataBag) (st : gps_state) : gps_state :=
  match md with
  | [] => st
  | _ => gps_key_loop md gps_keys st
  end.

(** Source 2: the embedded tags. A missing reference tag makes
    [tags.get(key, 'N').values] raise, which ends the step. *)
Definition gps_from_tags (tags : Tags) (st : gps_state) : gps_state :=
  match lookup_tag "GPS GPSLatitude" tags, lookup_tag "GPS GPSLongitude" tags with
  | Some lat, Some lon =>
      match lookup_tag "GPS GPSLatitudeRef" tags,
            lookup_tag "GPS GPSLongitudeRef" tags with
      | Some lat_ref, Some lon_ref =>
          (convert_gps_to_decimal (values lat) (values lat_ref),
           convert_gps_to_decimal (values lon) (values lon_ref))
      | _, _ => st
      end
  | _, _ => st
  end.

(** Source 3: the OS metadata service. *)
Definition gps_from_mdls (w : World) (file_path : string) (st : gps_state)
  : gps_state :=
  match mdls w "kMDItemLatitude" file_path, mdls w "kMDItemLongitude" file_path with
  | ProcDone lat_code lat_out, ProcDone lon_code lon_out =>
      if (lat_code =? 0) && (lon_code =? 0) then
        match search_eq_number (strip lat_out), search_eq_number (strip lon_out) with
        | Some lat_text, Some lon_text =>
            fst (assign_both st (float_opt (PyStr lat_text))
                                (float_opt (PyStr lon_text)))
        | _, _ => st
        end
      else st
  | _, _ => st
  end.

(** Source 4: the narrow invocation of the external tool. Only a JSON
    array whose first element is an object can assign: on any other first
    element the membership test is false or the subscript raises
    [TypeError], which the step catches. *)
Definition gps_from_direct (w : World) (file_path : string) (st : gps_state)
  : gps_state :=
  match exiftool_gps w file_path with
  | Some (PyList (PyDict gps_data :: _)) =>
      match lookup "GPSLatitude" gps_data, lookup "GPSLongitude" gps_data with
      | Some lat, Some lon => fst (assign_both st (float_opt lat) (float_opt lon))
      | _, _ => st
      end
  | _ => st
  end.

Definition in_range (latitude longitude : Q) : bool :=
  Qle_bool (-90) latitude && Qle_bool latitude 90 &&
  Qle_bool (-180) longitude && Qle_bool longitude 180.

(** The final validation of [extract_gps_data]. *)
Definition validate (st : gps_state) : gps_state :=
  match st with
  | (Some latitude, Some longitude) =>
      if in_range latitude longitude then (Some latitude, Some longitude)
      else (None, None)
  | _ => (None, None)
  end.

(** [if (latitude is None or longitude is None) and cond: step] *)
Definition when_incomplete (cond : bool) (step : gps_state -> gps_state)
  (st : gps_state) : gps_state :=
  if incomplete st && cond then step st else st.

Definition tags_truthy (tags : option Tags) : bool :=
  match tags with
  | Some (_ :: _) => true
  | _ => false
  end.

Definition tags_or_empty (tags : option Tags) : Tags :=
  match tags with
  | Some t => t
  | None => []
  end.

(** The cascade of [extract_gps_data] before the final validation. *)
Definition gps_cascade (w : World) (tags : option Tags)
  (exiftool_metadata : MetadataBag) (file_path : string) : gps_state :=
  let st := gps_from_exiftool exiftool_metadata (None, None) in
  let st := when_incomplete (tags_truthy tags)
              (gps_from_tags (tags_or_empty tags)) st in
  let st := when_incomplete (mdls_exists w) (gps_from_mdls w file_path) st in
  when_incomplete (negb (String.eqb file_path EmptyString))
    (gps_from_direct w file_path) st.

(** [extract_gps_data]. On a truthy value that is no dict no iteration of
    the key loop can assign (the membership test is false, or it or the
    subscript raises into the [except] of the loop), so the coordinates
    are still [None] when [exiftool_metadata.items()] is called, outside
    any [try]: [AttributeError]. *)
Definition extract_gps_data (w : World) (tags : option Tags)
  (exiftool_metadata : pyval) (file_path : string) : result gps_state :=
  if truthy exiftool_metadata && negb (is_dict exiftool_metadata)
  then Raise AttributeError
  else Ok (validate (gps_cascade w tags (as_dict exiftool_metadata) file_path)).

(** ** The orientation resolver *)

Definition orientation_fields : list string :=
  [ "EXIF:GPSImgDirection"; "XMP:GPSImgDirection"; "GPS:GPSImgDirection";
    "GPS:ImgDirection"; "EXIF:GPSDestBearing"; "XMP:GPSDestBearing" ].

Definition orientation_tags : list string :=
  [ "GPS GPSImgDirection"; "GPS GPSDestBearing" ].

Definition is_none (v : pyval) : bool :=
  match v with
  | PyNone => true
  | _ => false
  end.

Definition value_or_type (e : exn) : bool :=
  match e with
  | ValueError | TypeError => true
  | _ => false
  end.

Definition value_type_or_index (e : exn) : bool :=
  match e with
  | ValueError | TypeError | IndexError => true
  | _ => false
  end.

(** The loop over [orientation_fields]: [except (ValueError, TypeError):
    continue]. *)
Fixpoint orientation_from_exiftool (md : MetadataBag) (fields : list string)
  : result (option Q) :=
  match fields with
  | [] => Ok None
  | field :: rest =>
      match lookup field md with
      | Some v =>
          if is_none v then orientation_from_exiftool md rest
          else catch value_or_type (float_opt v)
                 (orientation_from_exiftool md rest)
      | None => orientation_from_exiftool md rest
      end
  end.

(** [v[0]] *)
Definition index0 (v : pyval) : result pyval :=
  match v with
  | PyList (x :: _) => Ok x
  | PyList [] => Raise IndexError
  | PyStr (String c _) => Ok (PyStr (String c EmptyString))
  | PyStr EmptyString => Raise IndexError
  | PyDict _ => Raise KeyError
  | PyNone | PyBool _ | PyInt _ | PyFloat _ | PyRatio _ _ => Raise TypeError
  end.

(** The loop over [orientation_tags]: [except (ValueError, TypeError,
    IndexError): continue]. *)
Fixpoint orientation_from_tags (tags : Tags) (names : list string)
  : result (option Q) :=
  match names with
  | [] => Ok None
  | tag :: rest =>
      match lookup_tag tag tags with
      | Some t =>
          catch value_type_or_index
            (value <- index0 (values t) ;; float_opt value)
            (orientation_from_tags tags rest)
      | None => orientation_from_tags tags rest
      end
  end.

(** [extract_orientation_data]. The membership test and the subscript of
    the first loop are outside its [try]. *)
Definition extract_orientation_data (tags : option Tags)
  (exiftool_metadata : pyval) : result (option Q) :=
  orientation <-
    (if truthy exiftool_metadata then
       match exiftool_metadata with
       | PyDict md => orientation_from_exiftool md orientation_fields
       | _ =>
           checked <- subscript_fields exiftool_metadata orientation_fields ;;
           Ok None
       end
     else Ok None) ;;
  match orientation with
  | None =>
      if tags_truthy tags
      then orientation_from_tags (tags_or_empty tags) orientation_tags
      else Ok None
  | Some o => Ok (Some o)
  end.

(** ** The per-photo orchestrator *)

(** [d[k] = v] *)
Fixpoint setitem (k : string) (v : pyval) (d : MetadataBag) : MetadataBag :=
  match d with
  | [] => [(k, v)]
  | (k', v') :: d' =>
      if String.eqb k k' then (k, v) :: d' else (k', v') :: setitem k v d'
  end.

(** [not photo_data['caption']] *)
Definition no_caption (photo_data : MetadataBag) : bool :=
  negb (truthy (get_default "caption" PyNone photo_data)).

Definition set_caption (c : option pyval) (photo_data : MetadataBag) : MetadataBag :=
  match c with
  | Some v => setitem "caption" v photo_data
  | None => photo_data
  end.

Definition description_fields : list string :=
  [ "EXIF:ImageDescription"; "XMP:Description"; "XMP:Title"; "XMP:Headline";
    "XMP:Caption"; "XMP:CaptionWriter"; "IPTC:Caption-Abstract";
    "IPTC:Headline"; "QuickTime:Title"; "QuickTime:Description";
    "Apple:Description" ].

(** Step 1 (HEIC only): the first listed field with a truthy value; the
    value is stored as it is. *)
Fixpoint first_description_field (md : MetadataBag) (fields : list string)
  : option pyval :=
  match fields with
  | [] => None
  | field :: rest =>
      match lookup field md with
      | Some v => if truthy v then Some v else first_description_field md rest
      | None => first_description_field md rest
      end
  end.

Definition nonempty (s : string) : bool := negb (String.eqb s EmptyString).

(** Step 2: the first debugging tag with [value and value.strip()]; the
    stripped value is stored. *)
Fixpoint first_description_tag (description_tags : list (string * string))
  : option pyval :=
  match description_tags with
  | [] => None
  | (_, value) :: rest =>
      if nonempty value && nonempty (strip value)
      then Some (PyStr (strip value))
      else first_description_tag rest
  end.

Definition caption_tags : list string :=
  [ "Image ImageDescription"; "EXIF UserComment"; "XMP:Description";
    "IPTC:Caption-Abstract"; "EXIF:ImageDescription"; "EXIF:UserComment";
    "EXIF:XPComment"; "EXIF:XPSubject"; "EXIF:XPTitle"; "EXIF:Description";
    "EXIF:Subject" ].

(** Step 3: the first well-known tag whose [str(tag).strip()] is not
    empty. *)
Fixpoint first_caption_tag (tags : Tags) (names : list string) : option pyval :=
  match names with
  | [] => None
  | tag :: rest =>
      match lookup_tag tag tags with
      | Some t =>
          let caption := strip (printable t) in
          if nonempty caption then Some (PyStr caption)
          else first_caption_tag tags rest
      | None => first_caption_tag tags rest
      end
  end.

(** The quoted value of one [mdls -name attribute] answer. *)
Definition mdls_quoted (attribute : string) (returncode : Z) (stdout : string)
  : option pyval :=
  if (returncode =? 0) && nonempty stdout then
    let output := strip stdout in
    if contains attribute output && negb (contains "(null)" output) then
      match search_quoted output with
      | Some g => Some (PyStr g)
      | None => None
      end
    else None
  else None.

Definition mdls_caption_fields : list string :=
  [ "kMDItemTitle"; "kMDItemSubject"; "kMDItemComment"; "kMDItemHeadline" ].

(** A failing command raises out of the loop and ends the [mdls] step. *)
Fixpoint mdls_field_loop (w : World) (photo_path : string)
  (fields : list string) (photo_data : MetadataBag) : MetadataBag :=
  match fields with
  | [] => photo_data
  | field :: rest =>
      match mdls w field photo_path with
      | ProcFails => photo_data
      | ProcDone returncode stdout =>
          match mdls_quoted field returncode stdout with
          | Some c => setitem "caption" c photo_data
          | None => mdls_field_loop w photo_path rest photo_data
          end
      end
  end.

(** Step 4: the OS metadata service, attribute by attribute. *)
Definition mdls_caption_step (w : World) (photo_path : string)
  (photo_data : MetadataBag) : MetadataBag :=
  if no_caption photo_data && mdls_exists w then
    match mdls w "kMDItemDescription" photo_path with
    | ProcFails => photo_data
    | ProcDone returncode stdout =>
        let photo_data :=
          set_caption (mdls_quoted "kMDItemDescription" returncode stdout)
                      photo_data in
        if no_caption photo_data
        then mdls_field_loop w photo_path mdls_caption_fields photo_data
        else photo_data
    end
  else photo_data.

(** Step 5: the bulk query of the OS image tool. *)
Definition sips_caption_step (w : World) (photo_path : string)
  (photo_data : MetadataBag) : MetadataBag :=
  if no_caption photo_data && sips_exists w then
    match sips w photo_path with
    | ProcFails => photo_data
    | ProcDone returncode stdout =>
        if (returncode =? 0) && nonempty stdout
           && contains "description" (lower stdout) then
          match search_sips_description stdout with
          | Some g => setitem "caption" (PyStr g) photo_data
          | None => photo_data
          end
        else photo_data
    end
  else photo_data.

(** Step 6: the edit sidecar next to the photo. *)
Definition aae_caption_step (w : World) (photo_path : string)
  (photo_data : MetadataBag) : MetadataBag :=
  let aae_path := splitext_root photo_path ++ ".AAE" in
  if no_caption photo_data && path_exists w aae_path then
    match read_text w aae_path with
    | Some aae_content =>
        match search_aae_description aae_content with
        | Some g => setitem "caption" (PyStr g) photo_data
        | None => photo_data
        end
    | None => photo_data
    end
  else photo_data.

Definition set_size (size : Z * Z) (photo_data : MetadataBag) : MetadataBag :=
  setitem "height" (PyInt (snd size)) (setitem "width" (PyInt (fst size)) photo_data).

(** The dimension part of the HEIC branch, with its own [try]. *)
Definition heic_dimensions (w : World) (photo_path : string)
  (photo_data : MetadataBag) : MetadataBag :=
  match image_size w photo_path with
  | Some size =>
      let photo_data := set_size size photo_data in
      match heic_to_jpeg w photo_path with
      | Some name => setitem "temp_file" (PyStr name) photo_data
      | None => photo_data
      end
  | None => photo_data
  end.

(** The embedded-tag part of the non-HEIC branch, with its own [try]. *)
Definition exif_captions (w : World) (photo_path : string)
  (description_tags : list (string * string)) (photo_data : MetadataBag)
  : MetadataBag :=
  match exifread_tags w photo_path with
  | Some tags =>
      let photo_data := set_caption (first_description_tag description_tags)
                                    photo_data in
      if no_caption photo_data
      then set_caption (first_caption_tag tags caption_tags) photo_data
      else photo_data
  | None => photo_data
  end.

(** The block under the first [if not photo_data['caption']]. For another
    format than HEIC a failure to open the image raises to the outer
    [except], which skips the rest of the block. *)
Definition caption_and_dimensions (w : World) (photo_path : string)
  (is_heic : bool) (photo_data : MetadataBag) : MetadataBag :=
  let description_tags := extract_all_metadata w photo_path in
  let later_steps (photo_data : MetadataBag) :=
    aae_caption_step w photo_path
      (sips_caption_step w photo_path
         (mdls_caption_step w photo_path photo_data)) in
  if is_heic then
    let photo_data := heic_dimensions w photo_path photo_data in
    later_steps (set_caption (first_description_tag description_tags) photo_data)
  else
    match image_size w photo_path with
    | Some size =>
        later_steps
          (exif_captions w photo_path description_tags (set_size size photo_data))
    | None => photo_data
    end.

Definition store_gps (gps : gps_state) (photo_data : MetadataBag) : MetadataBag :=
  match gps with
  | (Some latitude, Some longitude) =>
      setitem "longitude" (PyFloat longitude)
        (setitem "latitude" (PyFloat latitude) photo_data)
  | _ => photo_data
  end.

Definition store_orientation (o : option Q) (photo_data : MetadataBag)
  : MetadataBag :=
  match o with
  | Some q => setitem "orientation" (PyFloat q) photo_data
  | None => photo_data
  end.

Definition is_heic_path (photo_path : string) : bool :=
  endswith ".heic" (lower photo_path).

Definition new_photo_data (photo_path : string) : MetadataBag :=
  [ ("path", PyStr photo_path);
    ("filename", PyStr (basename photo_path));
    ("caption", PyNone);
    ("temp_file", PyNone) ].

(** The record after steps 1 to 6 of the caption cascade, when step 1
    does not raise (see [description_fields_check]): a value of the tool
    that is no dict then has none of the fields. *)
Definition caption_cascade (w : World) (photo_path : string) : MetadataBag :=
  let photo_data := new_photo_data photo_path in
  let is_heic := is_heic_path photo_path in
  let photo_data :=
    if is_heic
    then set_caption
           (first_description_field
              (as_dict (get_heic_metadata_with_exiftool w photo_path))
              description_fields)
           photo_data
    else photo_data in
  if no_caption photo_data
  then caption_and_dimensions w photo_path is_heic photo_data
  else photo_data.

(** The record once the caption is settled: the filename fallback applies
    when the cascade left no caption. *)
Definition resolve_caption (w : World) (photo_path : string) : MetadataBag :=
  let photo_data := caption_cascade w photo_path in
  if no_caption photo_data
  then setitem "caption"
         (PyStr (fallback_caption (strftime_pads_year w) (basename photo_path)))
         photo_data
  else photo_data.

(** The tags read for the GPS and orientation stage: none for HEIC, none
    when the reader raises. *)
Definition photo_tags (w : World) (photo_path : string) : option Tags :=
  if is_heic_path photo_path then None else exifread_tags w photo_path.

(** The exception of step 1 of the caption cascade, whose loop over
    [description_fields] is outside any [try]: none on a dict. *)
Definition description_fields_check (exiftool_metadata : pyval) : result unit :=
  match exiftool_metadata with
  | PyDict _ => Ok tt
  | _ => subscript_fields exiftool_metadata description_fields
  end.

Definition extract_metadata_from_photo (w : World) (photo_path : string)
  : result MetadataBag :=
  checked <-
    (if is_heic_path photo_path
     then description_fields_check
            (get_heic_metadata_with_exiftool w photo_path)
     else Ok tt) ;;
  let photo_data := resolve_caption w photo_path in
  let exiftool_metadata := get_heic_metadata_with_exiftool w photo_path in
  let tags := photo_tags w photo_path in
  gps <- extract_gps_data w tags exiftool_metadata photo_path ;;
  let photo_data := store_gps gps photo_data in
  orientation <- extract_orientation_data tags exiftool_metadata ;;
  Ok (store_orientation orientation photo_data).

(** ** The batch entry point *)

Fixpoint extract_metadata_from_photos (w : World) (photo_paths : list string)
  : result (list MetadataBag) :=
  match photo_paths with
  | [] => Ok []
  | photo_path :: rest =>
      photo_data <- extract_metadata_from_photo w photo_path ;;
      photo_data_list <- extract_metadata_from_photos w rest ;;
      Ok (photo_data :: photo_data_list)
  end.

End Processor.

(** ** Temporary-file clean-up *)

(** The file system: the paths that exist. *)
Definition FileSystem : Type := list string.

Definition file_in (p : string) (fs : FileSystem) : bool :=
  existsb (String.eqb p) fs.

Definition delete_file (p : string) (fs : FileSystem) : FileSystem :=
  filter (fun q => negb (String.eqb p q)) fs.

(** [os.unlink(p)]: [can_unlink] tells which existing files the process
    is allowed to remove; otherwise [OSError] is raised. *)
Definition os_unlink (can_unlink : string -> bool) (p : string)
  (fs : FileSystem) : result FileSystem :=
  if file_in p fs && can_unlink p then Ok (delete_file p fs)
  else Raise OSError.

(** The state threaded through the clean-up: the file system and the
    calls made to [os.unlink], each with its success. *)
Definition CleanupState : Type := (FileSystem * list (string * bool))%type.

(** One iteration of the loop of [cleanup_temp_files]. An entry that is
    truthy but no dict has no [get] ([AttributeError]); a truthy temp_file
    that is no string is no path for [os.path.exists] ([TypeError]; the
    file descriptors Python accepts there are not modelled). *)
Definition cleanup_entry (can_unlink : string -> bool) (photo_data : pyval)
  (st : CleanupState) : result CleanupState :=
  let '(fs, calls) := st in
  if truthy photo_data then
    match photo_data with
    | PyDict d =>
        let temp_file := get_default "temp_file" PyNone d in
        if truthy temp_file then
          match temp_file with
          | PyStr p =>
              if file_in p fs then
                Ok (try_except
                      (fs' <- os_unlink can_unlink p fs ;;
                       Ok (fs', (calls ++ [(p, true)])%list))
                      (fs, (calls ++ [(p, false)])%list))
              else Ok st
          | _ => Raise TypeError
          end
        else Ok st
    | _ => Raise AttributeError
    end
  else Ok st.

Fixpoint cleanup_loop (can_unlink : string -> bool) (entries : list pyval)
  (st : CleanupState) : result CleanupState :=
  match entries with
  | [] => Ok st
  | photo_data :: rest =>
      st' <- cleanup_entry can_unlink photo_data st ;;
      cleanup_loop can_unlink rest st'
  end.

(** [cleanup_temp_files(photo_data_list)], run on the file system [fs]. *)
Definition cleanup_temp_files (can_unlink : string -> bool)
  (photo_data_list : option (list pyval)) (fs : FileSystem)
  : result CleanupState :=
  match photo_data_list with
  | None => Ok (fs, [])
  | Some entries => cleanup_loop can_unlink entries (fs, [])
  end.

(** The paths handed to [os.unlink], and those it removed. *)
Definition attempted (calls : list (string * bool)) : list string :=
  map fst calls.

Definition deleted (calls : list (string * bool)) : list string :=
  map fst (filter snd calls).

(** ** Keys of the photo record *)

(** The keys written by the caption steps and the dimension reading. *)
Definition caption_size_key (k : string) : Prop :=
  k = "caption" \/ k = "width" \/ k = "height".

(** The keys written while the caption and the dimensions are resolved. *)
Definition caption_stage_key (k : string) : Prop :=
  caption_size_key k \/ k = "temp_file".

(** [f] leaves every key outside [K] as it was. *)
Definition keeps_outside (K : string -> Prop)
  (f : MetadataBag -> MetadataBag) : Prop :=
  forall k d, ~ K k -> lookup k (f d) = lookup k d.

(** The temporary file of a record: [None], or the name of the copy. *)
Definition temp_file_shape (d : MetadataBag) : Prop :=
  lookup "temp_file" d = Some PyNone \/
  exists name, lookup "temp_file" d = Some (PyStr name).

(** ** Entries of the clean-up *)

(** An entry as the batch produces it: a dict whose temporary file is
    [None] or a file name. *)
Definition record_entry (v : pyval) : Prop :=
  exists d, v = PyDict d /\ temp_file_shape d.

(** An entry the clean-up has nothing to do for: [None], a dict without a
    truthy temporary file, or a dict whose temporary file does not exist. *)
Definition skipped_entry (fs : FileSystem) (v : pyval) : Prop :=
  v = PyNone \/
  exists d, v = PyDict d /\
    (truthy (get_default "temp_file" PyNone d) = false \/
     exists p, lookup "temp_file" d = Some (PyStr p) /\ file_in p fs = false).

(** The path the clean-up considers for a record entry. *)
Definition entry_path (v : pyval) : option string :=
  match v with
  | PyDict d =>
      match lookup "temp_file" d with
      | Some (PyStr p) => if nonempty p then Some p else None
      | _ => None
      end
  | _ => None
  end.

(** The effect of one loop iteration on a record entry with that path. *)
Definition unlink_step (can_unlink : string -> bool) (st : CleanupState)
  (path : option string) : CleanupState :=
  match path with
  | None => st
  | Some p =>
      if file_in p (fst st) then
        if can_unlink p
        then (delete_file p (fst st), (snd st ++ [(p, true)])%list)
        else (fst st, (snd st ++ [(p, false)])%list)
      else st
  end.

(** ** Declarative reading of the date pattern *)

Fixpoint all_digits (s : string) : bool :=
  match s with
  | String c s' => is_digit c && all_digits s'
  | EmptyString => true
  end.

(** An optional separator: nothing, a hyphen or an underscore. *)
Definition optional_sep (s : string) : bool :=
  String.eqb s EmptyString || String.eqb s "-" || String.eqb s "_".

(** [date_at s y m d]: the date pattern matches at the start of [s], with
    the groups [y], [m] and [d]. *)
Inductive date_at : string -> string -> string -> string -> Prop :=
| date_at_intro (y s1 m s2 d rest : string) :
    String.length y = 4%nat -> all_digits y = true ->
    optional_sep s1 = true ->
    String.length m = 2%nat -> all_digits m = true ->
    optional_sep s2 = true ->
    String.length d = 2%nat -> all_digits d = true ->
    date_at (y ++ s1 ++ m ++ s2 ++ d ++ rest) y m d.

(** The shape of the year and day groups of a match. *)
Definition date_at_lengths (y m d : string) : Prop :=
  String.length y = 4%nat /\ all_digits y = true /\
  String.length d = 2%nat /\ all_digits d = true.

(** The pattern occurs in [filename] after the prefix [pre]. *)
Definition date_occurs (filename pre y m d : string) : Prop :=
  exists rest, filename = pre ++ rest /\ date_at rest y m d.

(** No occurrence starts before the end of [pre]. *)
Definition no_earlier_date (filename pre : string) : Prop :=
  forall pre' y m d,
    (String.length pre' < String.length pre)%nat ->
    ~ date_occurs filename pre' y m d.

(** ** Concrete inputs for the examples *)

(** A reader of plain decimal literals (sign, digits, optional fraction),
    standing for [float] on strings in the closed examples. *)
Definition unsigned_decimal (s : string) : option Q :=
  match split_on "." s with
  | [i] =>
      if nonempty i && all_digits i then Some (inject_Z (int_of_digits i))
      else None
  | [i; f] =>
      if (nonempty i || nonempty f) && all_digits i && all_digits f
      then Some (Qmake (int_of_digits (i ++ f))
                       (Z.to_pos (10 ^ Z.of_nat (String.length f))))
      else None
  | _ => None
  end.

Definition decimal_of_str (s : string) : option Q :=
  match strip s with
  | String "-" r => option_map Qopp (unsigned_decimal r)
  | String "+" r => unsigned_decimal r
  | r => unsigned_decimal r
  end.

(** A host without the OS metadata tools, where the external tool and the
    tag reader find nothing and every image opens. *)
Definition plain_world : World :=
  {| exiftool_json := fun _ => None;
     extract_all_metadata := fun _ => [];
     exifread_tags := fun _ => Some [];
     image_size := fun _ => Some (4032, 3024);
     heic_to_jpeg := fun _ => Some "/tmp/tmpk3v9x2.jpg";
     mdls_exists := false;
     sips_exists := false;
     mdls := fun _ _ => ProcFails;
     sips := fun _ => ProcFails;
     exiftool_gps := fun _ => None;
     path_exists := fun _ => false;
     read_text := fun _ => None;
     strftime_pads_year := true |}.

(** [plain_world] where the external tool prints the one value [item]
    for every photo. *)
Definition world_with_exiftool_item (item : pyval) : World :=
  {| exiftool_json := fun _ => Some (PyList [item]);
     extract_all_metadata := extract_all_metadata plain_world;
     exifread_tags := exifread_tags plain_world;
     image_size := image_size plain_world;
     heic_to_jpeg := heic_to_jpeg plain_world;
     mdls_exists := false;
     sips_exists := false;
     mdls := mdls plain_world;
     sips := sips plain_world;
     exiftool_gps := exiftool_gps plain_world;
     path_exists := path_exists plain_world;
     read_text := read_text plain_world;
     strftime_pads_year := strftime_pads_year plain_world |}.

(** [plain_world] where the external tool reports [md] for every photo. *)
Definition world_with_exiftool (md : MetadataBag) : World :=
  world_with_exiftool_item (PyDict md).

(** [plain_world] where the external tool reports [md] for the photo
    [special] only. *)
Definition world_with_exiftool_at (special : string) (md : MetadataBag) : World :=
  {| exiftool_json :=
       fun p => if String.eqb p special then Some (PyList [PyDict md]) else None;
     extract_all_metadata := extract_all_metadata plain_world;
     exifread_tags := exifread_tags plain_world;
     image_size := image_size plain_world;
     heic_to_jpeg := heic_to_jpeg plain_world;
     mdls_exists := false;
     sips_exists := false;
     mdls := mdls plain_world;
     sips := sips plain_world;
     exiftool_gps := exiftool_gps plain_world;
     path_exists := path_exists plain_world;
     read_text := read_text plain_world;
     strftime_pads_year := strftime_pads_year plain_world |}.

Definition tag (text : string) (v : pyval) : IfdTag :=
  {| printable := text; values := v |}.

(** Embedded GPS tags for 45 N, 10 E. *)
Definition tags_45N_10E : Tags :=
  [ ("GPS GPSLatitude",
     tag "[45, 0, 0]" (PyList [PyRatio 45 1; PyRatio 0 1; PyRatio 0 1]));
    ("GPS GPSLatitudeRef", tag "N" (PyStr "N"));
    ("GPS GPSLongitude",
     tag "[10, 0, 0]" (PyList [PyRatio 10 1; PyRatio 0 1; PyRatio 0 1]));
    ("GPS GPSLongitudeRef", tag "E" (PyStr "E")) ].

(** [plain_world] where the tag reader finds [tags] in the photo [special]. *)
Definition world_with_tags_at (special : string) (tags : Tags) : World :=
  {| exiftool_json := exiftool_json plain_world;
     extract_all_metadata := extract_all_metadata plain_world;
     exifread_tags := fun p => if String.eqb p special then Some tags else Some [];
     image_size := image_size plain_world;
     heic_to_jpeg := heic_to_jpeg plain_world;
     mdls_exists := false;
     sips_exists := false;
     mdls := mdls plain_world;
     sips := sips plain_world;
     exiftool_gps := exiftool_gps plain_world;
     path_exists := path_exists plain_world;
     read_text := read_text plain_world;
     strftime_pads_year := strftime_pads_year plain_world |}.

(** A compass bearing stored as the rational 0/0. *)
Definition tags_bearing_0_0 : Tags :=
  [ ("GPS GPSImgDirection", tag "[0/0]" (PyList [PyRatio 0 0])) ].

(** External-tool metadata with a latitude beyond the pole. *)
Definition md_lat95 : MetadataBag :=
  [ ("EXIF:GPSLatitude", PyFloat 95); ("EXIF:GPSLongitude", PyFloat 10) ].

(** ** The debugging scans *)

(** [any(term in s for term in terms)] *)
Definition contains_any (terms : list string) (s : string) : bool :=
  existsb (fun term => contains term s) terms.

(** The terms of [debug_heic_with_exiftool]. *)
Definition debug_terms : list string := [ "descr"; "caption"; "title"; "comment" ].

(** The keywords of [extract_all_metadata]. *)
Definition caption_keywords : list string :=
  [ "descr"; "comment"; "caption"; "title"; "subject" ].

(** [debug_heic_with_exiftool(photo_path)]: the dict of the
    description-like fields of the external tool's metadata;
    [metadata.items()] raises on a value that is no dict. *)
Definition debug_heic_with_exiftool (w : World) (photo_path : string)
  : result MetadataBag :=
  match get_heic_metadata_with_exiftool w photo_path with
  | PyDict metadata =>
      Ok (fold_left
            (fun description_fields kv =>
               if contains_any debug_terms (lower (fst kv))
               then setitem (fst kv) (snd kv) description_fields
               else description_fields)
            metadata [])
  | _ => Raise AttributeError
  end.

(** The pattern = QUOTE (.*?) QUOTE at the start of [s]: the lazy group
    runs up to the next quote and may be empty. *)
Definition match_eq_quoted_at (s : string) : option string :=
  match strip_prefix ("= " ++ String dquote EmptyString) s with
  | Some rest =>
      match drop_while not_quote rest with
      | String _ _ => Some (take_while not_quote rest)
      | EmptyString => None
      end
  | None => None
  end.

Fixpoint search_eq_quoted (s : string) : option string :=
  match match_eq_quoted_at s with
  | Some g => Some g
  | None =>
      match s with
      | String _ s' => search_eq_quoted s'
      | EmptyString => None
      end
  end.

(** The pattern QUOTE ([^QUOTE]+) QUOTE at the start of [s]: the group and
    what follows the closing quote. *)
Definition match_quoted_rest_at (s : string) : option (string * string) :=
  match s with
  | String c s' =>
      if Ascii.eqb c dquote then
        let g := take_while not_quote s' in
        match drop_while not_quote s' with
        | String _ rest => if String.eqb g EmptyString then None else Some (g, rest)
        | EmptyString => None
        end
      else None
  | EmptyString => None
  end.

(** The pattern QUOTE ([^QUOTE]+) QUOTE \s* : \s* QUOTE ([^QUOTE]+) QUOTE
    at the start of [s]: both groups. *)
Definition match_sips_pair_at (s : string) : option (string * string) :=
  match match_quoted_rest_at s with
  | Some (key, rest) =>
      match drop_while is_space rest with
      | String ":" rest' =>
          match match_quoted_at (drop_while is_space rest') with
          | Some value => Some (key, value)
          | None => None
          end
      | _ => None
      end
  | None => None
  end.

Fixpoint search_sips_pair (s : string) : option (string * string) :=
  match match_sips_pair_at s with
  | Some g => Some g
  | None =>
      match s with
      | String _ s' => search_sips_pair s'
      | EmptyString => None
      end
  end.

Definition not_equals_sign (c : ascii) : bool := negb (Ascii.eqb c "=").

(** [line.split('=')[0].strip()] *)
Definition key_of_line (line : string) : string :=
  strip (take_while not_equals_sign line).

(** The line feed, and [text.split('\n')]. *)
Definition newline : ascii := "010"%char.

Definition lines (text : string) : list string := split_on newline text.

(** What [extract_all_metadata] reads beyond the [World]: [str(value)] for
    a value of the external tool, the detailed pass of the tag reader
    ([None] when it raises) and the bulk query of the OS metadata
    service. *)
Record DebugSources : Type := {
  py_str : pyval -> string;
  exifread_detailed : string -> option Tags;
  mdls_all : string -> proc
}.

Module Debug.

(** The entries of the external tool: keys with a keyword, values that
    are truthy and not blank as text. *)
Fixpoint exiftool_description_tags (str : pyval -> string)
  (items : MetadataBag) : list (string * string) :=
  match items with
  | [] => []
  | (key, value) :: rest =>
      if contains_any caption_keywords (lower key)
         && truthy value && nonempty (strip (str value))
      then (key, str value) :: exiftool_description_tags str rest
      else exiftool_description_tags str rest
  end.

(** The entries of the detailed tag pass: names with a keyword, whatever
    the value. *)
Fixpoint exifread_description_tags (tags : Tags) : list (string * string) :=
  match tags with
  | [] => []
  | (tag_name, value) :: rest =>
      if contains_any caption_keywords (lower tag_name)
      then (tag_name, printable value) :: exifread_description_tags rest
      else exifread_description_tags rest
  end.

(** The entry of the specific description query of [mdls]. *)
Definition mdls_description_tag (returncode : Z) (stdout : string)
  : list (string * string) :=
  if (returncode =? 0) && nonempty stdout then
    let output := strip stdout in
    if contains "kMDItemDescription" output && negb (contains "(null)" output)
    then match search_quoted output with
         | Some description => [("mdls:kMDItemDescription", description)]
         | None => []
         end
    else []
  else [].

(** The entries of the lines of the bulk query of [mdls]. *)
Fixpoint mdls_line_tags (ls : list string) : list (string * string) :=
  match ls with
  | [] => []
  | line :: rest =>
      if contains_any caption_keywords (lower line) then
        match search_eq_quoted line with
        | Some value =>
            if String.eqb value "(null)" then mdls_line_tags rest
            else ("mdls:" ++ key_of_line line, value) :: mdls_line_tags rest
        | None => mdls_line_tags rest
        end
      else mdls_line_tags rest
  end.

(** The [mdls] block: a command that cannot be run ends the block; what
    was appended before stays. *)
Definition mdls_tags (w : World) (src : DebugSources) (photo_path : string)
  : list (string * string) :=
  if mdls_exists w then
    match mdls w "kMDItemDescription" photo_path with
    | ProcFails => []
    | ProcDone returncode stdout =>
        (mdls_description_tag returncode stdout ++
         match mdls_all src photo_path with
         | ProcFails => []
         | ProcDone returncode' stdout' =>
             if returncode' =? 0 then mdls_line_tags (lines stdout') else []
         end)%list
    end
  else [].

Fixpoint sips_line_tags (ls : list string) : list (string * string) :=
  match ls with
  | [] => []
  | line :: rest =>
      if contains_any caption_keywords (lower line) then
        match search_sips_pair line with
        | Some (key, value) => ("sips:" ++ key, value) :: sips_line_tags rest
        | None => sips_line_tags rest
        end
      else sips_line_tags rest
  end.

Definition sips_tags (w : World) (photo_path : string) : list (string * string) :=
  if sips_exists w then
    match sips w photo_path with
    | ProcFails => []
    | ProcDone returncode stdout =>
        if returncode =? 0 then sips_line_tags (lines stdout) else []
    end
  else [].

(** The HEIC block: [exiftool_metadata.items()] under
    [if exiftool_metadata], which raises on a truthy value that is no
    dict. *)
Definition exiftool_entries (str : pyval -> string) (exiftool_metadata : pyval)
  : result (list (string * string)) :=
  if truthy exiftool_metadata then
    match exiftool_metadata with
    | PyDict items => Ok (exiftool_description_tags str items)
    | _ => Raise AttributeError
    end
  else Ok [].

(** [extract_all_metadata(photo_path)]: the outer [except] returns the
    empty list. *)
Definition extract_all_metadata (w : World) (src : DebugSources)
  (photo_path : string) : list (string * string) :=
  let is_heic := is_heic_path photo_path in
  try_except
    (from_exiftool <-
       (if is_heic
        then exiftool_entries (py_str src)
               (get_heic_metadata_with_exiftool w photo_path)
        else Ok []) ;;
     let from_exifread :=
       if is_heic then []
       else match exifread_detailed src photo_path with
            | Some tags => exifread_description_tags tags
            | None => []
            end in
     Ok (from_exiftool ++ from_exifread ++ mdls_tags w src photo_path
           ++ sips_tags w photo_path)%list)
    [].

End Debug.

(** ** Worlds that differ in one collaborator *)

Definition with_exifread_tags (w : World) (reader : string -> option Tags)
  : World :=
  {| exiftool_json := exiftool_json w;
     extract_all_metadata := extract_all_metadata w;
     exifread_tags := reader;
     image_size := image_size w;
     heic_to_jpeg := heic_to_jpeg w;
     mdls_exists := mdls_exists w;
     sips_exists := sips_exists w;
     mdls := mdls w;
     sips := sips w;
     exiftool_gps := exiftool_gps w;
     path_exists := path_exists w;
     read_text := read_text w;
     strftime_pads_year := strftime_pads_year w |}.

Definition with_exiftool_metadata (w : World) (tool : string -> option pyval)
  : World :=
  {| exiftool_json := tool;
     extract_all_metadata := extract_all_metadata w;
     exifread_tags := exifread_tags w;
     image_size := image_size w;
     heic_to_jpeg := heic_to_jpeg w;
     mdls_exists := mdls_exists w;
     sips_exists := sips_exists w;
     mdls := mdls w;
     sips := sips w;
     exiftool_gps := exiftool_gps w;
     path_exists := path_exists w;
     read_text := read_text w;
     strftime_pads_year := strftime_pads_year w |}.

Definition with_detailed_reader (src : DebugSources)
  (reader : string -> option Tags) : DebugSources :=
  {| py_str := py_str src;
     exifread_detailed := reader;
     mdls_all := mdls_all src |}.

(** Sources for the examples: values are texts, the detailed pass finds
    nothing and the bulk query cannot be run. *)
Definition text_of (v : pyval) : string :=
  match v with
  | PyStr s => s
  | _ => "None"
  end.

Definition plain_sources : DebugSources :=
  {| py_str := text_of;
     exifread_detailed := fun _ => Some [];
     mdls_all := fun _ => ProcFails |}.

(** The world in which [extract_all_metadata] is the scan of [src]. *)
Definition with_debug_scan (w : World) (src : DebugSources) : World :=
  {| exiftool_json := exiftool_json w;
     extract_all_metadata := Debug.extract_all_metadata w src;
     exifread_tags := exifread_tags w;
     image_size := image_size w;
     heic_to_jpeg := heic_to_jpeg w;
     mdls_exists := mdls_exists w;
     sips_exists := sips_exists w;
     mdls := mdls w;
     sips := sips w;
     exiftool_gps := exiftool_gps w;
     path_exists := path_exists w;
     read_text := read_text w;
     strftime_pads_year := strftime_pads_year w |}.

(** [plain_world] on a host with the OS metadata service, which answers
    [answers attribute path]. *)
Definition world_with_mdls (answers : string -> string -> proc) : World :=
  {| exiftool_json := exiftool_json plain_world;
     extract_all_metadata := extract_all_metadata plain_world;
     exifread_tags := exifread_tags plain_world;
     image_size := image_size plain_world;
     heic_to_jpeg := heic_to_jpeg plain_world;
     mdls_exists := true;
     sips_exists := false;
     mdls := answers;
     sips := sips plain_world;
     exiftool_gps := exiftool_gps plain_world;
     path_exists := path_exists plain_world;
     read_text := read_text plain_world;
     strftime_pads_year := strftime_pads_year plain_world |}.

(** An answer of the form attribute = QUOTE A day out QUOTE. *)
Definition a_day_out (attribute photo_path : string) : proc :=
  ProcDone 0 (attribute ++ " = " ++ quoted "A day out").

(** ** Shapes of the photo record *)

(** The dimensions of a record: none, or those of the opened image. *)
Definition size_shape (size : option (Z * Z)) (d : MetadataBag) : Prop :=
  (lookup "width" d = None /\ lookup "height" d = None) \/
  exists wd ht, size = Some (wd, ht) /\
    lookup "width" d = Some (PyInt wd) /\ lookup "height" d = Some (PyInt ht).

(** Every character of [s] satisfies [p]. *)
Fixpoint all_chars (p : ascii -> bool) (s : string) : bool :=
  match s with
  | String c s' => p c && all_chars p s'
  | EmptyString => true
  end.

(** The keys of a dict, in order. *)
Definition keys (d : MetadataBag) : list string := map fst d.

(** * Properties *)

(** ** Rounding to binary64 *)

Local Open Scope Q_scope.

Lemma pow2_pos (e : Z) : 0 < pow2 e.
Proof. apply Qpower_0_lt. reflexivity. Qed.

Lemma pow2_add (a b : Z) : pow2 (a + b) == pow2 a * pow2 b.
Proof. apply Qpower_plus. discriminate. Qed.

Lemma pow2_le (a b : Z) : (a <= b)%Z -> pow2 a <= pow2 b.
Proof. intros H. apply Qpower_le_compat_l; [exact H | discriminate]. Qed.

Lemma pow2_inject (n : Z) : (0 <= n)%Z -> pow2 n == inject_Z (2 ^ n).
Proof. intros H. unfold pow2. rewrite Zpower_Qpower by exact H. reflexivity. Qed.

Lemma round_half_even_bounds (x : Q) :
  (Qfloor x <= round_half_even x <= Qfloor x + 1)%Z.
Proof.
  unfold round_half_even.
  destruct (x - inject_Z (Qfloor x) ?= 1 # 2); [destruct (Z.even (Qfloor x))| |]; lia.
Qed.

Lemma round_half_even_mono (x y : Q) :
  x <= y -> (round_half_even x <= round_half_even y)%Z.
Proof.
  intros Hxy.
  pose proof (Qfloor_resp_le x y Hxy) as Hf.
  pose proof (round_half_even_bounds x) as Bx.
  pose proof (round_half_even_bounds y) as By.
  destruct (Z.eq_dec (Qfloor x) (Qfloor y)) as [E|N]; [|lia].
  unfold round_half_even. rewrite <- E.
  destruct (x - inject_Z (Qfloor x) ?= 1 # 2) eqn:Cx;
    destruct (y - inject_Z (Qfloor x) ?= 1 # 2) eqn:Cy;
    try (destruct (Z.even (Qfloor x))); try lia;
    rewrite <- ?Qeq_alt, <- ?Qlt_alt, <- ?Qgt_alt in Cx;
    rewrite <- ?Qeq_alt, <- ?Qlt_alt, <- ?Qgt_alt in Cy;
    exfalso; lra.
Qed.

Lemma round_half_even_inject (k : Z) : round_half_even (inject_Z k) = k.
Proof.
  unfold round_half_even. rewrite Qfloor_Z.
  destruct (inject_Z k - inject_Z k ?= 1 # 2) eqn:C.
  - rewrite <- Qeq_alt in C. exfalso. lra.
  - reflexivity.
  - rewrite <- Qgt_alt in C. exfalso. lra.
Qed.

Lemma ilog2_spec (x : Q) : 0 < x -> pow2 (ilog2 x) <= x /\ x < pow2 (ilog2 x + 1).
Proof.
  intros Hx. destruct x as [n d]. unfold ilog2. cbn [Qnum Qden].
  assert (Hn : (0 < n)%Z).
  { unfold Qlt in Hx. cbn in Hx. lia. }
  set (ln := Z.log2 n). set (ld := Z.log2 (Z.pos d)).
  assert (Bn : (2 ^ ln <= n < 2 ^ (ln + 1))%Z).
  { pose proof (Z.log2_spec n Hn) as H. fold ln in H.
    replace (ln + 1)%Z with (Z.succ ln) by lia. exact H. }
  assert (Bd : (2 ^ ld <= Z.pos d < 2 ^ (ld + 1))%Z).
  { pose proof (Z.log2_spec (Z.pos d) eq_refl) as H. fold ld in H.
    replace (ld + 1)%Z with (Z.succ ld) by lia. exact H. }
  assert (Lnn : (0 <= ln)%Z) by apply Z.log2_nonneg.
  assert (Ldn : (0 <= ld)%Z) by apply Z.log2_nonneg.
  assert (Hq : n # d == inject_Z n / inject_Z (Z.pos d)) by apply Qmake_Qdiv.
  assert (Hd : 0 < inject_Z (Z.pos d)) by (unfold Qlt; cbn; lia).
  assert (Qn1 : pow2 ln <= inject_Z n).
  { rewrite pow2_inject by lia. rewrite <- Zle_Qle. lia. }
  assert (Qn2 : inject_Z n < pow2 (ln + 1)).
  { rewrite pow2_inject by lia. rewrite <- Zlt_Qlt. lia. }
  assert (Qd1 : pow2 ld <= inject_Z (Z.pos d)).
  { rewrite pow2_inject by lia. rewrite <- Zle_Qle. lia. }
  assert (Qd2 : inject_Z (Z.pos d) < pow2 (ld + 1)).
  { rewrite pow2_inject by lia. rewrite <- Zlt_Qlt. lia. }
  assert (Hmul : (n # d) * inject_Z (Z.pos d) == inject_Z n).
  { rewrite Hq. field. lra. }
  pose proof (pow2_pos ld) as Pld. pose proof (pow2_pos (ld + 1)) as Pld1.
  pose proof (pow2_pos (ln - ld)) as Pe.
  assert (Up : n # d < pow2 (ln - ld + 1)).
  { assert (E : pow2 (ln + 1) == pow2 (ln - ld + 1) * pow2 ld).
    { rewrite <- pow2_add. replace (ln - ld + 1 + ld)%Z with (ln + 1)%Z by lia.
      reflexivity. }
    assert (X : (n # d) * pow2 ld < pow2 (ln - ld + 1) * pow2 ld).
    { rewrite <- E. apply Qle_lt_trans with (y := inject_Z n); [|exact Qn2].
      rewrite <- Hmul. apply Qmult_le_l; [|exact Qd1]. exact Hx. }
    apply Qmult_lt_r in X; assumption. }
  assert (Lo : pow2 (ln - ld - 1) <= n # d).
  { assert (E : pow2 ln == pow2 (ln - ld - 1) * pow2 (ld + 1)).
    { rewrite <- pow2_add. replace (ln - ld - 1 + (ld + 1))%Z with ln by lia.
      reflexivity. }
    assert (X : pow2 (ln - ld - 1) * inject_Z (Z.pos d) <= (n # d) * inject_Z (Z.pos d)).
    { rewrite Hmul. apply Qle_trans with (y := pow2 ln); [|exact Qn1].
      rewrite E. apply Qmult_le_l; [apply pow2_pos | lra]. }
    apply Qmult_le_r in X; assumption. }
  destruct (Qle_bool (pow2 (ln - ld)) (n # d)) eqn:B.
  - apply Qle_bool_iff in B. split; assumption.
  - split; [exact Lo|].
    replace (ln - ld - 1 + 1)%Z with (ln - ld)%Z by lia.
    apply Qnot_le_lt. intros H. apply Qle_bool_iff in H. congruence.
Qed.

Lemma ilog2_mono (x y : Q) : 0 < x -> x <= y -> (ilog2 x <= ilog2 y)%Z.
Proof.
  intros Hx Hxy.
  destruct (ilog2_spec x Hx) as [Lx _].
  destruct (ilog2_spec y) as [_ Uy]; [lra|].
  destruct (Z_le_gt_dec (ilog2 x) (ilog2 y)) as [H|H]; [exact H|].
  exfalso.
  assert (pow2 (ilog2 y + 1) <= pow2 (ilog2 x)) by (apply pow2_le; lia).
  lra.
Qed.

Lemma round_mag_upper (x : Q) :
  0 < x -> round_mag x <= pow2 (Z.max (ilog2 x) (-1022) + 1).
Proof.
  intros Hx. unfold round_mag.
  set (e := Z.max (ilog2 x) (-1022)).
  destruct (ilog2_spec x Hx) as [_ U].
  pose proof (pow2_pos (e - 52)) as P.
  assert (Ue : x <= pow2 (e + 1)).
  { apply Qle_trans with (y := pow2 (ilog2 x + 1)); [lra|]. apply pow2_le. lia. }
  assert (E : pow2 (e + 1) == pow2 53 * pow2 (e - 52)).
  { rewrite <- pow2_add. replace (53 + (e - 52))%Z with (e + 1)%Z by lia. reflexivity. }
  assert (Hdiv : x / pow2 (e - 52) <= inject_Z (2 ^ 53)).
  { rewrite <- pow2_inject by lia. apply Qle_shift_div_r; [exact P|]. rewrite <- E. exact Ue. }
  apply round_half_even_mono in Hdiv. rewrite round_half_even_inject in Hdiv.
  rewrite E. apply (proj2 (Qmult_le_r _ _ _ P)).
  apply Qle_trans with (y := inject_Z (2 ^ 53)).
  - rewrite <- Zle_Qle. exact Hdiv.
  - pose proof (pow2_inject 53 ltac:(lia)) as K. rewrite K. apply Qle_refl.
Qed.

Lemma round_mag_lower (x : Q) :
  0 < x -> (-1022 < ilog2 x)%Z -> pow2 (ilog2 x) <= round_mag x.
Proof.
  intros Hx He. unfold round_mag.
  replace (Z.max (ilog2 x) (-1022)) with (ilog2 x) by lia.
  set (e := ilog2 x).
  destruct (ilog2_spec x Hx) as [L _]. fold e in L.
  pose proof (pow2_pos (e - 52)) as P.
  assert (E : pow2 e == pow2 52 * pow2 (e - 52)).
  { rewrite <- pow2_add. replace (52 + (e - 52))%Z with e by lia. reflexivity. }
  assert (Hdiv : inject_Z (2 ^ 52) <= x / pow2 (e - 52)).
  { rewrite <- pow2_inject by lia. apply Qle_shift_div_l; [exact P|]. rewrite <- E. exact L. }
  apply round_half_even_mono in Hdiv. rewrite round_half_even_inject in Hdiv.
  rewrite E. apply (proj2 (Qmult_le_r _ _ _ P)).
  apply Qle_trans with (y := inject_Z (2 ^ 52)).
  - pose proof (pow2_inject 52 ltac:(lia)) as K. rewrite K. apply Qle_refl.
  - rewrite <- Zle_Qle. exact Hdiv.
Qed.

Lemma round_mag_mono (x y : Q) : 0 < x -> x <= y -> round_mag x <= round_mag y.
Proof.
  intros Hx Hxy.
  assert (Hy : 0 < y) by lra.
  pose proof (ilog2_mono x y Hx Hxy) as Hl.
  destruct (Z.eq_dec (Z.max (ilog2 x) (-1022)) (Z.max (ilog2 y) (-1022))) as [E|N].
  - unfold round_mag. rewrite <- E.
    set (u := pow2 (Z.max (ilog2 x) (-1022) - 52)).
    assert (P : 0 < u) by apply pow2_pos.
    apply (proj2 (Qmult_le_r _ _ _ P)). rewrite <- Zle_Qle.
    apply round_half_even_mono.
    apply (proj2 (Qmult_le_r _ _ _ (Qinv_lt_0_compat _ P))). exact Hxy.
  - apply Qle_trans with (y := pow2 (Z.max (ilog2 x) (-1022) + 1));
      [apply round_mag_upper; exact Hx|].
    apply Qle_trans with (y := pow2 (ilog2 y));
      [apply pow2_le; lia | apply round_mag_lower; [exact Hy | lia]].
Qed.

Lemma round_mag_nonneg (x : Q) : 0 < x -> 0 <= round_mag x.
Proof.
  intros Hx. unfold round_mag.
  set (u := pow2 (Z.max (ilog2 x) (-1022) - 52)).
  assert (P : 0 < u) by apply pow2_pos.
  apply Qmult_le_0_compat; [|lra].
  assert (H0 : inject_Z 0 <= x / u).
  { apply Qle_shift_div_l; [exact P|]. change (inject_Z 0) with 0. lra. }
  apply round_half_even_mono in H0. rewrite round_half_even_inject in H0.
  change 0 with (inject_Z 0). rewrite <- Zle_Qle. exact H0.
Qed.

Lemma round_pos_eq (x : Q) :
  round_pos x = if Qle_bool (pow2 1024) (round_mag x) then pow2 1024 else round_mag x.
Proof. reflexivity. Qed.

Lemma round_pos_nonneg (x : Q) : 0 < x -> 0 <= round_pos x.
Proof.
  intros Hx. rewrite round_pos_eq.
  destruct (Qle_bool (pow2 1024) (round_mag x)).
  - apply Qlt_le_weak, pow2_pos.
  - apply round_mag_nonneg, Hx.
Qed.

Lemma round_pos_mono (x y : Q) : 0 < x -> x <= y -> round_pos x <= round_pos y.
Proof.
  intros Hx Hxy. pose proof (round_mag_mono x y Hx Hxy) as H.
  rewrite !round_pos_eq.
  destruct (Qle_bool (pow2 1024) (round_mag x)) eqn:Bx;
    destruct (Qle_bool (pow2 1024) (round_mag y)) eqn:By.
  - lra.
  - apply Qle_bool_iff in Bx.
    assert (N : ~ pow2 1024 <= round_mag y).
    { intros K. apply Qle_bool_iff in K. congruence. }
    exfalso. apply N. lra.
  - assert (N : ~ pow2 1024 <= round_mag x).
    { intros K. apply Qle_bool_iff in K. congruence. }
    apply Qnot_le_lt in N. lra.
  - exact H.
Qed.

Lemma round64_cases (x : Q) :
  (x == 0 /\ round64 x == 0) \/
  (0 < x /\ round64 x == round_pos x) \/
  (x < 0 /\ round64 x == - round_pos (- x)).
Proof.
  unfold round64.
  destruct (x ?= 0) eqn:C.
  - left. apply Qeq_alt in C. split; [exact C | apply Qred_correct].
  - right. right. apply Qlt_alt in C. split; [exact C | apply Qred_correct].
  - right. left. apply Qgt_alt in C. split; [exact C | apply Qred_correct].
Qed.

Theorem round64_mono (x y : Q) : x <= y -> round64 x <= round64 y.
Proof.
  intros Hxy.
  destruct (round64_cases x) as [[Hx Ex]|[[Hx Ex]|[Hx Ex]]];
    destruct (round64_cases y) as [[Hy Ey]|[[Hy Ey]|[Hy Ey]]];
    rewrite Ex, Ey; try lra.
  - pose proof (round_pos_nonneg y Hy). lra.
  - pose proof (round_pos_mono x y Hx Hxy). lra.
  - assert (H : 0 < - x) by lra. pose proof (round_pos_nonneg (- x) H). lra.
  - assert (H : 0 < - x) by lra. pose proof (round_pos_nonneg (- x) H).
    pose proof (round_pos_nonneg y Hy). lra.
  - assert (H : 0 < - y) by lra.
    assert (H' : - y <= - x) by lra.
    pose proof (round_pos_mono (- y) (- x) H H'). lra.
Qed.



Lemma round64_nonneg (x : Q) : 0 <= x -> 0 <= round64 x.
Proof. intros H. change 0 with (round64 0) at 1. apply round64_mono, H. Qed.

Lemma round64_opp (x : Q) : round64 (- x) == - round64 x.
Proof.
  destruct (round64_cases x) as [[Hx Ex]|[[Hx Ex]|[Hx Ex]]];
    destruct (round64_cases (- x)) as [[Hy Ey]|[[Hy Ey]|[Hy Ey]]];
    rewrite Ex, Ey; try lra.
  - assert (E : - - x == x) by lra.
    assert (E' : round_pos (- - x) == round_pos x).
    { apply Qle_antisym; apply round_pos_mono; lra. }
    lra.
Qed.






(** ** The normaliser on degree/minute/second triples *)

Lemma fdiv_nonneg (x d : Q) : 0 <= x -> 0 < d -> 0 <= fdiv x d.
Proof.
  intros Hx Hd. apply round64_nonneg. apply Qle_shift_div_l; lra.
Qed.

Lemma fdiv_mono (x y d : Q) : 0 < d -> x <= y -> fdiv x d <= fdiv y d.
Proof.
  intros Hd H. apply round64_mono.
  apply (proj2 (Qmult_le_r _ _ _ (Qinv_lt_0_compat _ Hd))). exact H.
Qed.

Lemma dms_to_decimal_mono (d m s d' m' s' : Q) :
  d <= d' -> m <= m' -> s <= s' ->
  dms_to_decimal d m s <= dms_to_decimal d' m' s'.
Proof.
  intros Hd Hm Hs. unfold dms_to_decimal, fadd.
  pose proof (fdiv_mono m m' 60 ltac:(lra) Hm) as H1.
  pose proof (fdiv_mono s s' 3600 ltac:(lra) Hs) as H2.
  apply round64_mono.
  assert (H3 : round64 (d + fdiv m 60) <= round64 (d' + fdiv m' 60))
    by (apply round64_mono; lra).
  lra.
Qed.






Local Open Scope string_scope.
Local Open Scope Z_scope.

Lemma is_south_or_west_spec (ref : pyval) :
  is_south_or_west ref = true <-> ref = PyStr "S" \/ ref = PyStr "W".
Proof.
  split.
  - destruct ref; simpl; try discriminate.
    intros H. apply orb_true_iff in H.
    destruct H as [H|H]; apply String.eqb_eq in H; subst; auto.
  - intros [-> | ->]; reflexivity.
Qed.

Lemma convert_triple_eq (flt : string -> option Q) (a b c ref : pyval)
  (deg min sec : Q) :
  py_float flt a = Ok deg -> py_float flt b = Ok min -> py_float flt c = Ok sec ->
  convert_gps_to_decimal flt (PyList [a; b; c]) ref =
    Some (if is_south_or_west ref
          then (- dms_to_decimal deg min sec)%Q
          else dms_to_decimal deg min sec).
Proof.
  intros Ha Hb Hc.
  unfold convert_gps_to_decimal, convert_gps_body.
  rewrite Ha, Hb, Hc. reflexivity.
Qed.



(** C3 as stated fails: the seconds of this triple are the smallest
    positive float, [2^-1074]; divided by 3600 they round to zero, and the
    result is zero, neither positive with "N" nor negative with "S". *)
Lemma convert_gps_to_decimal_underflow :
  (0 < pow2 (-1074))%Q /\
  py_float decimal_of_str (PyFloat (pow2 (-1074))) = Ok (pow2 (-1074)) /\
  convert_gps_to_decimal decimal_of_str
    (PyList [PyInt 0; PyInt 0; PyFloat (pow2 (-1074))]) (PyStr "N") = Some 0%Q /\
  convert_gps_to_decimal decimal_of_str
    (PyList [PyInt 0; PyInt 0; PyFloat (pow2 (-1074))]) (PyStr "S") = Some 0%Q /\
  ~ (0 < 0)%Q.
Proof.
  split; [|split; [|split; [|split]]].
  - vm_compute. reflexivity.
  - reflexivity.
  - vm_compute. reflexivity.
  - vm_compute. reflexivity.
  - intros H. vm_compute in H. discriminate.
Qed.

(** The float sum can also reach the next degree: 89 deg 59' with the
    seconds 59.99999999999999 gives 90. *)
Lemma dms_to_decimal_reaches_next_degree :
  dms_to_decimal 89 59 (round64 (5999999999999999 # 100000000000000)) = 90%Q.
Proof. vm_compute. reflexivity. Qed.

(** ** Dictionaries *)

Lemma lookup_setitem_same (k : string) (v : pyval) (d : MetadataBag) :
  lookup k (setitem k v d) = Some v.
Proof.
  induction d as [|[k' v'] d IH]; simpl.
  - rewrite String.eqb_refl. reflexivity.
  - destruct (String.eqb k k') eqn:E; simpl.
    + rewrite String.eqb_refl. reflexivity.
    + rewrite E. exact IH.
Qed.

Lemma lookup_setitem_other (k k' : string) (v : pyval) (d : MetadataBag) :
  k <> k' -> lookup k (setitem k' v d) = lookup k d.
Proof.
  intros Hne. induction d as [|[k0 v0] d IH]; simpl.
  - destruct (String.eqb k k') eqn:E; [|reflexivity].
    apply String.eqb_eq in E. contradiction.
  - destruct (String.eqb k' k0) eqn:E; simpl.
    + apply String.eqb_eq in E. subst k0.
      destruct (String.eqb k k') eqn:E'; [|reflexivity].
      apply String.eqb_eq in E'. contradiction.
    + destruct (String.eqb k k0); [reflexivity | exact IH].
Qed.

Lemma setitem_keeps (K : string -> Prop) (k : string) (v : pyval) :
  K k -> keeps_outside K (setitem k v).
Proof.
  intros Hk k' d Hk'. apply lookup_setitem_other.
  intros ->. contradiction.
Qed.

Lemma caption_is_text_key : caption_size_key "caption".
Proof. left. reflexivity. Qed.

Lemma set_caption_keeps (c : option pyval) :
  keeps_outside caption_size_key (set_caption c).
Proof.
  destruct c; simpl.
  - apply setitem_keeps, caption_is_text_key.
  - intros k d _. reflexivity.
Qed.

Lemma set_size_keeps (size : Z * Z) : keeps_outside caption_size_key (set_size size).
Proof.
  intros k d Hk. unfold set_size.
  rewrite !lookup_setitem_other; [reflexivity | |];
    intros ->; apply Hk; unfold caption_size_key; auto.
Qed.

Lemma mdls_field_loop_keeps (w : World) (p : string) (fields : list string) :
  keeps_outside caption_size_key (mdls_field_loop w p fields).
Proof.
  intros k d Hk. induction fields as [|f fs IH]; simpl; [reflexivity|].
  destruct (mdls w f p); [reflexivity|].
  destruct (mdls_quoted f returncode stdout); [|exact IH].
  apply setitem_keeps with (K := caption_size_key);
    [apply caption_is_text_key | exact Hk].
Qed.

Lemma mdls_caption_step_keeps (w : World) (p : string) :
  keeps_outside caption_size_key (mdls_caption_step w p).
Proof.
  intros k d Hk. unfold mdls_caption_step.
  destruct (no_caption d && mdls_exists w); [|reflexivity].
  destruct (mdls w "kMDItemDescription" p); [reflexivity|].
  destruct (no_caption _).
  - rewrite mdls_field_loop_keeps by exact Hk.
    apply set_caption_keeps. exact Hk.
  - apply set_caption_keeps. exact Hk.
Qed.

Lemma sips_caption_step_keeps (w : World) (p : string) :
  keeps_outside caption_size_key (sips_caption_step w p).
Proof.
  intros k d Hk. unfold sips_caption_step.
  destruct (no_caption d && sips_exists w); [|reflexivity].
  destruct (sips w p); [reflexivity|].
  destruct (_ && _); [|reflexivity].
  destruct (search_sips_description stdout); [|reflexivity].
  apply setitem_keeps with (K := caption_size_key);
    [apply caption_is_text_key | exact Hk].
Qed.

Lemma aae_caption_step_keeps (w : World) (p : string) :
  keeps_outside caption_size_key (aae_caption_step w p).
Proof.
  intros k d Hk. unfold aae_caption_step.
  destruct (_ && _); [|reflexivity].
  destruct (read_text w _); [|reflexivity].
  destruct (search_aae_description _); [|reflexivity].
  apply setitem_keeps with (K := caption_size_key);
    [apply caption_is_text_key | exact Hk].
Qed.

Lemma exif_captions_keeps (w : World) (p : string)
  (description_tags : list (string * string)) :
  keeps_outside caption_size_key (exif_captions w p description_tags).
Proof.
  intros k d Hk. unfold exif_captions.
  destruct (exifread_tags w p); [|reflexivity].
  destruct (no_caption _).
  - rewrite !set_caption_keeps by exact Hk. reflexivity.
  - apply set_caption_keeps. exact Hk.
Qed.

(** The three later steps of the cascade, which only write the caption. *)
Lemma later_steps_keep (w : World) (p k : string) (d : MetadataBag) :
  ~ caption_size_key k ->
  lookup k (aae_caption_step w p
              (sips_caption_step w p (mdls_caption_step w p d))) = lookup k d.
Proof.
  intros Hk.
  rewrite aae_caption_step_keeps, sips_caption_step_keeps,
    mdls_caption_step_keeps by exact Hk.
  reflexivity.
Qed.

Lemma temp_file_not_caption_size : ~ caption_size_key "temp_file".
Proof. intros [H|[H|H]]; discriminate. Qed.

Lemma stage_key_of_caption_size (k : string) :
  caption_size_key k -> caption_stage_key k.
Proof. intros H. left. exact H. Qed.

Lemma heic_dimensions_keeps (w : World) (p : string) :
  keeps_outside caption_stage_key (heic_dimensions w p).
Proof.
  intros k d Hk.
  assert (Hk' : ~ caption_size_key k).
  { intros H. apply Hk, stage_key_of_caption_size, H. }
  unfold heic_dimensions.
  destruct (image_size w p); [|reflexivity].
  destruct (heic_to_jpeg w p).
  - rewrite lookup_setitem_other.
    + apply set_size_keeps. exact Hk'.
    + intros ->. apply Hk. right. reflexivity.
  - apply set_size_keeps. exact Hk'.
Qed.

Lemma caption_and_dimensions_keeps (w : World) (p : string) (is_heic : bool) :
  keeps_outside caption_stage_key (caption_and_dimensions w p is_heic).
Proof.
  intros k d Hk.
  assert (Hk' : ~ caption_size_key k).
  { intros H. apply Hk, stage_key_of_caption_size, H. }
  unfold caption_and_dimensions.
  destruct is_heic.
  - rewrite later_steps_keep, set_caption_keeps, heic_dimensions_keeps
      by assumption.
    reflexivity.
  - destruct (image_size w p); [|reflexivity].
    rewrite later_steps_keep, exif_captions_keeps, set_size_keeps
      by assumption.
    reflexivity.
Qed.

Lemma caption_cascade_other_key (w : World) (p k : string) :
  ~ caption_stage_key k ->
  lookup k (caption_cascade w p) = lookup k (new_photo_data p).
Proof.
  intros Hk.
  assert (Hk' : ~ caption_size_key k).
  { intros H. apply Hk, stage_key_of_caption_size, H. }
  unfold caption_cascade.
  destruct (is_heic_path p).
  - destruct (no_caption _).
    + rewrite caption_and_dimensions_keeps, set_caption_keeps by assumption.
      reflexivity.
    + apply set_caption_keeps. exact Hk'.
  - destruct (no_caption _).
    + apply caption_and_dimensions_keeps. exact Hk.
    + reflexivity.
Qed.

Lemma resolve_caption_other_key (w : World) (p k : string) :
  ~ caption_stage_key k ->
  lookup k (resolve_caption w p) = lookup k (new_photo_data p).
Proof.
  intros Hk. unfold resolve_caption.
  destruct (no_caption _).
  - rewrite lookup_setitem_other.
    + apply caption_cascade_other_key. exact Hk.
    + intros ->. apply Hk. left. apply caption_is_text_key.
  - apply caption_cascade_other_key. exact Hk.
Qed.

Lemma temp_file_shape_ext (d d' : MetadataBag) :
  lookup "temp_file" d' = lookup "temp_file" d ->
  temp_file_shape d -> temp_file_shape d'.
Proof. unfold temp_file_shape. intros ->. auto. Qed.

(** The temporary file of a record is [None] or a file name. *)
Lemma heic_dimensions_temp_file (w : World) (p : string) (d : MetadataBag) :
  temp_file_shape d -> temp_file_shape (heic_dimensions w p d).
Proof.
  intros Hd. unfold heic_dimensions.
  destruct (image_size w p); [|exact Hd].
  destruct (heic_to_jpeg w p) as [name|].
  - right. exists name. apply lookup_setitem_same.
  - apply (temp_file_shape_ext d); [|exact Hd].
    apply set_size_keeps, temp_file_not_caption_size.
Qed.

Lemma caption_and_dimensions_temp_file (w : World) (p : string)
  (is_heic : bool) (d : MetadataBag) :
  temp_file_shape d -> temp_file_shape (caption_and_dimensions w p is_heic d).
Proof.
  intros Hd. unfold caption_and_dimensions.
  destruct is_heic.
  - apply (temp_file_shape_ext (heic_dimensions w p d)).
    + rewrite later_steps_keep, set_caption_keeps
        by apply temp_file_not_caption_size.
      reflexivity.
    + apply heic_dimensions_temp_file. exact Hd.
  - destruct (image_size w p); [|exact Hd].
    apply (temp_file_shape_ext d); [|exact Hd].
    rewrite later_steps_keep, exif_captions_keeps, set_size_keeps
      by apply temp_file_not_caption_size.
    reflexivity.
Qed.

Lemma resolve_caption_temp_file (w : World) (p : string) :
  temp_file_shape (resolve_caption w p).
Proof.
  assert (H0 : temp_file_shape (new_photo_data p)) by (left; reflexivity).
  assert (H1 : temp_file_shape (caption_cascade w p)).
  { unfold caption_cascade.
    assert (Hs : forall c, temp_file_shape (set_caption c (new_photo_data p))).
    { intros c. apply (temp_file_shape_ext (new_photo_data p)); [|exact H0].
      apply set_caption_keeps, temp_file_not_caption_size. }
    destruct (is_heic_path p).
    - destruct (no_caption _); [|apply Hs].
      apply caption_and_dimensions_temp_file, Hs.
    - destruct (no_caption _); [|exact H0].
      apply caption_and_dimensions_temp_file, H0. }
  unfold resolve_caption.
  destruct (no_caption _); [|exact H1].
  apply (temp_file_shape_ext (caption_cascade w p)); [|exact H1].
  apply lookup_setitem_other. discriminate.
Qed.

(** ** The GPS resolver *)

Lemma in_range_spec (la lo : Q) :
  in_range la lo = true <->
  (-90 <= la)%Q /\ (la <= 90)%Q /\ (-180 <= lo)%Q /\ (lo <= 180)%Q.
Proof.
  unfold in_range. rewrite !andb_true_iff, !Qle_bool_iff. tauto.
Qed.

Lemma validate_cases (st : gps_state) :
  validate st = (None, None) \/
  exists la lo, st = (Some la, Some lo) /\ in_range la lo = true /\
                validate st = (Some la, Some lo).
Proof.
  destruct st as [[la|] [lo|]]; simpl; auto.
  destruct (in_range la lo) eqn:E; auto.
  right. exists la, lo. auto.
Qed.

Lemma validate_complete (la lo : Q) :
  validate (Some la, Some lo) =
    if in_range la lo then (Some la, Some lo) else (None, None).
Proof. reflexivity. Qed.

Lemma store_gps_validate (st : gps_state) (d : MetadataBag) :
  lookup "latitude" d = None -> lookup "longitude" d = None ->
  (lookup "latitude" (store_gps (validate st) d) = None /\
   lookup "longitude" (store_gps (validate st) d) = None /\
   validate st = (None, None))
  \/
  (exists la lo,
     st = (Some la, Some lo) /\ in_range la lo = true /\
     lookup "latitude" (store_gps (validate st) d) = Some (PyFloat la) /\
     lookup "longitude" (store_gps (validate st) d) = Some (PyFloat lo)).
Proof.
  intros Hla Hlo.
  destruct (validate_cases st) as [E | (la & lo & Hst & Hr & E)]; rewrite E.
  - left. simpl. auto.
  - right. exists la, lo. simpl.
    rewrite lookup_setitem_other by discriminate.
    rewrite !lookup_setitem_same. auto.
Qed.

Lemma not_stage_key_latitude : ~ caption_stage_key "latitude".
Proof. intros [[H|[H|H]]|H]; discriminate. Qed.

Lemma not_stage_key_longitude : ~ caption_stage_key "longitude".
Proof. intros [[H|[H|H]]|H]; discriminate. Qed.

Lemma not_stage_key_orientation : ~ caption_stage_key "orientation".
Proof. intros [[H|[H|H]]|H]; discriminate. Qed.

Lemma store_orientation_other (o : option Q) (k : string) (d : MetadataBag) :
  k <> "orientation" ->
  lookup k (store_orientation o d) = lookup k d.
Proof.
  intros Hk. destruct o; simpl; [|reflexivity].
  apply lookup_setitem_other. exact Hk.
Qed.

Lemma extract_gps_data_dict (flt : string -> option Q) (w : World)
  (tags : option Tags) (md : MetadataBag) (file_path : string) :
  extract_gps_data flt w tags (PyDict md) file_path
  = Ok (validate (gps_cascade flt w tags md file_path)).
Proof.
  unfold extract_gps_data. cbn [is_dict negb as_dict].
  rewrite andb_false_r. reflexivity.
Qed.

(** The record returned for a photo, in terms of its stages. *)
Lemma extract_metadata_from_photo_ok (flt : string -> option Q) (w : World)
  (p : string) (r : MetadataBag) :
  extract_metadata_from_photo flt w p = Ok r ->
  exists o,
    extract_orientation_data flt
      (photo_tags w p)
      (get_heic_metadata_with_exiftool w p) = Ok o /\
    r = store_orientation o
          (store_gps
             (validate
                (gps_cascade flt w (photo_tags w p)
                   (as_dict (get_heic_metadata_with_exiftool w p)) p))
             (resolve_caption w p)).
Proof.
  unfold extract_metadata_from_photo, extract_gps_data.
  destruct (if is_heic_path p
            then description_fields_check (get_heic_metadata_with_exiftool w p)
            else Ok tt) as [u|e]; cbn [bind]; [|discriminate].
  destruct (truthy (get_heic_metadata_with_exiftool w p)
            && negb (is_dict (get_heic_metadata_with_exiftool w p)));
    cbn [bind]; [discriminate|].
  destruct (extract_orientation_data _ _ _) as [o|e]; cbn [bind]; [|discriminate].
  intros H. injection H as <-. exists o. auto.
Qed.

Lemma extract_orientation_data_dict (flt : string -> option Q)
  (tags : option Tags) (md : MetadataBag) :
  extract_orientation_data flt tags (PyDict md) =
    (orientation <-
       match md with
       | [] => Ok None
       | _ => orientation_from_exiftool flt md orientation_fields
       end ;;
     match orientation with
     | None =>
         if tags_truthy tags
         then orientation_from_tags flt (tags_or_empty tags) orientation_tags
         else Ok None
     | Some o => Ok (Some o)
     end).
Proof. destruct md; reflexivity. Qed.

(** The photo pipeline when the external tool gave a dict. *)
Lemma extract_metadata_from_photo_dict (flt : string -> option Q) (w : World)
  (p : string) (md : MetadataBag) :
  get_heic_metadata_with_exiftool w p = PyDict md ->
  extract_metadata_from_photo flt w p =
    (orientation <- extract_orientation_data flt (photo_tags w p) (PyDict md) ;;
     Ok (store_orientation orientation
           (store_gps (validate (gps_cascade flt w (photo_tags w p) md p))
              (resolve_caption w p)))).
Proof.
  intros H. unfold extract_metadata_from_photo. rewrite H.
  rewrite extract_gps_data_dict.
  destruct (is_heic_path p); reflexivity.
Qed.

Lemma subscript_fields_cases (v : pyval) (fields : list string) :
  subscript_fields v fields = Ok tt \/ subscript_fields v fields = Raise TypeError.
Proof.
  induction fields as [|f fs IH]; cbn [subscript_fields]; [left; reflexivity|].
  destruct (py_in f v) as [[|]|e] eqn:E; cbn [bind]; auto.
  right. destruct v; cbn in E; try discriminate; injection E as <-; reflexivity.
Qed.

(** The photo pipeline when the external tool gave a truthy value that is
    no dict. *)
Lemma extract_metadata_from_photo_non_dict (flt : string -> option Q)
  (w : World) (p : string) :
  is_dict (get_heic_metadata_with_exiftool w p) = false ->
  truthy (get_heic_metadata_with_exiftool w p) = true ->
  extract_metadata_from_photo flt w p = Raise TypeError \/
  extract_metadata_from_photo flt w p = Raise AttributeError.
Proof.
  intros Hd Ht. unfold extract_metadata_from_photo, extract_gps_data.
  rewrite Hd, Ht. cbn [negb andb].
  destruct (is_heic_path p); cbn [bind]; [|right; reflexivity].
  unfold description_fields_check.
  destruct (get_heic_metadata_with_exiftool w p) eqn:E; try discriminate Hd;
    destruct (subscript_fields_cases (get_heic_metadata_with_exiftool w p)
                description_fields) as [K|K];
    rewrite E in K; rewrite K; cbn [bind]; auto.
Qed.

(** C1. In the record returned for a photo, latitude and longitude are
    both absent or both present, and when present they satisfy
    -90 <= latitude <= 90 and -180 <= longitude <= 180. A pair that the
    cascade found outside these ranges is not stored: both fields are
    absent. *)
Theorem photo_coordinates_valid (flt : string -> option Q) (w : World)
  (photo_path : string) (r : MetadataBag) :
  extract_metadata_from_photo flt w photo_path = Ok r ->
  ((lookup "latitude" r = None /\ lookup "longitude" r = None)
   \/
   (exists la lo,
      lookup "latitude" r = Some (PyFloat la) /\
      lookup "longitude" r = Some (PyFloat lo) /\
      (-90 <= la)%Q /\ (la <= 90)%Q /\ (-180 <= lo)%Q /\ (lo <= 180)%Q))
  /\
  (forall la lo,
     gps_cascade flt w
       (photo_tags w photo_path)
       (as_dict (get_heic_metadata_with_exiftool w photo_path)) photo_path
       = (Some la, Some lo) ->
     ~ ((-90 <= la)%Q /\ (la <= 90)%Q /\ (-180 <= lo)%Q /\ (lo <= 180)%Q) ->
     lookup "latitude" r = None /\ lookup "longitude" r = None).
Proof.
  intros H.
  apply extract_metadata_from_photo_ok in H.
  destruct H as (o & _ & ->).
  rewrite !store_orientation_other by discriminate.
  destruct (store_gps_validate
              (gps_cascade flt w
                 (photo_tags w photo_path)
                 (as_dict (get_heic_metadata_with_exiftool w photo_path))
                 photo_path)
              (resolve_caption w photo_path))
    as [(Hla & Hlo & _) | (la & lo & Hst & Hr & Hla & Hlo)].
  - rewrite resolve_caption_other_key by apply not_stage_key_latitude.
    reflexivity.
  - rewrite resolve_caption_other_key by apply not_stage_key_longitude.
    reflexivity.
  - split; [left; auto|]. intros; auto.
  - split.
    + right. exists la, lo. apply in_range_spec in Hr. tauto.
    + intros la' lo' Hc Hout. exfalso. apply Hout.
      rewrite Hc in Hst. injection Hst as -> ->.
      apply in_range_spec. exact Hr.
Qed.

(** The resolver itself returns no pair or a pair in range. *)
Lemma extract_gps_data_valid (flt : string -> option Q) (w : World)
  (tags : option Tags) (md : pyval) (file_path : string) (st : gps_state) :
  extract_gps_data flt w tags md file_path = Ok st ->
  st = (None, None) \/
  exists la lo,
    st = (Some la, Some lo) /\
    (-90 <= la)%Q /\ (la <= 90)%Q /\ (-180 <= lo)%Q /\ (lo <= 180)%Q.
Proof.
  unfold extract_gps_data.
  destruct (truthy md && negb (is_dict md)); [discriminate|].
  intros H. injection H as <-.
  destruct (validate_cases (gps_cascade flt w tags (as_dict md) file_path))
    as [E | (la & lo & _ & Hr & E)]; [left; exact E|].
  right. exists la, lo. apply in_range_spec in Hr. tauto.
Qed.

(** A pair out of range is dropped whole. *)
Lemma extract_gps_data_out_of_range (flt : string -> option Q) (w : World)
  (tags : option Tags) (md : MetadataBag) (file_path : string) (la lo : Q) :
  gps_cascade flt w tags md file_path = (Some la, Some lo) ->
  in_range la lo = false ->
  extract_gps_data flt w tags (PyDict md) file_path = Ok (None, None).
Proof.
  intros Hc Hr. rewrite extract_gps_data_dict, Hc. simpl. rewrite Hr.
  reflexivity.
Qed.

(** C1 on a JPEG whose external-tool metadata places it at 37.5 N,
    122.25 W. *)
Lemma photo_coordinates_valid_witness :
  exists r,
    extract_metadata_from_photo decimal_of_str
      (world_with_exiftool
         [ ("EXIF:GPSLatitude", PyFloat (75 # 2));
           ("EXIF:GPSLatitudeRef", PyStr "N");
           ("EXIF:GPSLongitude", PyFloat (489 # 4));
           ("EXIF:GPSLongitudeRef", PyStr "W") ])
      "/photos/IMG_0001.jpg" = Ok r /\
    ((lookup "latitude" r = None /\ lookup "longitude" r = None)
     \/
     (exists la lo,
        lookup "latitude" r = Some (PyFloat la) /\
        lookup "longitude" r = Some (PyFloat lo) /\
        (-90 <= la)%Q /\ (la <= 90)%Q /\ (-180 <= lo)%Q /\ (lo <= 180)%Q)).
Proof.
  eexists. split.
  - vm_compute. reflexivity.
  - refine (proj1 (photo_coordinates_valid decimal_of_str
                     (world_with_exiftool
                        [ ("EXIF:GPSLatitude", PyFloat (75 # 2));
                          ("EXIF:GPSLatitudeRef", PyStr "N");
                          ("EXIF:GPSLongitude", PyFloat (489 # 4));
                          ("EXIF:GPSLongitudeRef", PyStr "W") ])
                     "/photos/IMG_0001.jpg" _ _)).
    vm_compute. reflexivity.
Defined.

(** The cascade of the resolver, stage by stage: a complete pair stops it,
    and the range is checked once, at the end. *)
Lemma gps_cascade_stops_at_1 (flt : string -> option Q) (w : World)
  (tags : option Tags) (md : MetadataBag) (p : string) (la lo : Q) :
  gps_from_exiftool flt md (None, None) = (Some la, Some lo) ->
  gps_cascade flt w tags md p = (Some la, Some lo).
Proof. intros H. unfold gps_cascade. rewrite H. reflexivity. Qed.

Lemma gps_cascade_stops_at_2 (flt : string -> option Q) (w : World)
  (tags : option Tags) (md : MetadataBag) (p : string) (la lo : Q) :
  when_incomplete (tags_truthy tags) (gps_from_tags flt (tags_or_empty tags))
    (gps_from_exiftool flt md (None, None)) = (Some la, Some lo) ->
  gps_cascade flt w tags md p = (Some la, Some lo).
Proof. intros H. unfold gps_cascade. rewrite H. reflexivity. Qed.

Lemma gps_cascade_stops_at_3 (flt : string -> option Q) (w : World)
  (tags : option Tags) (md : MetadataBag) (p : string) (la lo : Q) :
  when_incomplete (mdls_exists w) (gps_from_mdls flt w p)
    (when_incomplete (tags_truthy tags) (gps_from_tags flt (tags_or_empty tags))
       (gps_from_exiftool flt md (None, None))) = (Some la, Some lo) ->
  gps_cascade flt w tags md p = (Some la, Some lo).
Proof. intros H. unfold gps_cascade. rewrite H. reflexivity. Qed.

(** C2, amended. The first source of the cascade that leaves both
    coordinates set decides the result, whether or not the pair is in
    range: the later sources are then skipped, whatever they hold, and the
    result is that pair when it lies in [-90,90] x [-180,180] and absence
    of both coordinates otherwise. *)
Theorem gps_first_complete_pair_decides (flt : string -> option Q)
  (w : World) (tags : option Tags) (md : MetadataBag) (file_path : string)
  (la lo : Q) :
  let checked := if in_range la lo then (Some la, Some lo) else (None, None) in
  let s1 := gps_from_exiftool flt md (None, None) in
  let s2 := when_incomplete (tags_truthy tags)
              (gps_from_tags flt (tags_or_empty tags)) s1 in
  let s3 := when_incomplete (mdls_exists w) (gps_from_mdls flt w file_path) s2 in
  let s4 := when_incomplete (negb (String.eqb file_path EmptyString))
              (gps_from_direct flt w file_path) s3 in
  (s1 = (Some la, Some lo) ->
   forall w' tags' file_path',
     extract_gps_data flt w' tags' (PyDict md) file_path' = Ok checked) /\
  (s2 = (Some la, Some lo) ->
   forall w' file_path',
     extract_gps_data flt w' tags (PyDict md) file_path' = Ok checked) /\
  (s3 = (Some la, Some lo) ->
   extract_gps_data flt w tags (PyDict md) file_path = Ok checked) /\
  (s4 = (Some la, Some lo) ->
   extract_gps_data flt w tags (PyDict md) file_path = Ok checked) /\
  (incomplete s4 = true ->
   extract_gps_data flt w tags (PyDict md) file_path = Ok (None, None)).
Proof.
  intros checked s1 s2 s3 s4. subst checked.
  rewrite <- validate_complete.
  repeat split.
  - intros H w' tags' p'. rewrite extract_gps_data_dict.
    rewrite (gps_cascade_stops_at_1 flt w' tags' md p' la lo H). reflexivity.
  - intros H w' p'. rewrite extract_gps_data_dict.
    rewrite (gps_cascade_stops_at_2 flt w' tags md p' la lo H). reflexivity.
  - intros H. rewrite extract_gps_data_dict.
    rewrite (gps_cascade_stops_at_3 flt w tags md file_path la lo H).
    reflexivity.
  - intros H. rewrite extract_gps_data_dict. unfold gps_cascade.
    fold s1 s2 s3 s4. rewrite H. reflexivity.
  - intros H. rewrite extract_gps_data_dict. unfold gps_cascade.
    fold s1 s2 s3 s4.
    destruct s4 as [[a|] [b|]]; simpl in *; try reflexivity. discriminate.
Qed.

(** The amended C2 where the external tool reports latitude 95: whatever
    the later sources hold, the result is absence. *)
Lemma gps_first_complete_pair_decides_witness :
  gps_from_exiftool decimal_of_str md_lat95 (None, None) = (Some 95%Q, Some 10%Q) /\
  forall w' tags' file_path',
    extract_gps_data decimal_of_str w' tags' (PyDict md_lat95) file_path'
    = Ok (None, None).
Proof.
  split.
  - vm_compute. reflexivity.
  - apply (gps_first_complete_pair_decides decimal_of_str plain_world None
             md_lat95 "/photos/a.jpg" 95%Q 10%Q).
    vm_compute. reflexivity.
Defined.

(** C2 as stated fails: the external tool reports the pair (95, 10), out
    of range; the embedded tags alone give the valid pair (45, 10); with
    both, the resolver returns absence, not the tags' pair. *)
Lemma gps_out_of_range_pair_blocks_later_source :
  gps_from_exiftool decimal_of_str md_lat95 (None, None)
    = (Some 95%Q, Some 10%Q) /\
  in_range 95 10 = false /\
  (exists la lo,
     extract_gps_data decimal_of_str plain_world (Some tags_45N_10E)
       (PyDict []) "/photos/a.jpg" = Ok (Some la, Some lo) /\
     (la == 45)%Q /\ (lo == 10)%Q /\ in_range la lo = true) /\
  extract_gps_data decimal_of_str plain_world (Some tags_45N_10E)
    (PyDict md_lat95) "/photos/a.jpg" = Ok (None, None).
Proof.
  split; [vm_compute; reflexivity|].
  split; [vm_compute; reflexivity|].
  split.
  - eexists. eexists. split; [vm_compute; reflexivity|].
    repeat split; vm_compute; reflexivity.
  - vm_compute. reflexivity.
Qed.

(** ** The filename fallback *)

Lemma take_digits_sound (n : nat) (s ds r : string) :
  take_digits n s = Some (ds, r) ->
  s = ds ++ r /\ String.length ds = n /\ all_digits ds = true.
Proof.
  revert s ds r. induction n as [|n IH]; intros s ds r; simpl.
  - intros H. injection H as <- <-. auto.
  - destruct s as [|c s]; [discriminate|].
    destruct (is_digit c) eqn:Hc; [|discriminate].
    destruct (take_digits n s) as [[ds' r']|] eqn:E; [|discriminate].
    intros H. injection H as <- <-.
    destruct (IH _ _ _ E) as (-> & Hl & Hd).
    simpl. rewrite Hc, Hl, Hd. auto.
Qed.

Lemma take_digits_complete (n : nat) (ds r : string) :
  String.length ds = n -> all_digits ds = true ->
  take_digits n (ds ++ r) = Some (ds, r).
Proof.
  intros <-. induction ds as [|c ds IH]; simpl; [reflexivity|].
  intros H. apply andb_true_iff in H. destruct H as [Hc Hd].
  rewrite Hc, (IH Hd). reflexivity.
Qed.

Lemma optional_sep_cases (s : string) :
  optional_sep s = true -> s = EmptyString \/ s = "-" \/ s = "_".
Proof.
  unfold optional_sep. rewrite !orb_true_iff, !String.eqb_eq. tauto.
Qed.

Lemma skip_date_sep_sound (s : string) :
  exists sep, optional_sep sep = true /\ s = sep ++ skip_date_sep s.
Proof.
  destruct s as [|c s]; simpl.
  - exists EmptyString. auto.
  - destruct (is_date_sep c) eqn:Hc.
    + unfold is_date_sep in Hc. apply orb_true_iff in Hc.
      destruct Hc as [Hc|Hc]; apply Ascii.eqb_eq in Hc; subst c.
      * exists "-". auto.
      * exists "_". auto.
    + exists EmptyString. auto.
Qed.

Lemma digit_not_sep (c : ascii) : is_digit c = true -> is_date_sep c = false.
Proof.
  destruct c as [[] [] [] [] [] [] [] []]; vm_compute; congruence.
Qed.

Lemma skip_date_sep_complete (sep ds r : string) :
  optional_sep sep = true ->
  String.length ds = 2%nat -> all_digits ds = true ->
  skip_date_sep (sep ++ ds ++ r) = ds ++ r.
Proof.
  intros Hs Hl Hd.
  destruct ds as [|c ds]; [discriminate|].
  simpl in Hd. apply andb_true_iff in Hd. destruct Hd as [Hc _].
  destruct (optional_sep_cases sep Hs) as [-> | [-> | ->]]; simpl;
    [rewrite (digit_not_sep c Hc) | | ]; reflexivity.
Qed.

Lemma match_date_at_sound (s y m d : string) :
  match_date_at s = Some (y, m, d) -> date_at s y m d.
Proof.
  unfold match_date_at.
  destruct (take_digits 4 s) as [[y' r1]|] eqn:E1; [|discriminate].
  destruct (take_digits 2 (skip_date_sep r1)) as [[m' r2]|] eqn:E2; [|discriminate].
  destruct (take_digits 2 (skip_date_sep r2)) as [[d' r3]|] eqn:E3; [|discriminate].
  intros H. injection H as -> -> ->.
  destruct (take_digits_sound _ _ _ _ E1) as (-> & Hly & Hdy).
  destruct (take_digits_sound _ _ _ _ E2) as (Hr1 & Hlm & Hdm).
  destruct (take_digits_sound _ _ _ _ E3) as (Hr2 & Hld & Hdd).
  destruct (skip_date_sep_sound r1) as (s1 & Hs1 & Er1).
  destruct (skip_date_sep_sound r2) as (s2 & Hs2 & Er2).
  rewrite Hr1 in Er1. rewrite Hr2 in Er2. rewrite Er2 in Er1. rewrite Er1.
  constructor; assumption.
Qed.

Lemma match_date_at_complete (s y m d : string) :
  date_at s y m d -> match_date_at s = Some (y, m, d).
Proof.
  intros H. destruct H as [y s1 m s2 d rest Hly Hdy Hs1 Hlm Hdm Hs2 Hld Hdd].
  unfold match_date_at.
  rewrite (take_digits_complete 4 y _ Hly Hdy).
  rewrite (skip_date_sep_complete s1 m _ Hs1 Hlm Hdm).
  rewrite (take_digits_complete 2 m _ Hlm Hdm).
  rewrite (skip_date_sep_complete s2 d _ Hs2 Hld Hdd).
  rewrite (take_digits_complete 2 d _ Hld Hdd).
  reflexivity.
Qed.

Lemma search_date_eq (s : string) :
  search_date s =
    match match_date_at s with
    | Some g => Some g
    | None =>
        match s with
        | String _ s' => search_date s'
        | EmptyString => None
        end
    end.
Proof. destruct s; reflexivity. Qed.

(** [re.search] returns the leftmost match. *)
Lemma search_date_leftmost (pre rest : string) (g : string * string * string) :
  match_date_at rest = Some g ->
  (forall pre' rest', pre ++ rest = pre' ++ rest' ->
     (String.length pre' < String.length pre)%nat ->
     match_date_at rest' = None) ->
  search_date (pre ++ rest) = Some g.
Proof.
  revert rest g. induction pre as [|c pre IH]; intros rest g Hm Hnone.
  - simpl. rewrite search_date_eq, Hm. reflexivity.
  - rewrite search_date_eq.
    rewrite (Hnone EmptyString (String c pre ++ rest) eq_refl) by (simpl; lia).
    simpl. apply IH; [exact Hm|].
    intros pre' rest' E Hlt.
    apply (Hnone (String c pre') rest').
    + simpl. rewrite E. reflexivity.
    + simpl. lia.
Qed.

Lemma search_date_none (s : string) :
  (forall pre rest, s = pre ++ rest -> match_date_at rest = None) ->
  search_date s = None.
Proof.
  induction s as [|c s IH]; intros H.
  - rewrite search_date_eq. rewrite (H EmptyString EmptyString eq_refl).
    reflexivity.
  - rewrite search_date_eq. rewrite (H EmptyString (String c s) eq_refl).
    apply IH. intros pre rest E.
    apply (H (String c pre) rest). simpl. rewrite E. reflexivity.
Qed.

Lemma search_date_none_inv (s : string) :
  search_date s = None ->
  forall pre rest, s = pre ++ rest -> match_date_at rest = None.
Proof.
  intros H pre. revert s H. induction pre as [|c pre IH]; intros s H rest E.
  - simpl in E. subst rest. rewrite search_date_eq in H.
    destruct (match_date_at s); [discriminate | reflexivity].
  - subst s. rewrite search_date_eq in H.
    destruct (match_date_at (String c pre ++ rest)); [discriminate|].
    simpl in H. exact (IH _ H rest eq_refl).
Qed.

Lemma search_date_of_leftmost_occurrence (filename pre y m d : string) :
  date_occurs filename pre y m d ->
  no_earlier_date filename pre ->
  search_date filename = Some (y, m, d).
Proof.
  intros (rest & -> & Hat) Hearlier.
  apply search_date_leftmost.
  - apply match_date_at_complete. exact Hat.
  - intros pre' rest' E Hlt.
    destruct (match_date_at rest') as [[[y' m'] d']|] eqn:Em; [|reflexivity].
    exfalso. apply (Hearlier pre' y' m' d' Hlt).
    exists rest'. split; [exact E|].
    apply match_date_at_sound. exact Em.
Qed.

Lemma search_date_of_no_occurrence (filename : string) :
  (forall pre y m d, ~ date_occurs filename pre y m d) ->
  search_date filename = None.
Proof.
  intros H. apply search_date_none. intros pre rest E.
  destruct (match_date_at rest) as [[[y m] d]|] eqn:Em; [|reflexivity].
  exfalso. apply (H pre y m d). exists rest. split; [exact E|].
  apply match_date_at_sound. exact Em.
Qed.

Lemma digit_char_value (c : ascii) :
  is_digit c = true ->
  0 <= digit_value c <= 9 /\ digit_char (digit_value c) = c.
Proof.
  destruct c as [[] [] [] [] [] [] [] []]; vm_compute;
    try discriminate; intros _; split; try split; congruence.
Qed.

Lemma digit_char_mod (a b : Z) : a mod 10 = b mod 10 -> digit_char a = digit_char b.
Proof. intros H. unfold digit_char. rewrite H. reflexivity. Qed.

Lemma two_digits (s : string) :
  String.length s = 2%nat -> all_digits s = true ->
  exists c1 c2, s = String c1 (String c2 EmptyString) /\
                is_digit c1 = true /\ is_digit c2 = true.
Proof.
  destruct s as [|c1 [|c2 [|c3 s]]]; try discriminate.
  simpl. intros _ H. rewrite !andb_true_iff in H.
  exists c1, c2. tauto.
Qed.

Lemma div_by_digits (k q r : Z) : 0 < k -> 0 <= r < k -> (k * q + r) / k = q.
Proof. intros Hk Hr. symmetry. apply Z.div_unique with (r := r); lia. Qed.

Lemma mod_by_digits (q r : Z) : 0 <= r <= 9 -> (10 * q + r) mod 10 = r mod 10.
Proof.
  intros Hr. rewrite (Z.mod_small r 10) by lia.
  symmetry. apply Z.mod_unique with (q := q); lia.
Qed.

Lemma pad2_digits (a b : Z) :
  0 <= a <= 9 -> 0 <= b <= 9 ->
  pad2 (10 * a + b) = String (digit_char a) (String (digit_char b) EmptyString).
Proof.
  intros Ha Hb. unfold pad2.
  f_equal; [|f_equal]; apply digit_char_mod.
  - rewrite div_by_digits by lia. reflexivity.
  - apply mod_by_digits. exact Hb.
Qed.

Lemma pad4_digits (a b c d : Z) :
  0 <= a <= 9 -> 0 <= b <= 9 -> 0 <= c <= 9 -> 0 <= d <= 9 ->
  pad4 (10 * (10 * (10 * a + b) + c) + d) =
    String (digit_char a) (String (digit_char b)
      (String (digit_char c) (String (digit_char d) EmptyString))).
Proof.
  intros Ha Hb Hc Hd. unfold pad4, pad2.
  f_equal; [|f_equal; [|f_equal; [|f_equal]]]; apply digit_char_mod.
  - replace (10 * (10 * (10 * a + b) + c) + d)
      with (1000 * a + (100 * b + 10 * c + d)) by lia.
    rewrite div_by_digits by lia. reflexivity.
  - replace (10 * (10 * (10 * a + b) + c) + d)
      with (100 * (10 * a + b) + (10 * c + d)) by lia.
    rewrite div_by_digits by lia. apply mod_by_digits. exact Hb.
  - rewrite div_by_digits by lia. apply mod_by_digits. exact Hc.
  - apply mod_by_digits. exact Hd.
Qed.

Lemma pad2_int_of_digits (s : string) :
  String.length s = 2%nat -> all_digits s = true ->
  pad2 (int_of_digits s) = s.
Proof.
  intros Hl Hd.
  destruct (two_digits s Hl Hd) as (c1 & c2 & -> & H1 & H2).
  destruct (digit_char_value c1 H1) as [B1 E1].
  destruct (digit_char_value c2 H2) as [B2 E2].
  assert (Hi : int_of_digits (String c1 (String c2 EmptyString))
               = 10 * digit_value c1 + digit_value c2).
  { unfold int_of_digits. cbn [int_of_digits_from]. lia. }
  rewrite Hi, pad2_digits by lia. rewrite E1, E2. reflexivity.
Qed.

Lemma pad4_int_of_digits (s : string) :
  String.length s = 4%nat -> all_digits s = true ->
  pad4 (int_of_digits s) = s.
Proof.
  destruct s as [|c1 [|c2 [|c3 [|c4 [|c5 s]]]]]; try discriminate.
  intros _ H. cbn [all_digits] in H. rewrite !andb_true_iff in H.
  destruct H as (H1 & H2 & H3 & H4 & _).
  destruct (digit_char_value c1 H1) as [B1 E1].
  destruct (digit_char_value c2 H2) as [B2 E2].
  destruct (digit_char_value c3 H3) as [B3 E3].
  destruct (digit_char_value c4 H4) as [B4 E4].
  assert (Hi : int_of_digits
                 (String c1 (String c2 (String c3 (String c4 EmptyString))))
               = 10 * (10 * (10 * digit_value c1 + digit_value c2)
                       + digit_value c3) + digit_value c4).
  { unfold int_of_digits. cbn [int_of_digits_from]. lia. }
  rewrite Hi, pad4_digits by lia. rewrite E1, E2, E3, E4. reflexivity.
Qed.

Lemma is_zero_digit (c : ascii) :
  is_digit c = true -> Ascii.eqb c "0" = (digit_value c =? 0).
Proof.
  destruct c as [[] [] [] [] [] [] [] []]; vm_compute;
    try discriminate; reflexivity.
Qed.

Lemma unpadded_year_digits (a b c d : Z) :
  0 <= a <= 9 -> 0 <= b <= 9 -> 0 <= c <= 9 -> 0 <= d <= 9 ->
  unpadded_year (10 * (10 * (10 * a + b) + c) + d) =
    if a =? 0 then
      if b =? 0 then
        if c =? 0 then String (digit_char d) EmptyString
        else String (digit_char c) (String (digit_char d) EmptyString)
      else String (digit_char b)
             (String (digit_char c) (String (digit_char d) EmptyString))
    else String (digit_char a) (String (digit_char b)
           (String (digit_char c) (String (digit_char d) EmptyString))).
Proof.
  intros Ha Hb Hc Hd. unfold unpadded_year.
  destruct (a =? 0) eqn:Ea.
  - apply Z.eqb_eq in Ea. subst a.
    destruct (b =? 0) eqn:Eb.
    + apply Z.eqb_eq in Eb. subst b.
      destruct (c =? 0) eqn:Ec.
      * apply Z.eqb_eq in Ec. subst c.
        replace (10 * (10 * (10 * 0 + 0) + 0) + d) with d by lia.
        replace (d <? 10) with true by (symmetry; apply Z.ltb_lt; lia).
        reflexivity.
      * apply Z.eqb_neq in Ec.
        replace (10 * (10 * (10 * 0 + 0) + c) + d) with (10 * c + d) by lia.
        replace (10 * c + d <? 10) with false by (symmetry; apply Z.ltb_ge; lia).
        replace (10 * c + d <? 100) with true by (symmetry; apply Z.ltb_lt; lia).
        apply pad2_digits; assumption.
    + apply Z.eqb_neq in Eb.
      replace (10 * (10 * (10 * 0 + b) + c) + d) with (10 * (10 * b + c) + d) by lia.
      replace (10 * (10 * b + c) + d <? 10) with false
        by (symmetry; apply Z.ltb_ge; lia).
      replace (10 * (10 * b + c) + d <? 100) with false
        by (symmetry; apply Z.ltb_ge; lia).
      replace (10 * (10 * b + c) + d <? 1000) with true
        by (symmetry; apply Z.ltb_lt; lia).
      unfold pad2. f_equal; [|f_equal; [|f_equal]]; apply digit_char_mod.
      * replace (10 * (10 * b + c) + d) with (100 * b + (10 * c + d)) by lia.
        rewrite div_by_digits by lia. reflexivity.
      * rewrite div_by_digits by lia. apply mod_by_digits. exact Hc.
      * apply mod_by_digits. exact Hd.
  - apply Z.eqb_neq in Ea.
    replace (10 * (10 * (10 * a + b) + c) + d <? 10) with false
      by (symmetry; apply Z.ltb_ge; lia).
    replace (10 * (10 * (10 * a + b) + c) + d <? 100) with false
      by (symmetry; apply Z.ltb_ge; lia).
    replace (10 * (10 * (10 * a + b) + c) + d <? 1000) with false
      by (symmetry; apply Z.ltb_ge; lia).
    apply pad4_digits; assumption.
Qed.

(** The year as the host prints it: the four digits where the library
    pads, the digits after the leading zeros where it does not. *)
Lemma strftime_Y_of_digits (zero_pad : bool) (y : string) :
  String.length y = 4%nat -> all_digits y = true ->
  1 <= int_of_digits y ->
  strftime_Y zero_pad (int_of_digits y) =
    if zero_pad then y else drop_while (Ascii.eqb "0") y.
Proof.
  intros Hl Hd Hpos. unfold strftime_Y. destruct zero_pad.
  - apply pad4_int_of_digits; assumption.
  - destruct y as [|c1 [|c2 [|c3 [|c4 [|c5 y]]]]]; try discriminate.
    cbn [all_digits] in Hd. rewrite !andb_true_iff in Hd.
    destruct Hd as (H1 & H2 & H3 & H4 & _).
    destruct (digit_char_value c1 H1) as [B1 E1].
    destruct (digit_char_value c2 H2) as [B2 E2].
    destruct (digit_char_value c3 H3) as [B3 E3].
    destruct (digit_char_value c4 H4) as [B4 E4].
    assert (Hi : int_of_digits
                   (String c1 (String c2 (String c3 (String c4 EmptyString))))
                 = 10 * (10 * (10 * digit_value c1 + digit_value c2)
                         + digit_value c3) + digit_value c4).
    { unfold int_of_digits. cbn [int_of_digits_from]. lia. }
    rewrite Hi in Hpos |- *. rewrite unpadded_year_digits by lia.
    cbn [drop_while].
    rewrite (Ascii.eqb_sym "0" c1), (Ascii.eqb_sym "0" c2),
      (Ascii.eqb_sym "0" c3), (Ascii.eqb_sym "0" c4).
    rewrite (is_zero_digit c1 H1), (is_zero_digit c2 H2),
      (is_zero_digit c3 H3), (is_zero_digit c4 H4).
    rewrite E1, E2, E3, E4.
    destruct (digit_value c1 =? 0) eqn:Z1; [|reflexivity].
    destruct (digit_value c2 =? 0) eqn:Z2; [|reflexivity].
    destruct (digit_value c3 =? 0) eqn:Z3; [|reflexivity].
    destruct (digit_value c4 =? 0) eqn:Z4; [|reflexivity].
    apply Z.eqb_eq in Z1, Z2, Z3, Z4. lia.
Qed.

Lemma valid_date_year (y m d : Z) : valid_date y m d = true -> 1 <= y.
Proof.
  unfold valid_date. rewrite !andb_true_iff. intros H.
  destruct H as [[[[[H _] _] _] _] _]. apply Z.leb_le. exact H.
Qed.

Lemma fallback_caption_of_match (zero_pad : bool) (filename y m d : string) :
  search_date filename = Some (y, m, d) ->
  date_at_lengths y m d ->
  (valid_date (int_of_digits y) (int_of_digits m) (int_of_digits d) = true ->
   fallback_caption zero_pad filename =
     "Photo taken on " ++ month_name (int_of_digits m) ++ " " ++ d ++ ", "
       ++ (if zero_pad then y else drop_while (Ascii.eqb "0") y)) /\
  (valid_date (int_of_digits y) (int_of_digits m) (int_of_digits d) = false ->
   fallback_caption zero_pad filename = clean_name filename).
Proof.
  intros Hs (Hly & Hdy & Hld & Hdd).
  unfold fallback_caption, datetime. rewrite Hs.
  split; intros Hv; rewrite Hv; cbn [bind try_except strftime_B_d_Y];
    [|reflexivity].
  rewrite (pad2_int_of_digits d Hld Hdd).
  rewrite (strftime_Y_of_digits zero_pad y Hly Hdy (valid_date_year _ _ _ Hv)).
  reflexivity.
Qed.

Lemma date_at_shape (s y m d : string) :
  date_at s y m d -> date_at_lengths y m d.
Proof.
  intros H. destruct H. unfold date_at_lengths. auto.
Qed.

(** C4, amended. When the cascade produced no caption, the caption is the
    filename fallback. If the leftmost occurrence of the date pattern in
    the filename forms a valid calendar date, the caption is
    "Photo taken on <Month> <Day>, <Year>" with the long month name, the
    day on two digits as matched, and the year as the host prints it: the
    four matched digits, or those digits without their leading zeros where
    the C library does not pad the year. If that occurrence is no valid
    date, or the pattern does not occur, the caption is the filename
    without extension, without a leading "IMG_" and with spaces for
    underscores. (Filenames are texts over the code points below 256,
    whose only decimal digits are 0 to 9.) *)
Theorem fallback_caption_leftmost_date (w : World) (photo_path filename : string)
  (zero_pad : bool) :
  (no_caption (caption_cascade w photo_path) = true ->
   lookup "caption" (resolve_caption w photo_path)
     = Some (PyStr (fallback_caption (strftime_pads_year w)
                      (basename photo_path)))) /\
  (forall pre y m d,
     date_occurs filename pre y m d -> no_earlier_date filename pre ->
     (valid_date (int_of_digits y) (int_of_digits m) (int_of_digits d) = true ->
      fallback_caption zero_pad filename =
        "Photo taken on " ++ month_name (int_of_digits m) ++ " " ++ d ++ ", "
          ++ (if zero_pad then y else drop_while (Ascii.eqb "0") y)) /\
     (valid_date (int_of_digits y) (int_of_digits m) (int_of_digits d) = false ->
      fallback_caption zero_pad filename =
        replace_char "_" " " (strip_IMG (splitext_root filename)))) /\
  ((forall pre y m d, ~ date_occurs filename pre y m d) ->
   fallback_caption zero_pad filename =
     replace_char "_" " " (strip_IMG (splitext_root filename))) /\
  fallback_caption zero_pad "IMG_2024-03-15_Paris.heic"
    = "Photo taken on March 15, 2024" /\
  fallback_caption zero_pad "Grand_Canyon_Sunset.jpg" = "Grand Canyon Sunset".
Proof.
  split; [|split; [|split; [|split]]].
  - intros H. unfold resolve_caption. rewrite H.
    apply lookup_setitem_same.
  - intros pre y m d Hocc Hleft.
    apply fallback_caption_of_match.
    + exact (search_date_of_leftmost_occurrence filename pre y m d Hocc Hleft).
    + destruct Hocc as (rest & _ & Hat). exact (date_at_shape _ _ _ _ Hat).
  - intros H. unfold fallback_caption.
    rewrite (search_date_of_no_occurrence filename H). reflexivity.
  - destruct zero_pad; vm_compute; reflexivity.
  - destruct zero_pad; vm_compute; reflexivity.
Qed.

(** The amended C4 on a photo without any metadata, on a filename that
    starts with a date, on a filename whose year has a leading zero, read
    on a host that does not pad the year, and on a filename without the
    pattern. *)
Lemma fallback_caption_leftmost_date_witness :
  lookup "caption" (resolve_caption plain_world "/photos/Grand_Canyon_Sunset.jpg")
    = Some (PyStr (fallback_caption true "Grand_Canyon_Sunset.jpg")) /\
  fallback_caption true "2024-03-15_Paris.jpg" = "Photo taken on March 15, 2024" /\
  fallback_caption false "DSC_0123_0405.jpg" = "Photo taken on April 05, 123" /\
  fallback_caption true "Grand_Canyon_Sunset.jpg" =
    replace_char "_" " " (strip_IMG (splitext_root "Grand_Canyon_Sunset.jpg")).
Proof.
  destruct (fallback_caption_leftmost_date plain_world
              "/photos/Grand_Canyon_Sunset.jpg" "2024-03-15_Paris.jpg" true)
    as (Hfallback & Hdate & _).
  destruct (fallback_caption_leftmost_date plain_world
              "/photos/Grand_Canyon_Sunset.jpg" "DSC_0123_0405.jpg" false)
    as (_ & Hyear & _).
  destruct (fallback_caption_leftmost_date plain_world
              "/photos/Grand_Canyon_Sunset.jpg" "Grand_Canyon_Sunset.jpg" true)
    as (_ & _ & Hnone & _).
  split; [|split; [|split]].
  - apply Hfallback. vm_compute. reflexivity.
  - destruct (Hdate EmptyString "2024" "03" "15") as [Hvalid _].
    + exists "2024-03-15_Paris.jpg". split; [reflexivity|].
      apply (date_at_intro "2024" "-" "03" "-" "15" "_Paris.jpg");
        reflexivity.
    + intros pre' y m d Hlt. simpl in Hlt. lia.
    + apply Hvalid. vm_compute. reflexivity.
  - destruct (Hyear "DSC_" "0123" "04" "05") as [Hvalid _].
    + exists "0123_0405.jpg". split; [reflexivity|].
      apply (date_at_intro "0123" "_" "04" EmptyString "05" ".jpg");
        reflexivity.
    + intros pre' y m d Hlt (rest & E & Hat).
      apply match_date_at_complete in Hat.
      destruct pre' as [|c1 [|c2 [|c3 [|c4 pre']]]];
        [| | | |simpl in Hlt; lia];
        simpl in E; inversion E; subst; vm_compute in Hat; discriminate.
    + apply Hvalid. vm_compute. reflexivity.
  - apply Hnone. intros pre y m d (rest & E & Hat).
    apply match_date_at_complete in Hat.
    rewrite (search_date_none_inv "Grand_Canyon_Sunset.jpg" eq_refl pre rest E)
      in Hat.
    discriminate.
Defined.

(** C4 as stated fails: this filename contains the valid date 2024-03-15,
    but the search stops at its leftmost match, 1234_2024, read as year
    1234, month 20, day 24, which is no date, and the caption is the
    cleaned filename, however the host prints years. *)
Lemma fallback_caption_misses_later_date :
  date_occurs "IMG_1234_2024-03-15.jpg" "IMG_1234_" "2024" "03" "15" /\
  valid_date (int_of_digits "2024") (int_of_digits "03") (int_of_digits "15") = true /\
  search_date "IMG_1234_2024-03-15.jpg" = Some ("1234", "20", "24") /\
  (forall zero_pad,
     fallback_caption zero_pad "IMG_1234_2024-03-15.jpg" = "1234 2024-03-15" /\
     fallback_caption zero_pad "IMG_1234_2024-03-15.jpg"
       <> "Photo taken on March 15, 2024").
Proof.
  split; [|split; [|split]].
  - exists "2024-03-15.jpg". split; [reflexivity|].
    apply (date_at_intro "2024" "-" "03" "-" "15" ".jpg"); reflexivity.
  - vm_compute. reflexivity.
  - vm_compute. reflexivity.
  - intros zero_pad. split.
    + destruct zero_pad; vm_compute; reflexivity.
    + destruct zero_pad; vm_compute; discriminate.
Qed.

(** ** The caption cascade *)

Lemma first_description_field_truthy (md : MetadataBag) (fields : list string)
  (v : pyval) :
  first_description_field md fields = Some v -> truthy v = true.
Proof.
  induction fields as [|f fs IH]; simpl; [discriminate|].
  destruct (lookup f md) as [x|]; [|exact IH].
  destruct (truthy x) eqn:E; [|exact IH].
  intros H. injection H as <-. exact E.
Qed.

(** Step 1 stores the field value as it is, and ends the cascade: the
    image is not opened. *)
Lemma heic_step_stores_raw_value (w : World) (photo_path : string) (v : pyval) :
  is_heic_path photo_path = true ->
  first_description_field
    (as_dict (get_heic_metadata_with_exiftool w photo_path))
    description_fields = Some v ->
  resolve_caption w photo_path = setitem "caption" v (new_photo_data photo_path).
Proof.
  intros Hh Hf.
  pose proof (first_description_field_truthy _ _ _ Hf) as Ht.
  assert (Hno : no_caption (setitem "caption" v (new_photo_data photo_path)) = false).
  { unfold no_caption, get_default. rewrite lookup_setitem_same, Ht. reflexivity. }
  unfold resolve_caption, caption_cascade. cbv zeta.
  rewrite Hh, Hf.
  change (set_caption (Some v) (new_photo_data photo_path))
    with (setitem "caption" v (new_photo_data photo_path)).
  rewrite Hno, Hno. reflexivity.
Qed.

(** C5 on a HEIC photo whose description field has surrounding blanks: the
    caption of the record is the raw value, not the trimmed one, whereas
    the same text reaching the cascade through the debugging tag list of a
    JPEG is trimmed. *)
Theorem heic_caption_not_trimmed :
  (exists r,
     extract_metadata_from_photo decimal_of_str
       (world_with_exiftool [("XMP:Description", PyStr "  Family dinner  ")])
       "/photos/IMG_0001.HEIC" = Ok r /\
     lookup "caption" r = Some (PyStr "  Family dinner  ")) /\
  strip "  Family dinner  " = "Family dinner" /\
  first_description_tag [("Image ImageDescription", "  Family dinner  ")]
    = Some (PyStr "Family dinner").
Proof.
  split; [|split].
  - eexists. split; vm_compute; reflexivity.
  - vm_compute. reflexivity.
  - vm_compute. reflexivity.
Qed.

(** C7 on a HEIC photo whose caption comes from step 1, with an image
    that opens: the record has no width, no height and no temporary copy,
    whereas the same photo without that description gets all three. *)
Theorem heic_with_tool_caption_has_no_dimensions :
  image_size plain_world "/photos/IMG_0001.HEIC" = Some (4032, 3024) /\
  (exists r,
     extract_metadata_from_photo decimal_of_str
       (world_with_exiftool [("EXIF:ImageDescription", PyStr "Family dinner")])
       "/photos/IMG_0001.HEIC" = Ok r /\
     lookup "caption" r = Some (PyStr "Family dinner") /\
     lookup "width" r = None /\ lookup "height" r = None /\
     lookup "temp_file" r = Some PyNone) /\
  (exists r,
     extract_metadata_from_photo decimal_of_str plain_world
       "/photos/IMG_0001.HEIC" = Ok r /\
     lookup "width" r = Some (PyInt 4032) /\
     lookup "height" r = Some (PyInt 3024) /\
     lookup "temp_file" r = Some (PyStr "/tmp/tmpk3v9x2.jpg")).
Proof.
  split; [reflexivity|]. split.
  - eexists. split; [vm_compute; reflexivity|].
    repeat split; vm_compute; reflexivity.
  - eexists. split; [vm_compute; reflexivity|].
    repeat split; vm_compute; reflexivity.
Qed.

(** ** The orientation resolver *)

Lemma orientation_from_exiftool_source (flt : string -> option Q)
  (md : MetadataBag) (fields : list string) (q : Q) :
  orientation_from_exiftool flt md fields = Ok (Some q) ->
  exists f v, In f fields /\ lookup f md = Some v /\ py_float flt v = Ok q.
Proof.
  induction fields as [|f fs IH]; simpl; [discriminate|].
  intros H.
  assert (Hrest : orientation_from_exiftool flt md fs = Ok (Some q) ->
                  exists f0 v, (f = f0 \/ In f0 fs) /\ lookup f0 md = Some v /\
                               py_float flt v = Ok q).
  { intros H'. destruct (IH H') as (f0 & v & Hin & Hl & Hf).
    exists f0, v. auto. }
  destruct (lookup f md) as [v|] eqn:El; [|auto].
  destruct (is_none v); [auto|].
  unfold float_opt in H.
  destruct (py_float flt v) as [x|e] eqn:Ef; simpl in H.
  - injection H as ->. exists f, v. auto.
  - destruct (value_or_type e); [auto | discriminate].
Qed.

Lemma orientation_from_tags_source (flt : string -> option Q)
  (tags : Tags) (names : list string) (q : Q) :
  orientation_from_tags flt tags names = Ok (Some q) ->
  exists name t x, In name names /\ lookup_tag name tags = Some t /\
                   index0 (values t) = Ok x /\ py_float flt x = Ok q.
Proof.
  induction names as [|n ns IH]; simpl; [discriminate|].
  intros H.
  assert (Hrest : orientation_from_tags flt tags ns = Ok (Some q) ->
                  exists name t x, (n = name \/ In name ns) /\
                    lookup_tag name tags = Some t /\
                    index0 (values t) = Ok x /\ py_float flt x = Ok q).
  { intros H'. destruct (IH H') as (n0 & t & x & Hin & Hl & Hi & Hf).
    exists n0, t, x. auto. }
  destruct (lookup_tag n tags) as [t|] eqn:El; [|auto].
  destruct (index0 (values t)) as [x|e] eqn:Ei; simpl in H.
  - unfold float_opt in H.
    destruct (py_float flt x) as [y|e] eqn:Ef; simpl in H.
    + injection H as ->. exists n, t, x. auto.
    + destruct (value_type_or_index e); [auto | discriminate].
  - destruct (value_type_or_index e); [auto | discriminate].
Qed.

Lemma extract_orientation_data_source (flt : string -> option Q)
  (tags : option Tags) (v : pyval) (q : Q) :
  extract_orientation_data flt tags v = Ok (Some q) ->
  (exists f x, In f orientation_fields /\ lookup f (as_dict v) = Some x /\
               py_float flt x = Ok q) \/
  (exists name t x, In name orientation_tags /\
               lookup_tag name (tags_or_empty tags) = Some t /\
               index0 (values t) = Ok x /\ py_float flt x = Ok q).
Proof.
  unfold extract_orientation_data. intros Ho.
  destruct (if truthy v
            then match v with
                 | PyDict md => orientation_from_exiftool flt md orientation_fields
                 | _ => checked <- subscript_fields v orientation_fields ;; Ok None
                 end
            else Ok None) as [[q'|]|e] eqn:E1; cbn [bind] in Ho;
    try discriminate.
  - injection Ho as ->. left.
    destruct (truthy v); [|discriminate].
    destruct v; try (destruct (subscript_fields _ _); discriminate).
    apply orientation_from_exiftool_source in E1. exact E1.
  - right. destruct (tags_truthy tags); [|discriminate].
    apply orientation_from_tags_source in Ho. exact Ho.
Qed.

Lemma orientation_absent_before_store (flt : string -> option Q) (w : World)
  (p : string) (g : gps_state) :
  lookup "orientation" (store_gps g (resolve_caption w p)) = None.
Proof.
  assert (H : lookup "orientation" (resolve_caption w p) = None).
  { rewrite resolve_caption_other_key by apply not_stage_key_orientation.
    reflexivity. }
  destruct g as [[la|] [lo|]]; simpl; try exact H.
  rewrite !lookup_setitem_other by discriminate. exact H.
Qed.

(** C9, amended. Where orientation is present in a returned record, it is
    the value that [float] gives for a bearing field of the external-tool
    metadata or for the first element of an embedded bearing tag, stored
    unchanged: no range is enforced, and any decimal found in the first
    bearing field is stored as it is. *)
Theorem orientation_stored_unchecked (flt : string -> option Q) (w : World)
  (photo_path : string) :
  let tags := photo_tags w photo_path in
  let md := as_dict (get_heic_metadata_with_exiftool w photo_path) in
  (forall r v,
     extract_metadata_from_photo flt w photo_path = Ok r ->
     lookup "orientation" r = Some v ->
     exists q, v = PyFloat q /\
       ((exists f x, In f orientation_fields /\ lookup f md = Some x /\
                     py_float flt x = Ok q) \/
        (exists name t x, In name orientation_tags /\
                     lookup_tag name (tags_or_empty tags) = Some t /\
                     index0 (values t) = Ok x /\ py_float flt x = Ok q))) /\
  (forall q,
     lookup "EXIF:GPSImgDirection" md = Some (PyFloat q) ->
     exists r, extract_metadata_from_photo flt w photo_path = Ok r /\
               lookup "orientation" r = Some (PyFloat q)).
Proof.
  intros tags md. split.
  - intros r v H Hl.
    apply extract_metadata_from_photo_ok in H.
    destruct H as (o & Ho & ->). fold tags in Ho.
    destruct o as [q|]; simpl in Hl.
    + rewrite lookup_setitem_same in Hl. injection Hl as <-.
      exists q. split; [reflexivity|].
      exact (extract_orientation_data_source flt tags _ q Ho).
    + rewrite (orientation_absent_before_store flt) in Hl. discriminate.
  - intros q Hq. subst md.
    destruct (get_heic_metadata_with_exiftool w photo_path) as [| | | | | | |d]
      eqn:E; try discriminate Hq.
    cbn [as_dict] in Hq.
    rewrite (extract_metadata_from_photo_dict flt w photo_path d E).
    fold tags.
    assert (Ho : extract_orientation_data flt tags (PyDict d) = Ok (Some q)).
    { rewrite extract_orientation_data_dict.
      destruct d as [|kv d']; [discriminate|].
      unfold orientation_fields. cbn [orientation_from_exiftool].
      rewrite Hq. reflexivity. }
    rewrite Ho. simpl. eexists. split; [reflexivity|].
    apply lookup_setitem_same.
Qed.

(** The amended C9 on a compass bearing of 400 degrees. *)
Lemma orientation_stored_unchecked_witness :
  exists r,
    extract_metadata_from_photo decimal_of_str
      (world_with_exiftool [("EXIF:GPSImgDirection", PyFloat 400)])
      "/photos/IMG_0001.jpg" = Ok r /\
    lookup "orientation" r = Some (PyFloat 400).
Proof.
  destruct (orientation_stored_unchecked decimal_of_str
              (world_with_exiftool [("EXIF:GPSImgDirection", PyFloat 400)])
              "/photos/IMG_0001.jpg") as [_ H].
  apply (H 400%Q). reflexivity.
Defined.

(** C9 as stated fails: a bearing field of 400 gives a record whose
    orientation is 400, and a bearing of 360 one whose orientation is 360;
    neither lies in [0, 360). *)
Lemma orientation_outside_circle :
  (exists r,
     extract_metadata_from_photo decimal_of_str
       (world_with_exiftool [("EXIF:GPSImgDirection", PyFloat 400)])
       "/photos/IMG_0001.jpg" = Ok r /\
     lookup "orientation" r = Some (PyFloat 400) /\
     ~ ((0 <= 400)%Q /\ (400 < 360)%Q)) /\
  (exists r,
     extract_metadata_from_photo decimal_of_str
       (world_with_exiftool [("EXIF:GPSImgDirection", PyInt 360)])
       "/photos/IMG_0001.jpg" = Ok r /\
     lookup "orientation" r = Some (PyFloat 360) /\
     ~ ((0 <= 360)%Q /\ (360 < 360)%Q)).
Proof.
  split.
  - eexists. split; [vm_compute; reflexivity|].
    split; [vm_compute; reflexivity|].
    intros [_ H]. revert H. vm_compute. discriminate.
  - eexists. split; [vm_compute; reflexivity|].
    split; [vm_compute; reflexivity|].
    intros [_ H]. revert H. vm_compute. discriminate.
Qed.

(** ** The batch entry point *)

Lemma batch_ok_iff (flt : string -> option Q) (w : World)
  (paths : list string) (rs : list MetadataBag) :
  extract_metadata_from_photos flt w paths = Ok rs <->
  Forall2 (fun p r => extract_metadata_from_photo flt w p = Ok r) paths rs.
Proof.
  revert rs. induction paths as [|p ps IH]; intros rs; simpl.
  - split.
    + intros H. injection H as <-. constructor.
    + intros H. inversion H. reflexivity.
  - split.
    + destruct (extract_metadata_from_photo flt w p) as [r|e] eqn:Ep; simpl;
        [|discriminate].
      destruct (extract_metadata_from_photos flt w ps) as [rs'|e] eqn:Eps;
        simpl; [|discriminate].
      intros H. injection H as <-. constructor; [exact Ep|].
      apply IH. reflexivity.
    + intros H. inversion H as [|p' r ps' rs' Hr Hrs]; subst.
      rewrite Hr. simpl.
      apply IH in Hrs. rewrite Hrs. reflexivity.
Qed.

Lemma batch_raises (flt : string -> option Q) (w : World)
  (before after : list string) (p : string) (e : exn) :
  (forall q, In q before -> is_ok (extract_metadata_from_photo flt w q) = true) ->
  extract_metadata_from_photo flt w p = Raise e ->
  extract_metadata_from_photos flt w (before ++ p :: after) = Raise e.
Proof.
  intros Hb Hp. induction before as [|q qs IH]; simpl.
  - rewrite Hp. reflexivity.
  - pose proof (Hb q (or_introl eq_refl)) as Hq.
    destruct (extract_metadata_from_photo flt w q) as [r|e']; [|discriminate].
    simpl. rewrite IH; [reflexivity|].
    intros q' Hin. apply Hb. right. exact Hin.
Qed.

Lemma photo_ok_iff_orientation_ok (flt : string -> option Q) (w : World)
  (p : string) (md : MetadataBag) :
  get_heic_metadata_with_exiftool w p = PyDict md ->
  is_ok (extract_metadata_from_photo flt w p) =
  is_ok (extract_orientation_data flt (photo_tags w p) (PyDict md)).
Proof.
  intros H. rewrite (extract_metadata_from_photo_dict flt w p md H).
  destruct (extract_orientation_data _ _ _); reflexivity.
Qed.

Lemma unopened_image_has_no_size (flt : string -> option Q) (w : World)
  (p : string) (r : MetadataBag) :
  is_heic_path p = false -> image_size w p = None ->
  extract_metadata_from_photo flt w p = Ok r ->
  lookup "width" r = None /\ lookup "height" r = None /\
  lookup "caption" r
    = Some (PyStr (fallback_caption (strftime_pads_year w) (basename p))).
Proof.
  intros Hh Hs H.
  apply extract_metadata_from_photo_ok in H. destruct H as (o & _ & ->).
  rewrite !store_orientation_other by discriminate.
  assert (Hr : resolve_caption w p =
               setitem "caption"
                 (PyStr (fallback_caption (strftime_pads_year w) (basename p)))
                 (new_photo_data p)).
  { unfold resolve_caption, caption_cascade, caption_and_dimensions.
    rewrite Hh, Hs. reflexivity. }
  rewrite Hr.
  destruct (validate _) as [[la|] [lo|]]; simpl;
    rewrite ?lookup_setitem_other by discriminate; simpl; auto.
Qed.

(** C6, amended. [extract_metadata_from_photos] has no exception boundary
    of its own: it returns the records, in input order, exactly when every
    call of [extract_metadata_from_photo] returns, and an exception that
    leaves one photo's processing ends the batch and reaches the caller.
    Inside [extract_metadata_from_photo] the failures of the image
    library, the tag reader, the subprocesses and the sidecar are caught:
    when the external tool gave a dict, the photo returns whenever the
    orientation resolver does, and a JPEG that cannot be opened gives a
    partial record, without dimensions and with the filename caption. A
    truthy value of the external tool that is no dict is not caught: the
    photo raises [TypeError] or [AttributeError]. *)
Theorem batch_has_no_exception_boundary (flt : string -> option Q) (w : World)
  (photo_paths : list string) :
  (forall rs,
     extract_metadata_from_photos flt w photo_paths = Ok rs <->
     Forall2 (fun p r => extract_metadata_from_photo flt w p = Ok r)
             photo_paths rs) /\
  (forall (before : list string) (p : string) (after : list string) (e : exn),
     photo_paths = (before ++ p :: after)%list ->
     (forall q, In q before ->
                is_ok (extract_metadata_from_photo flt w q) = true) ->
     extract_metadata_from_photo flt w p = Raise e ->
     extract_metadata_from_photos flt w photo_paths = Raise e) /\
  (forall p md,
     get_heic_metadata_with_exiftool w p = PyDict md ->
     is_ok (extract_orientation_data flt (photo_tags w p) (PyDict md)) = true ->
     is_ok (extract_metadata_from_photo flt w p) = true) /\
  (forall p,
     is_dict (get_heic_metadata_with_exiftool w p) = false ->
     truthy (get_heic_metadata_with_exiftool w p) = true ->
     extract_metadata_from_photo flt w p = Raise TypeError \/
     extract_metadata_from_photo flt w p = Raise AttributeError) /\
  (forall p r,
     is_heic_path p = false -> image_size w p = None ->
     extract_metadata_from_photo flt w p = Ok r ->
     lookup "width" r = None /\ lookup "height" r = None /\
     lookup "caption" r
       = Some (PyStr (fallback_caption (strftime_pads_year w) (basename p)))).
Proof.
  split; [|split; [|split; [|split]]].
  - intros rs. apply batch_ok_iff.
  - intros before p after e -> Hb Hp. apply batch_raises; assumption.
  - intros p md Hmd H. rewrite (photo_ok_iff_orientation_ok flt w p md Hmd).
    exact H.
  - intros p. apply extract_metadata_from_photo_non_dict.
  - intros p r. apply unopened_image_has_no_size.
Qed.

(** The amended C6 on a batch of two photos without metadata. *)
Lemma batch_has_no_exception_boundary_witness :
  exists r1 r2,
    extract_metadata_from_photo decimal_of_str plain_world "/photos/a.jpg" = Ok r1 /\
    extract_metadata_from_photo decimal_of_str plain_world "/photos/b.heic" = Ok r2 /\
    extract_metadata_from_photos decimal_of_str plain_world
      ["/photos/a.jpg"; "/photos/b.heic"] = Ok [r1; r2].
Proof.
  eexists. eexists.
  split; [vm_compute; reflexivity|].
  split; [vm_compute; reflexivity|].
  apply (batch_has_no_exception_boundary decimal_of_str plain_world
           ["/photos/a.jpg"; "/photos/b.heic"]).
  repeat constructor.
Defined.

(** C6 as stated fails. The second photo is a JPEG whose embedded bearing
    tag holds the rational 0/0: [float] raises [ZeroDivisionError], which
    the orientation resolver does not catch; it leaves
    [extract_metadata_from_photo] and ends the batch. No record is
    returned, not even for the first photo, and the third photo is never
    processed. The same happens with [OverflowError] when the bearing
    reported by the external tool is an integer too large for [float], and
    with [AttributeError] or [TypeError] when the first element of the
    tool's JSON array is the number 5 instead of an object. *)
Lemma batch_aborts_on_escaping_exception :
  (is_ok (extract_metadata_from_photo decimal_of_str
            (world_with_tags_at "/photos/b.jpg" tags_bearing_0_0)
            "/photos/a.jpg") = true /\
   extract_metadata_from_photo decimal_of_str
     (world_with_tags_at "/photos/b.jpg" tags_bearing_0_0)
     "/photos/b.jpg" = Raise ZeroDivisionError /\
   extract_metadata_from_photos decimal_of_str
     (world_with_tags_at "/photos/b.jpg" tags_bearing_0_0)
     ["/photos/a.jpg"; "/photos/b.jpg"; "/photos/c.jpg"]
     = Raise ZeroDivisionError) /\
  (extract_metadata_from_photo decimal_of_str
     (world_with_exiftool_at "/photos/b.jpg"
        [("EXIF:GPSImgDirection", PyInt (10 ^ 400))])
     "/photos/b.jpg" = Raise OverflowError /\
   extract_metadata_from_photos decimal_of_str
     (world_with_exiftool_at "/photos/b.jpg"
        [("EXIF:GPSImgDirection", PyInt (10 ^ 400))])
     ["/photos/a.jpg"; "/photos/b.jpg"; "/photos/c.jpg"] = Raise OverflowError) /\
  (get_heic_metadata_with_exiftool (world_with_exiftool_item (PyInt 5))
     "/photos/a.jpg" = PyInt 5 /\
   extract_metadata_from_photo decimal_of_str
     (world_with_exiftool_item (PyInt 5)) "/photos/a.jpg"
     = Raise AttributeError /\
   extract_metadata_from_photo decimal_of_str
     (world_with_exiftool_item (PyInt 5)) "/photos/b.heic"
     = Raise TypeError /\
   extract_metadata_from_photos decimal_of_str
     (world_with_exiftool_item (PyInt 5)) ["/photos/a.jpg"; "/photos/b.heic"]
     = Raise AttributeError).
Proof.
  split; [split; [|split] | split; [split | split; [|split; [|split]]]];
    vm_compute; reflexivity.
Qed.

(** ** Temporary-file clean-up *)

Lemma file_in_spec (p : string) (fs : FileSystem) :
  file_in p fs = true <-> In p fs.
Proof.
  unfold file_in. rewrite existsb_exists. split.
  - intros (q & Hin & Heq). apply String.eqb_eq in Heq. subst. exact Hin.
  - intros H. exists p. split; [exact H | apply String.eqb_refl].
Qed.

Lemma file_in_delete_same (p : string) (fs : FileSystem) :
  file_in p (delete_file p fs) = false.
Proof.
  destruct (file_in p (delete_file p fs)) eqn:E; [|reflexivity].
  apply file_in_spec in E. unfold delete_file in E.
  apply filter_In in E. destruct E as [_ E].
  rewrite String.eqb_refl in E. discriminate.
Qed.

Lemma file_in_delete_mono (p q : string) (fs : FileSystem) :
  file_in q (delete_file p fs) = true -> file_in q fs = true.
Proof.
  rewrite !file_in_spec. unfold delete_file. intros H.
  apply filter_In in H. tauto.
Qed.

Lemma cleanup_entry_record (can : string -> bool) (v : pyval) (st : CleanupState) :
  record_entry v -> cleanup_entry can v st = Ok (unlink_step can st (entry_path v)).
Proof.
  intros (d & -> & Hshape). destruct st as [fs calls].
  unfold cleanup_entry, entry_path, get_default, unlink_step.
  assert (Hd : truthy (PyDict d) = true).
  { destruct d; [|reflexivity]. destruct Hshape as [H | [n H]]; discriminate. }
  rewrite Hd.
  destruct Hshape as [H | [name H]]; rewrite H; [reflexivity|].
  cbn [truthy fst snd]. fold (nonempty name).
  destruct (nonempty name); [|reflexivity].
  destruct (file_in name fs) eqn:Ef; [|reflexivity].
  unfold os_unlink. rewrite Ef. destruct (can name); reflexivity.
Qed.

Lemma cleanup_loop_records (can : string -> bool) (entries : list pyval)
  (st : CleanupState) :
  Forall record_entry entries ->
  cleanup_loop can entries st =
    Ok (fold_left (unlink_step can) (map entry_path entries) st).
Proof.
  intros H. revert st. induction H as [|v vs Hv _ IH]; intros st; simpl.
  - reflexivity.
  - rewrite (cleanup_entry_record can v st Hv). simpl. apply IH.
Qed.

(** Files only disappear during the clean-up. *)
Lemma unlink_step_mono (can : string -> bool) (st : CleanupState)
  (path : option string) (q : string) :
  file_in q (fst (unlink_step can st path)) = true -> file_in q (fst st) = true.
Proof.
  destruct path as [p|]; simpl; [|auto].
  destruct (file_in p (fst st)); [|auto].
  destruct (can p); simpl; [|auto].
  apply file_in_delete_mono.
Qed.

Lemma unlink_fold_mono (can : string -> bool) (paths : list (option string))
  (st : CleanupState) (q : string) :
  file_in q (fst (fold_left (unlink_step can) paths st)) = true ->
  file_in q (fst st) = true.
Proof.
  revert st. induction paths as [|p ps IH]; intros st; simpl; [auto|].
  intros H. apply IH in H. apply unlink_step_mono in H. exact H.
Qed.

(** A path that was removed does not exist afterwards. *)
Lemma unlink_fold_deleted_gone (can : string -> bool)
  (paths : list (option string)) (st : CleanupState) :
  (forall p, In p (deleted (snd st)) -> file_in p (fst st) = false) ->
  forall p, In p (deleted (snd (fold_left (unlink_step can) paths st))) ->
            file_in p (fst (fold_left (unlink_step can) paths st)) = false.
Proof.
  revert st. induction paths as [|x xs IH]; intros st Hinv; simpl; [exact Hinv|].
  apply IH. intros p Hp.
  destruct x as [q|]; simpl in *; [|auto].
  destruct (file_in q (fst st)) eqn:Eq; [|auto].
  destruct (can q); simpl in *.
  - unfold deleted in Hp. rewrite filter_app, map_app in Hp.
    apply in_app_or in Hp. destruct Hp as [Hp | Hp].
    + destruct (file_in p (delete_file q (fst st))) eqn:E; [|reflexivity].
      apply file_in_delete_mono in E. rewrite (Hinv p Hp) in E. discriminate.
    + simpl in Hp. destruct Hp as [<- | []]. apply file_in_delete_same.
  - unfold deleted in Hp. rewrite filter_app, map_app in Hp.
    apply in_app_or in Hp. destruct Hp as [Hp | Hp]; [auto|].
    simpl in Hp. contradiction.
Qed.

(** A path handed to [os.unlink] existed when the run started. *)
Lemma unlink_fold_attempted_existed (can : string -> bool)
  (paths : list (option string)) (st : CleanupState) (fs0 : FileSystem) :
  (forall q, file_in q (fst st) = true -> file_in q fs0 = true) ->
  (forall p, In p (attempted (snd st)) -> file_in p fs0 = true) ->
  forall p, In p (attempted (snd (fold_left (unlink_step can) paths st))) ->
            file_in p fs0 = true.
Proof.
  revert st. induction paths as [|x xs IH]; intros st Hsub Hinv; simpl;
    [exact Hinv|].
  apply IH.
  - intros q Hq. apply Hsub. apply unlink_step_mono in Hq. exact Hq.
  - intros p Hp.
    destruct x as [q|]; simpl in *; [|auto].
    destruct (file_in q (fst st)) eqn:Eq; [|auto].
    assert (Hq0 : file_in q fs0 = true) by (apply Hsub; exact Eq).
    destruct (can q); simpl in *;
      unfold attempted in Hp; rewrite map_app in Hp;
      apply in_app_or in Hp; destruct Hp as [Hp | Hp]; auto;
      simpl in Hp; destruct Hp as [<- | []]; exact Hq0.
Qed.

(** After a run, a considered path that still exists could not be
    removed. *)
Lemma unlink_fold_survivors (can : string -> bool)
  (paths : list (option string)) (st : CleanupState) :
  forall p, In (Some p) paths ->
    file_in p (fst (fold_left (unlink_step can) paths st)) = true ->
    can p = false.
Proof.
  revert st. induction paths as [|x xs IH]; intros st p Hin Hex; simpl in *.
  - contradiction.
  - destruct Hin as [-> | Hin]; [|exact (IH _ p Hin Hex)].
    apply unlink_fold_mono in Hex. simpl in Hex.
    destruct (file_in p (fst st)) eqn:Ep.
    + destruct (can p) eqn:Ec; [|reflexivity].
      simpl in Hex. rewrite file_in_delete_same in Hex. discriminate.
    + rewrite Ep in Hex. discriminate.
Qed.

(** A run in which nothing can be removed leaves the files alone. *)
Lemma unlink_fold_stable (can : string -> bool)
  (paths : list (option string)) (st : CleanupState) :
  (forall p, In (Some p) paths -> file_in p (fst st) = true -> can p = false) ->
  fst (fold_left (unlink_step can) paths st) = fst st /\
  deleted (snd (fold_left (unlink_step can) paths st)) = deleted (snd st).
Proof.
  revert st. induction paths as [|x xs IH]; intros st H; simpl; [auto|].
  assert (Hstep : fst (unlink_step can st x) = fst st /\
                  deleted (snd (unlink_step can st x)) = deleted (snd st)).
  { destruct x as [p|]; simpl; [|auto].
    destruct (file_in p (fst st)) eqn:Ep; [|auto].
    rewrite (H p (or_introl eq_refl) Ep). simpl. split; [reflexivity|].
    unfold deleted. rewrite filter_app, map_app. simpl. apply app_nil_r. }
  destruct Hstep as [Hf Hd].
  destruct (IH (unlink_step can st x)) as [Hf' Hd'].
  - intros p Hin Hex. rewrite Hf in Hex. apply H; [right; exact Hin | exact Hex].
  - rewrite Hf', Hd'. auto.
Qed.

Lemma photo_record_temp_file (flt : string -> option Q) (w : World)
  (p : string) (r : MetadataBag) :
  extract_metadata_from_photo flt w p = Ok r -> temp_file_shape r.
Proof.
  intros H. apply extract_metadata_from_photo_ok in H.
  destruct H as (o & _ & ->).
  apply (temp_file_shape_ext (resolve_caption w p));
    [|apply resolve_caption_temp_file].
  rewrite store_orientation_other by discriminate.
  destruct (validate _) as [[la|] [lo|]]; simpl;
    try reflexivity.
  rewrite !lookup_setitem_other by discriminate. reflexivity.
Qed.

Lemma batch_records_are_entries (flt : string -> option Q) (w : World)
  (paths : list string) (rs : list MetadataBag) :
  extract_metadata_from_photos flt w paths = Ok rs ->
  Forall record_entry (map PyDict rs).
Proof.
  intros H. apply batch_ok_iff in H.
  induction H as [|p r ps rs' Hr _ IH]; simpl; constructor; [|exact IH].
  exists r. split; [reflexivity|].
  exact (photo_record_temp_file flt w p r Hr).
Qed.

(** C8. On a batch result, two successive calls of [cleanup_temp_files]
    both return: a deletion error is recorded, not raised. No path removed
    by the first call is handed to [os.unlink] by the second; and when the
    same deletions keep failing, the second call changes no file and
    removes nothing. *)
Theorem cleanup_temp_files_idempotent (flt : string -> option Q) (w : World)
  (photo_paths : list string) (rs : list MetadataBag)
  (can1 can2 : string -> bool) (fs : FileSystem) :
  extract_metadata_from_photos flt w photo_paths = Ok rs ->
  exists fs1 calls1 fs2 calls2,
    cleanup_temp_files can1 (Some (map PyDict rs)) fs = Ok (fs1, calls1) /\
    cleanup_temp_files can2 (Some (map PyDict rs)) fs1 = Ok (fs2, calls2) /\
    (forall p, In p (deleted calls1) -> ~ In p (attempted calls2)) /\
    ((forall p, can2 p = can1 p) -> fs2 = fs1 /\ deleted calls2 = []).
Proof.
  intros Hbatch.
  pose proof (batch_records_are_entries flt w photo_paths rs Hbatch) as Hrec.
  set (entries := map PyDict rs) in *.
  set (paths := map entry_path entries).
  set (st1 := fold_left (unlink_step can1) paths (fs, [])).
  set (st2 := fold_left (unlink_step can2) paths (fst st1, [])).
  exists (fst st1), (snd st1), (fst st2), (snd st2).
  split; [|split; [|split]].
  - unfold cleanup_temp_files. rewrite (cleanup_loop_records can1 _ _ Hrec).
    fold paths st1. destruct st1; reflexivity.
  - unfold cleanup_temp_files. rewrite (cleanup_loop_records can2 _ _ Hrec).
    fold paths st2. destruct st2; reflexivity.
  - intros p Hdel Hatt.
    assert (Hgone : file_in p (fst st1) = false).
    { apply (unlink_fold_deleted_gone can1 paths (fs, [])); [|exact Hdel].
      intros q []. }
    assert (Hthere : file_in p (fst st1) = true).
    { apply (unlink_fold_attempted_existed can2 paths (fst st1, []) (fst st1));
        [auto | intros q [] | exact Hatt]. }
    rewrite Hgone in Hthere. discriminate.
  - intros Hsame.
    destruct (unlink_fold_stable can2 paths (fst st1, [])) as [Hf Hd].
    + intros p Hin Hex. rewrite Hsame.
      apply (unlink_fold_survivors can1 paths (fs, []) p Hin Hex).
    + fold st2 in Hf, Hd. auto.
Qed.

(** C8 on a HEIC photo whose temporary copy exists and can be removed. *)
Lemma cleanup_temp_files_idempotent_witness :
  exists rs fs1 calls1 fs2 calls2,
    extract_metadata_from_photos decimal_of_str plain_world ["/photos/b.heic"]
      = Ok rs /\
    cleanup_temp_files (fun _ => true) (Some (map PyDict rs))
      ["/photos/b.heic"; "/tmp/tmpk3v9x2.jpg"] = Ok (fs1, calls1) /\
    cleanup_temp_files (fun _ => true) (Some (map PyDict rs)) fs1
      = Ok (fs2, calls2) /\
    (forall p, In p (deleted calls1) -> ~ In p (attempted calls2)) /\
    fs2 = fs1.
Proof.
  eexists.
  destruct (cleanup_temp_files_idempotent decimal_of_str plain_world
              ["/photos/b.heic"] _ (fun _ => true) (fun _ => true)
              ["/photos/b.heic"; "/tmp/tmpk3v9x2.jpg"] eq_refl)
    as (fs1 & calls1 & fs2 & calls2 & H1 & H2 & H3 & H4).
  exists fs1, calls1, fs2, calls2.
  split; [reflexivity|].
  split; [exact H1|]. split; [exact H2|]. split; [exact H3|].
  apply H4. reflexivity.
Defined.

Lemma cleanup_loop_skipped (can : string -> bool) (entries : list pyval)
  (fs : FileSystem) (calls : list (string * bool)) :
  Forall (skipped_entry fs) entries ->
  cleanup_loop can entries (fs, calls) = Ok (fs, calls).
Proof.
  intros H. induction H as [|v vs Hv _ IH]; cbn [cleanup_loop]; [reflexivity|].
  assert (Hstep : cleanup_entry can v (fs, calls) = Ok (fs, calls)).
  { destruct Hv as [-> | (d & -> & Hd)]; [reflexivity|].
    unfold cleanup_entry.
    destruct (truthy (PyDict d)); [|reflexivity].
    destruct Hd as [Hf | (p & Hp & Hex)].
    - rewrite Hf. reflexivity.
    - unfold get_default. rewrite Hp.
      destruct (truthy (PyStr p)); [|reflexivity].
      rewrite Hex. reflexivity. }
  rewrite Hstep. simpl. exact IH.
Qed.

(** C10. [cleanup_temp_files] returns at once on [None]; entries that are
    [None], that have no truthy temporary file, or whose temporary file
    does not exist are skipped: the call returns, no file is touched and
    [os.unlink] is not called. *)
Theorem cleanup_temp_files_degenerate (can : string -> bool) (fs : FileSystem)
  (entries : list pyval) :
  cleanup_temp_files can None fs = Ok (fs, []) /\
  (Forall (skipped_entry fs) entries ->
   cleanup_temp_files can (Some entries) fs = Ok (fs, [])).
Proof.
  split; [reflexivity|].
  intros H. unfold cleanup_temp_files. apply cleanup_loop_skipped. exact H.
Qed.

(** C10 on a list with a [None] entry, a record without temporary file, a
    record whose temporary file is [None], one whose temporary file is the
    empty string and one whose temporary file is already gone. *)
Lemma cleanup_temp_files_degenerate_witness :
  cleanup_temp_files (fun _ => true)
    (Some [ PyNone;
            PyDict [("path", PyStr "/photos/a.jpg")];
            PyDict [("path", PyStr "/photos/a.jpg"); ("temp_file", PyNone)];
            PyDict [("temp_file", PyStr EmptyString)];
            PyDict [("temp_file", PyStr "/tmp/gone.jpg")] ])
    ["/photos/a.jpg"] = Ok (["/photos/a.jpg"], []).
Proof.
  apply cleanup_temp_files_degenerate.
  apply Forall_cons; [left; reflexivity|].
  apply Forall_cons;
    [right; eexists; split; [reflexivity|]; left; reflexivity|].
  apply Forall_cons;
    [right; eexists; split; [reflexivity|]; left; reflexivity|].
  apply Forall_cons;
    [right; eexists; split; [reflexivity|]; left; reflexivity|].
  apply Forall_cons; [|apply Forall_nil].
  right. eexists. split; [reflexivity|]. right.
  exists "/tmp/gone.jpg". split; reflexivity.
Defined.

(** * Further properties of the code *)

(** ** The normaliser: other shapes, bounds, text *)

(** X1. [convert_gps_to_decimal] gives [None], whatever the reference, for
    a list that has not exactly three elements, for [None], for a dict, and
    for a triple one of whose components [float] cannot convert. *)
Theorem convert_gps_to_decimal_rejects (flt : string -> option Q) (ref : pyval) :
  (forall l, List.length l <> 3%nat ->
     convert_gps_to_decimal flt (PyList l) ref = None) /\
  (forall a b c e,
     py_float flt a = Raise e \/ py_float flt b = Raise e \/
     py_float flt c = Raise e ->
     convert_gps_to_decimal flt (PyList [a; b; c]) ref = None) /\
  convert_gps_to_decimal flt PyNone ref = None /\
  (forall d, convert_gps_to_decimal flt (PyDict d) ref = None).
Proof.
  split; [|split; [|split]].
  - intros l Hl. unfold convert_gps_to_decimal, convert_gps_body.
    destruct l as [|a [|b [|c [|d l]]]]; simpl; try reflexivity.
    exfalso. apply Hl. reflexivity.
  - intros a b c e H. unfold convert_gps_to_decimal, convert_gps_body.
    destruct (py_float flt a) as [x|ea]; simpl; [|reflexivity].
    destruct (py_float flt b) as [y|eb]; simpl; [|reflexivity].
    destruct (py_float flt c) as [z|ec]; simpl; [|reflexivity].
    destruct H as [H | [H | H]]; discriminate.
  - reflexivity.
  - reflexivity.
Qed.

(** X1 on a pair, and on a triple whose minutes are missing. *)
Lemma convert_gps_to_decimal_rejects_witness :
  convert_gps_to_decimal decimal_of_str (PyList [PyInt 51; PyInt 30]) (PyStr "N")
    = None /\
  convert_gps_to_decimal decimal_of_str (PyList [PyInt 51; PyNone; PyInt 15])
    (PyStr "N") = None.
Proof.
  destruct (convert_gps_to_decimal_rejects decimal_of_str (PyStr "N"))
    as (Hlen & Hcomp & _).
  split.
  - apply Hlen. simpl. lia.
  - apply (Hcomp _ _ _ TypeError). right. left. reflexivity.
Defined.

Lemma dms_to_decimal_at_least_degrees (d m s : Q) :
  (round64 d == d)%Q -> (0 <= m)%Q -> (0 <= s)%Q ->
  (d <= dms_to_decimal d m s)%Q.
Proof.
  intros Hd Hm Hs. unfold dms_to_decimal, fadd.
  pose proof (fdiv_nonneg m 60 Hm ltac:(lra)) as H1.
  pose proof (fdiv_nonneg s 3600 Hs ltac:(lra)) as H2.
  assert (H3 : (d <= round64 (d + fdiv m 60))%Q).
  { rewrite <- Hd at 1. apply round64_mono. lra. }
  rewrite <- Hd at 1. apply round64_mono. lra.
Qed.

(** X2. The result grows with each component of the triple, rounding
    included, and falls with it when the reference is "S" or "W". When the
    degrees are a float and minutes and seconds are not negative, the
    result is not below the degrees (not above their opposite, for "S" or
    "W"). *)
Theorem convert_gps_to_decimal_monotone (flt : string -> option Q)
  (a b c a' b' c' ref : pyval) (deg min sec deg' min' sec' : Q) :
  py_float flt a = Ok deg -> py_float flt b = Ok min -> py_float flt c = Ok sec ->
  py_float flt a' = Ok deg' -> py_float flt b' = Ok min' ->
  py_float flt c' = Ok sec' ->
  (deg <= deg')%Q -> (min <= min')%Q -> (sec <= sec')%Q ->
  exists r r',
    convert_gps_to_decimal flt (PyList [a; b; c]) ref = Some r /\
    convert_gps_to_decimal flt (PyList [a'; b'; c']) ref = Some r' /\
    (is_south_or_west ref = false -> (r <= r')%Q) /\
    (is_south_or_west ref = true -> (r' <= r)%Q) /\
    ((round64 deg == deg)%Q -> (0 <= min)%Q -> (0 <= sec)%Q ->
     (is_south_or_west ref = false -> (deg <= r)%Q) /\
     (is_south_or_west ref = true -> (r <= - deg)%Q)).
Proof.
  intros Ha Hb Hc Ha' Hb' Hc' Hd Hm Hs.
  rewrite (convert_triple_eq flt a b c ref deg min sec Ha Hb Hc).
  rewrite (convert_triple_eq flt a' b' c' ref deg' min' sec' Ha' Hb' Hc').
  pose proof (dms_to_decimal_mono deg min sec deg' min' sec' Hd Hm Hs) as Hmono.
  eexists. eexists. split; [reflexivity|]. split; [reflexivity|].
  split; [intros Hsw; rewrite Hsw; exact Hmono|].
  split; [intros Hsw; rewrite Hsw; lra|].
  intros Hfl Hm0 Hs0.
  pose proof (dms_to_decimal_at_least_degrees deg min sec Hfl Hm0 Hs0) as Hlow.
  split; intros Hsw; rewrite Hsw; lra.
Qed.

(** X2 at 37 deg 46' 30'' and 37 deg 46' 31'', north. *)
Lemma convert_gps_to_decimal_monotone_witness :
  exists r r',
    convert_gps_to_decimal decimal_of_str
      (PyList [PyInt 37; PyInt 46; PyInt 30]) (PyStr "N") = Some r /\
    convert_gps_to_decimal decimal_of_str
      (PyList [PyInt 37; PyInt 46; PyInt 31]) (PyStr "N") = Some r' /\
    (r <= r')%Q /\ (37 <= r)%Q.
Proof.
  pose proof (convert_gps_to_decimal_monotone decimal_of_str
                (PyInt 37) (PyInt 46) (PyInt 30) (PyInt 37) (PyInt 46) (PyInt 31)
                (PyStr "N") 37%Q 46%Q 30%Q 37%Q 46%Q 31%Q
                eq_refl eq_refl eq_refl eq_refl eq_refl eq_refl) as K.
  assert (H1 : (37 <= 37)%Q) by discriminate.
  assert (H2 : (46 <= 46)%Q) by discriminate.
  assert (H3 : (30 <= 31)%Q) by discriminate.
  destruct (K H1 H2 H3) as (r & r' & Hr & Hr' & Hle & _ & Hlow).
  exists r, r'. split; [exact Hr|]. split; [exact Hr'|].
  split; [apply Hle; reflexivity|].
  destruct Hlow as [H _];
    [apply Qeq_bool_eq; vm_compute; reflexivity|discriminate|discriminate|].
  apply H. reflexivity.
Defined.

(** X3. A text is read as its blank-separated tokens once "deg" and the
    quote characters are removed: with three or more tokens that [float]
    converts it gives what the triple of the first three gives; missing
    seconds, or missing minutes and seconds, count as zero. *)
Theorem convert_gps_to_decimal_text (flt : string -> option Q)
  (text : string) (ref : pyval) (p0 : string) (q0 : Q) :
  let tokens :=
    split_ws (strip (remove_char dquote (remove_char "'" (remove_deg text)))) in
  flt p0 = Some q0 ->
  (forall p1 p2 more q1 q2,
     tokens = p0 :: p1 :: p2 :: more -> flt p1 = Some q1 -> flt p2 = Some q2 ->
     convert_gps_to_decimal flt (PyStr text) ref =
     convert_gps_to_decimal flt (PyList [PyFloat q0; PyFloat q1; PyFloat q2]) ref) /\
  (forall p1 q1,
     tokens = [p0; p1] -> flt p1 = Some q1 ->
     convert_gps_to_decimal flt (PyStr text) ref =
     convert_gps_to_decimal flt (PyList [PyFloat q0; PyFloat q1; PyInt 0]) ref) /\
  (tokens = [p0] ->
   convert_gps_to_decimal flt (PyStr text) ref =
   convert_gps_to_decimal flt (PyList [PyFloat q0; PyInt 0; PyInt 0]) ref).
Proof.
  intros tokens H0. subst tokens.
  split; [|split].
  - intros p1 p2 more q1 q2 Ht H1 H2.
    unfold convert_gps_to_decimal, convert_gps_body.
    rewrite Ht. simpl. rewrite H0, H1, H2. reflexivity.
  - intros p1 q1 Ht H1.
    unfold convert_gps_to_decimal, convert_gps_body.
    rewrite Ht. simpl. rewrite H0, H1. reflexivity.
  - intros Ht.
    unfold convert_gps_to_decimal, convert_gps_body.
    rewrite Ht. simpl. rewrite H0. reflexivity.
Qed.

(** X3 on a text with a hemisphere letter after the seconds. *)
Lemma convert_gps_to_decimal_text_witness :
  convert_gps_to_decimal decimal_of_str (PyStr "51 deg 30' 15.4 N") (PyStr "N") =
  convert_gps_to_decimal decimal_of_str
    (PyList [PyFloat 51; PyFloat 30; PyFloat (154 # 10)]) (PyStr "N").
Proof.
  destruct (convert_gps_to_decimal_text decimal_of_str "51 deg 30' 15.4 N"
              (PyStr "N") "51" 51%Q eq_refl) as (H3 & _).
  apply (H3 "30" "15.4" ["N"] 30%Q (154 # 10)%Q); reflexivity.
Defined.

(** ** The GPS resolver: keys, references, sources *)

(** X4. A number that is already negative is taken as it is, whatever the
    hemisphere reference; a non-negative number is negated for the
    reference "S" or "W" and kept for any other truthy reference. *)
Theorem coordinate_sign (flt : string -> option Q) (q : Q) (ref : pyval) :
  ((q < 0)%Q -> coordinate flt (PyFloat q) ref = Ok (Some q)) /\
  ((0 <= q)%Q -> is_south_or_west ref = true ->
   coordinate flt (PyFloat q) ref = Ok (Some (- q)%Q)) /\
  ((0 <= q)%Q -> truthy ref = true -> is_south_or_west ref = false ->
   coordinate flt (PyFloat q) ref = Ok (Some q)).
Proof.
  assert (Hneg : (q < 0)%Q -> Qle_bool 0 q = false).
  { intros H. destruct (Qle_bool 0 q) eqn:E; [|reflexivity].
    apply Qle_bool_iff in E. lra. }
  assert (Hpos : (0 <= q)%Q -> Qle_bool 0 q = true).
  { intros H. apply Qle_bool_iff. exact H. }
  unfold coordinate, is_negative_number.
  split; [|split].
  - intros H. rewrite (Hneg H). reflexivity.
  - intros H Hsw. rewrite (Hpos H). simpl negb. cbv iota.
    assert (Ht : truthy ref = true).
    { apply is_south_or_west_spec in Hsw. destruct Hsw as [-> | ->]; reflexivity. }
    rewrite Ht. unfold convert_gps_to_decimal, convert_gps_body. simpl.
    rewrite Hsw. reflexivity.
  - intros H Ht Hsw. rewrite (Hpos H). simpl negb. cbv iota.
    rewrite Ht. unfold convert_gps_to_decimal, convert_gps_body. simpl.
    rewrite Hsw. reflexivity.
Qed.

(** X4 at 33.8 degrees south, given with and without its sign. *)
Lemma coordinate_sign_witness :
  coordinate decimal_of_str (PyFloat (- (338 # 10))) (PyStr "S")
    = Ok (Some (- (338 # 10))%Q) /\
  coordinate decimal_of_str (PyFloat (338 # 10)) (PyStr "S")
    = Ok (Some (- (338 # 10))%Q).
Proof.
  destruct (coordinate_sign decimal_of_str (- (338 # 10))%Q (PyStr "S"))
    as (Hneg & _).
  destruct (coordinate_sign decimal_of_str (338 # 10)%Q (PyStr "S"))
    as (_ & Hsouth & _).
  split.
  - apply Hneg. reflexivity.
  - apply Hsouth.
    + unfold Qle. simpl. lia.
    + reflexivity.
Defined.

Lemma contains_eq (needle s : string) :
  contains needle s =
    if String.prefix needle s then true
    else match s with
         | String _ s' => contains needle s'
         | EmptyString => false
         end.
Proof. destruct s; reflexivity. Qed.

Lemma split_on_nonempty (sep : ascii) (s : string) : split_on sep s <> [].
Proof.
  induction s as [|c s IH]; simpl; [discriminate|].
  destruct (split_on sep s) as [|part parts]; [contradiction|].
  destruct (Ascii.eqb c sep); discriminate.
Qed.

Lemma split_on_two_contains (sep : ascii) (s a b : string) (more : list string) :
  split_on sep s = a :: b :: more ->
  contains (String sep EmptyString) s = true.
Proof.
  revert a b more. induction s as [|c s IH]; intros a b more; simpl split_on.
  - discriminate.
  - destruct (split_on sep s) as [|part parts] eqn:E.
    + discriminate.
    + rewrite contains_eq. simpl String.prefix.
      destruct (Ascii.eqb c sep) eqn:Ec.
      * apply Ascii.eqb_eq in Ec. subst c.
        destruct (ascii_dec sep sep); [|contradiction].
        intros _. destruct s; reflexivity.
      * intros H. injection H as _ Hp. subst parts.
        destruct (ascii_dec sep c) as [Heq|Hne].
        { subst c. rewrite Ascii.eqb_refl in Ec. discriminate. }
        exact (IH part b more eq_refl).
Qed.

(** X5. When the external tool's metadata holds both "EXIF:GPSLatitude"
    and "EXIF:GPSLongitude" and neither conversion raises, the loop over
    the key sets ends there with what the conversions gave, also when a
    conversion gave [None]: the composite, XMP and GPS-group keys are not
    looked at. *)
Theorem gps_first_key_pair_ends_loop (flt : string -> option Q)
  (md : MetadataBag) (st : gps_state) (lat lon : pyval) (la lo : option Q) :
  lookup "EXIF:GPSLatitude" md = Some lat ->
  lookup "EXIF:GPSLongitude" md = Some lon ->
  coordinate flt lat (reference md (Some "EXIF:GPSLatitudeRef") "N") = Ok la ->
  coordinate flt lon (reference md (Some "EXIF:GPSLongitudeRef") "E") = Ok lo ->
  gps_from_exiftool flt md st = (la, lo).
Proof.
  intros Hlat Hlon Hla Hlo.
  unfold gps_from_exiftool.
  destruct md as [|kv md']; [discriminate|].
  unfold gps_keys. cbn [gps_key_loop].
  assert (Hstep : gps_try_keys flt (kv :: md')
                    ("EXIF:GPSLatitude", Some "EXIF:GPSLatitudeRef",
                     Some "EXIF:GPSLongitude", Some "EXIF:GPSLongitudeRef") st
                  = ((la, lo), true)).
  { unfold gps_try_keys.
    change (String.eqb "EXIF:GPSLatitude" "Composite:GPSPosition") with false.
    cbn [andb]. rewrite Hlat, Hlon, Hla, Hlo. reflexivity. }
  rewrite Hstep. reflexivity.
Qed.

(** X5 where the EXIF latitude is a text that cannot be read and the
    composite keys hold a good pair: the latitude stays absent. *)
Lemma gps_first_key_pair_ends_loop_witness :
  gps_from_exiftool decimal_of_str
    [ ("EXIF:GPSLatitude", PyStr "north"); ("EXIF:GPSLongitude", PyFloat 10);
      ("Composite:GPSLatitude", PyFloat 45); ("Composite:GPSLongitude", PyFloat 10) ]
    (None, None) = (None, Some 10%Q).
Proof.
  apply (gps_first_key_pair_ends_loop decimal_of_str _ (None, None)
           (PyStr "north") (PyFloat 10)); reflexivity.
Defined.

(** X6. When none of the four latitude keys is in the external tool's
    metadata and "Composite:GPSPosition" is a text, the text gives the
    pair when it splits at commas into two parts that [float] converts
    once stripped; a text with another number of parts leaves the
    coordinates as they were. *)
Theorem gps_composite_position (flt : string -> option Q) (md : MetadataBag)
  (st : gps_state) (position : string) :
  lookup "EXIF:GPSLatitude" md = None ->
  lookup "Composite:GPSLatitude" md = None ->
  lookup "XMP:GPSLatitude" md = None ->
  lookup "GPS:Latitude" md = None ->
  lookup "Composite:GPSPosition" md = Some (PyStr position) ->
  (forall lat_str lon_str la lo,
     split_on "," position = [lat_str; lon_str] ->
     flt (strip lat_str) = Some la -> flt (strip lon_str) = Some lo ->
     gps_from_exiftool flt md st = (Some la, Some lo)) /\
  (List.length (split_on "," position) <> 2%nat ->
   gps_from_exiftool flt md st = st).
Proof.
  intros H1 H2 H3 H4 Hp.
  assert (Hloop : gps_from_exiftool flt md st =
                  fst (gps_try_keys flt md
                         ("Composite:GPSPosition", None, None, None) st)).
  { unfold gps_from_exiftool.
    destruct md as [|kv md']; [discriminate|].
    unfold gps_keys. cbn [gps_key_loop].
    unfold gps_try_keys at 1 2 3 4 5.
    change (String.eqb "EXIF:GPSLatitude" "Composite:GPSPosition") with false.
    change (String.eqb "Composite:GPSLatitude" "Composite:GPSPosition") with false.
    change (String.eqb "XMP:GPSLatitude" "Composite:GPSPosition") with false.
    change (String.eqb "GPS:Latitude" "Composite:GPSPosition") with false.
    cbn [andb]. rewrite H1, H2, H3, H4.
    destruct (gps_try_keys flt (kv :: md')
                ("Composite:GPSPosition", None, None, None) st) as [st' broke].
    destruct broke; reflexivity. }
  rewrite Hloop. unfold gps_try_keys, has_key. rewrite Hp.
  rewrite String.eqb_refl. cbn [andb].
  split.
  - intros lat_str lon_str la lo Hs Hla Hlo.
    rewrite (split_on_two_contains "," position lat_str lon_str [] Hs), Hs.
    unfold assign_both, float_opt, py_float. rewrite Hla, Hlo. reflexivity.
  - intros Hlen.
    destruct (contains "," position); [|reflexivity].
    destruct (split_on "," position) as [|a [|b [|c l]]]; try reflexivity.
    exfalso. apply Hlen. reflexivity.
Qed.

(** X6 on a position given as one text. *)
Lemma gps_composite_position_witness :
  gps_from_exiftool decimal_of_str
    [("Composite:GPSPosition", PyStr "37.5, -122.25")] (None, None)
    = (Some (375 # 10), Some (- (12225 # 100))%Q).
Proof.
  destruct (gps_composite_position decimal_of_str
              [("Composite:GPSPosition", PyStr "37.5, -122.25")] (None, None)
              "37.5, -122.25" eq_refl eq_refl eq_refl eq_refl eq_refl)
    as [H _].
  apply (H "37.5" " -122.25"); reflexivity.
Defined.

(** X7. Embedded GPS tags contribute nothing unless both reference tags
    are there too: without "GPS GPSLatitudeRef" or "GPS GPSLongitudeRef"
    the coordinates stay as they were, even with both coordinate tags. *)
Theorem gps_from_tags_needs_references (flt : string -> option Q)
  (tags : Tags) (st : gps_state) :
  lookup_tag "GPS GPSLatitudeRef" tags = None \/
  lookup_tag "GPS GPSLongitudeRef" tags = None ->
  gps_from_tags flt tags st = st.
Proof.
  intros H. unfold gps_from_tags.
  destruct (lookup_tag "GPS GPSLatitude" tags); [|reflexivity].
  destruct (lookup_tag "GPS GPSLongitude" tags); [|reflexivity].
  destruct H as [-> | H].
  - reflexivity.
  - rewrite H. destruct (lookup_tag "GPS GPSLatitudeRef" tags); reflexivity.
Qed.

(** X7 on tags for 45 N, 10 E whose longitude reference is missing: the
    resolver finds no coordinates. *)
Lemma gps_from_tags_needs_references_witness :
  gps_from_tags decimal_of_str
    [ ("GPS GPSLatitude",
       tag "[45, 0, 0]" (PyList [PyRatio 45 1; PyRatio 0 1; PyRatio 0 1]));
      ("GPS GPSLatitudeRef", tag "N" (PyStr "N"));
      ("GPS GPSLongitude",
       tag "[10, 0, 0]" (PyList [PyRatio 10 1; PyRatio 0 1; PyRatio 0 1])) ]
    (None, None) = (None, None).
Proof.
  apply gps_from_tags_needs_references. right. reflexivity.
Defined.

Lemma search_eq_number_cons (c : ascii) (s : string) :
  search_eq_number (String c s) =
    if Ascii.eqb c "=" then
      match s with
      | String c2 rest =>
          if Ascii.eqb c2 " " then
            if String.eqb (take_while is_coord_char rest) EmptyString
            then search_eq_number s
            else Some (take_while is_coord_char rest)
          else search_eq_number s
      | EmptyString => search_eq_number s
      end
    else search_eq_number s.
Proof.
  destruct c as [[] [] [] [] [] [] [] []]; try reflexivity.
  destruct s as [|c2 rest]; [reflexivity|].
  destruct c2 as [[] [] [] [] [] [] [] []]; reflexivity.
Qed.

Lemma take_while_all_chars (p : ascii -> bool) (s : string) :
  all_chars p (take_while p s) = true.
Proof.
  induction s as [|c s IH]; simpl; [reflexivity|].
  destruct (p c) eqn:E; simpl; [|reflexivity].
  rewrite E, IH. reflexivity.
Qed.

(** X8. The number that the search for "= " followed by digits, dots and
    minus signs finds in an answer of the OS metadata service is never
    empty and holds only such characters; an answer without "= " gives
    nothing. *)
Theorem search_eq_number_sound (s : string) :
  (forall g, search_eq_number s = Some g ->
     nonempty g = true /\ all_chars is_coord_char g = true) /\
  (contains "= " s = false -> search_eq_number s = None).
Proof.
  induction s as [|c s [IH1 IH2]].
  - split; [discriminate | reflexivity].
  - split.
    + intros g. rewrite search_eq_number_cons.
      destruct (Ascii.eqb c "="); [|apply IH1].
      destruct s as [|c2 rest]; [apply IH1|].
      destruct (Ascii.eqb c2 " "); [|apply IH1].
      destruct (String.eqb (take_while is_coord_char rest) EmptyString) eqn:E;
        [apply IH1|].
      intros H. injection H as <-. unfold nonempty. rewrite E.
      split; [reflexivity | apply take_while_all_chars].
    + rewrite contains_eq, search_eq_number_cons.
      destruct (String.prefix "= " (String c s)) eqn:Ep; [discriminate|].
      intros Hc.
      destruct (Ascii.eqb c "=") eqn:Ec; [|exact (IH2 Hc)].
      destruct s as [|c2 rest]; [reflexivity|].
      destruct (Ascii.eqb c2 " ") eqn:Ec2; [|exact (IH2 Hc)].
      exfalso. apply Ascii.eqb_eq in Ec, Ec2. subst c c2.
      simpl in Ep. destruct rest; discriminate.
Qed.

(** X8 on the answer for a southern latitude. *)
Lemma search_eq_number_sound_witness :
  search_eq_number "kMDItemLatitude = -33.8568" = Some "-33.8568" /\
  nonempty "-33.8568" = true /\ all_chars is_coord_char "-33.8568" = true.
Proof.
  split; [reflexivity|].
  apply (search_eq_number_sound "kMDItemLatitude = -33.8568").
  reflexivity.
Defined.

(** ** The orientation resolver: priorities and exceptions *)








(** X10. The bearing comes from the first field, in the order of the
    list, that is present, not null and convertible by [float]: fields
    before it that are absent, null, or raise [ValueError] or [TypeError]
    are skipped, and then the embedded tags are not looked at. *)
Theorem orientation_first_usable_field (flt : string -> option Q)
  (md : MetadataBag) (before after : list string) (f : string) (v : pyval)
  (q : Q) :
  (forall g, In g before ->
     lookup g md = None \/ lookup g md = Some PyNone \/
     exists x, lookup g md = Some x /\
       (py_float flt x = Raise ValueError \/ py_float flt x = Raise TypeError)) ->
  lookup f md = Some v ->
  py_float flt v = Ok q ->
  orientation_from_exiftool flt md (before ++ f :: after) = Ok (Some q) /\
  (orientation_fields = (before ++ f :: after)%list ->
   forall tags, extract_orientation_data flt tags (PyDict md) = Ok (Some q)).
Proof.
  intros Hbefore Hf Hq.
  assert (Hloop : orientation_from_exiftool flt md (before ++ f :: after)
                  = Ok (Some q)).
  { induction before as [|g gs IH]; simpl.
    - assert (Hn : is_none v = false).
      { destruct v; try reflexivity. discriminate. }
      rewrite Hf, Hn. unfold float_opt. rewrite Hq. reflexivity.
    - assert (IH' := IH (fun g' Hin => Hbefore g' (or_intror Hin))).
      destruct (Hbefore g (or_introl eq_refl))
        as [-> | [-> | (x & -> & [Hx | Hx])]]; try exact IH'.
      + destruct (is_none x); [exact IH'|].
        unfold float_opt. rewrite Hx. exact IH'.
      + destruct (is_none x); [exact IH'|].
        unfold float_opt. rewrite Hx. exact IH'. }
  split; [exact Hloop|].
  intros Hfields tags. rewrite extract_orientation_data_dict.
  destruct md as [|kv md']; [discriminate|].
  rewrite Hfields, Hloop. reflexivity.
Qed.

(** X10 where the first field is a text, the second is null and the fourth
    holds the bearing. *)
Lemma orientation_first_usable_field_witness :
  extract_orientation_data decimal_of_str (Some tags_bearing_0_0)
    (PyDict [ ("EXIF:GPSImgDirection", PyStr "north");
              ("XMP:GPSImgDirection", PyNone);
              ("GPS:ImgDirection", PyFloat (2471 # 10)) ])
    = Ok (Some (2471 # 10)).
Proof.
  destruct (orientation_first_usable_field decimal_of_str
              [ ("EXIF:GPSImgDirection", PyStr "north");
                ("XMP:GPSImgDirection", PyNone);
                ("GPS:ImgDirection", PyFloat (2471 # 10)) ]
              [ "EXIF:GPSImgDirection"; "XMP:GPSImgDirection";
                "GPS:GPSImgDirection" ]
              [ "EXIF:GPSDestBearing"; "XMP:GPSDestBearing" ]
              "GPS:ImgDirection" (PyFloat (2471 # 10)) (2471 # 10)%Q)
    as [_ H].
  - intros g [<- | [<- | [<- | []]]].
    + right. right. exists (PyStr "north"). split; [reflexivity|].
      left. reflexivity.
    + right. left. reflexivity.
    + left. reflexivity.
  - reflexivity.
  - reflexivity.
  - apply H. reflexivity.
Defined.

(** ** The photo record: identifiers, caption, dimensions, temporary file *)

(** The caption steps write the caption and nothing else. *)
Lemma set_caption_only (c : option pyval) (k : string) (d : MetadataBag) :
  k <> "caption" -> lookup k (set_caption c d) = lookup k d.
Proof.
  intros Hk. destruct c; simpl; [|reflexivity].
  apply lookup_setitem_other. exact Hk.
Qed.

Lemma mdls_field_loop_only (w : World) (p : string) (fields : list string)
  (k : string) (d : MetadataBag) :
  k <> "caption" -> lookup k (mdls_field_loop w p fields d) = lookup k d.
Proof.
  intros Hk. induction fields as [|f fs IH]; simpl; [reflexivity|].
  destruct (mdls w f p); [reflexivity|].
  destruct (mdls_quoted f returncode stdout); [|exact IH].
  apply lookup_setitem_other. exact Hk.
Qed.

Lemma later_steps_only (w : World) (p k : string) (d : MetadataBag) :
  k <> "caption" ->
  lookup k (aae_caption_step w p
              (sips_caption_step w p (mdls_caption_step w p d))) = lookup k d.
Proof.
  intros Hk.
  assert (Hm : forall d0, lookup k (mdls_caption_step w p d0) = lookup k d0).
  { intros d0. unfold mdls_caption_step.
    destruct (no_caption d0 && mdls_exists w); [|reflexivity].
    destruct (mdls w "kMDItemDescription" p); [reflexivity|].
    destruct (no_caption _).
    - rewrite mdls_field_loop_only by exact Hk. apply set_caption_only, Hk.
    - apply set_caption_only, Hk. }
  assert (Hs : forall d0, lookup k (sips_caption_step w p d0) = lookup k d0).
  { intros d0. unfold sips_caption_step.
    destruct (no_caption d0 && sips_exists w); [|reflexivity].
    destruct (sips w p); [reflexivity|].
    destruct (_ && _); [|reflexivity].
    destruct (search_sips_description stdout); [|reflexivity].
    apply lookup_setitem_other, Hk. }
  assert (Ha : forall d0, lookup k (aae_caption_step w p d0) = lookup k d0).
  { intros d0. unfold aae_caption_step.
    destruct (_ && _); [|reflexivity].
    destruct (read_text w _); [|reflexivity].
    destruct (search_aae_description _); [|reflexivity].
    apply lookup_setitem_other, Hk. }
  rewrite Ha, Hs, Hm. reflexivity.
Qed.

Lemma exif_captions_only (w : World) (p : string)
  (description_tags : list (string * string)) (k : string) (d : MetadataBag) :
  k <> "caption" -> lookup k (exif_captions w p description_tags d) = lookup k d.
Proof.
  intros Hk. unfold exif_captions.
  destruct (exifread_tags w p); [|reflexivity].
  destruct (no_caption _); rewrite ?set_caption_only by exact Hk; reflexivity.
Qed.

(** What the final stages add lies outside the caption stage. *)
Lemma final_record_other_key (flt : string -> option Q) (w : World)
  (p k : string) (r : MetadataBag) :
  extract_metadata_from_photo flt w p = Ok r ->
  k <> "latitude" -> k <> "longitude" -> k <> "orientation" ->
  lookup k r = lookup k (resolve_caption w p).
Proof.
  intros H Hla Hlo Ho.
  apply extract_metadata_from_photo_ok in H. destruct H as (o & _ & ->).
  rewrite store_orientation_other by exact Ho.
  destruct (validate _) as [[la|] [lo|]]; simpl;
    rewrite ?lookup_setitem_other by assumption; reflexivity.
Qed.

Lemma not_stage_key_path : ~ caption_stage_key "path".
Proof. intros [[H|[H|H]]|H]; discriminate. Qed.

Lemma not_stage_key_filename : ~ caption_stage_key "filename".
Proof. intros [[H|[H|H]]|H]; discriminate. Qed.

(** X11. Every returned record carries the path it was asked for and the
    last component of that path as filename. *)
Theorem photo_record_identifiers (flt : string -> option Q) (w : World)
  (photo_path : string) (r : MetadataBag) :
  extract_metadata_from_photo flt w photo_path = Ok r ->
  lookup "path" r = Some (PyStr photo_path) /\
  lookup "filename" r = Some (PyStr (basename photo_path)).
Proof.
  intros H. split.
  - rewrite (final_record_other_key flt w photo_path "path" r H)
      by discriminate.
    rewrite resolve_caption_other_key by apply not_stage_key_path.
    reflexivity.
  - rewrite (final_record_other_key flt w photo_path "filename" r H)
      by discriminate.
    rewrite resolve_caption_other_key by apply not_stage_key_filename.
    reflexivity.
Qed.

(** X11 on a photo in a directory. *)
Lemma photo_record_identifiers_witness :
  exists r,
    extract_metadata_from_photo decimal_of_str plain_world
      "/photos/2024/beach.jpg" = Ok r /\
    lookup "path" r = Some (PyStr "/photos/2024/beach.jpg") /\
    lookup "filename" r = Some (PyStr "beach.jpg").
Proof.
  eexists. split; [vm_compute; reflexivity|].
  apply (photo_record_identifiers decimal_of_str plain_world
           "/photos/2024/beach.jpg").
  vm_compute. reflexivity.
Defined.

Lemma caption_of_truthy (d : MetadataBag) :
  no_caption d = false ->
  exists v, lookup "caption" d = Some v /\ truthy v = true.
Proof.
  unfold no_caption, get_default.
  destruct (lookup "caption" d) as [v|]; simpl; [|discriminate].
  intros H. exists v. split; [reflexivity|].
  destruct (truthy v); [reflexivity | discriminate].
Qed.

(** X12. Every returned record has a caption, and it is never [None]: it
    is a truthy value set by a step of the cascade, or else the text of the
    filename fallback. *)
Theorem photo_caption_present (flt : string -> option Q) (w : World)
  (photo_path : string) (r : MetadataBag) :
  extract_metadata_from_photo flt w photo_path = Ok r ->
  exists v, lookup "caption" r = Some v /\ v <> PyNone /\
    (truthy v = true \/
     v = PyStr (fallback_caption (strftime_pads_year w) (basename photo_path))).
Proof.
  intros H.
  rewrite (final_record_other_key flt w photo_path "caption" r H)
    by discriminate.
  unfold resolve_caption.
  destruct (no_caption (caption_cascade w photo_path)) eqn:E.
  - eexists. split; [apply lookup_setitem_same|].
    split; [discriminate | right; reflexivity].
  - destruct (caption_of_truthy _ E) as (v & Hv & Ht).
    exists v. split; [exact Hv|]. split; [|left; exact Ht].
    intros ->. discriminate.
Qed.

(** X12 on a photo without metadata. *)
Lemma photo_caption_present_witness :
  exists r v,
    extract_metadata_from_photo decimal_of_str plain_world
      "/photos/Grand_Canyon_Sunset.jpg" = Ok r /\
    lookup "caption" r = Some v /\ v <> PyNone.
Proof.
  destruct (photo_caption_present decimal_of_str plain_world
              "/photos/Grand_Canyon_Sunset.jpg" _ eq_refl)
    as (v & Hv & Hn & _).
  eexists. exists v. split; [reflexivity|]. split; [exact Hv | exact Hn].
Defined.

Lemma size_shape_ext (size : option (Z * Z)) (d d' : MetadataBag) :
  lookup "width" d' = lookup "width" d ->
  lookup "height" d' = lookup "height" d ->
  size_shape size d -> size_shape size d'.
Proof. unfold size_shape. intros -> ->. auto. Qed.

Lemma set_size_shape (wd ht : Z) (d : MetadataBag) :
  size_shape (Some (wd, ht)) (set_size (wd, ht) d).
Proof.
  right. exists wd, ht. split; [reflexivity|]. unfold set_size. simpl fst. simpl snd.
  split.
  - rewrite lookup_setitem_other by discriminate. apply lookup_setitem_same.
  - apply lookup_setitem_same.
Qed.

Lemma heic_dimensions_shape (w : World) (p : string) (d : MetadataBag) :
  size_shape (image_size w p) d -> size_shape (image_size w p) (heic_dimensions w p d).
Proof.
  intros Hd. unfold heic_dimensions.
  destruct (image_size w p) as [[wd ht]|]; [|exact Hd].
  destruct (heic_to_jpeg w p).
  - apply (size_shape_ext _ (set_size (wd, ht) d)).
    + apply lookup_setitem_other. discriminate.
    + apply lookup_setitem_other. discriminate.
    + apply set_size_shape.
  - apply set_size_shape.
Qed.

Lemma caption_cascade_shape (w : World) (p : string) :
  size_shape (image_size w p) (caption_cascade w p).
Proof.
  assert (H0 : size_shape (image_size w p) (new_photo_data p))
    by (left; split; reflexivity).
  assert (Hs : forall c, size_shape (image_size w p)
                           (set_caption c (new_photo_data p))).
  { intros c. apply (size_shape_ext _ (new_photo_data p));
      [apply set_caption_only | apply set_caption_only | exact H0]; discriminate. }
  unfold caption_cascade, caption_and_dimensions.
  destruct (is_heic_path p).
  - destruct (no_caption _); [|apply Hs].
    eapply size_shape_ext.
    + rewrite later_steps_only, set_caption_only by discriminate. reflexivity.
    + rewrite later_steps_only, set_caption_only by discriminate. reflexivity.
    + apply heic_dimensions_shape, Hs.
  - destruct (no_caption _); [|exact H0].
    destruct (image_size w p) as [[wd ht]|] eqn:Es; [|exact H0].
    eapply size_shape_ext.
    + rewrite later_steps_only, exif_captions_only by discriminate. reflexivity.
    + rewrite later_steps_only, exif_captions_only by discriminate. reflexivity.
    + apply set_size_shape.
Qed.

Lemma photo_record_size_shape (flt : string -> option Q) (w : World)
  (photo_path : string) (r : MetadataBag) :
  extract_metadata_from_photo flt w photo_path = Ok r ->
  size_shape (image_size w photo_path) r.
Proof.
  intros H.
  apply (size_shape_ext _ (caption_cascade w photo_path)).
  - rewrite (final_record_other_key flt w photo_path "width" r H)
      by discriminate.
    unfold resolve_caption. destruct (no_caption _); [|reflexivity].
    apply lookup_setitem_other. discriminate.
  - rewrite (final_record_other_key flt w photo_path "height" r H)
      by discriminate.
    unfold resolve_caption. destruct (no_caption _); [|reflexivity].
    apply lookup_setitem_other. discriminate.
  - apply caption_cascade_shape.
Qed.

(** X13. In every returned record width and height are both absent or
    both present, and when present they are the two numbers of the size of
    the opened image. *)
Theorem photo_dimensions_paired (flt : string -> option Q) (w : World)
  (photo_path : string) (r : MetadataBag) :
  extract_metadata_from_photo flt w photo_path = Ok r ->
  (lookup "width" r = None /\ lookup "height" r = None) \/
  exists wd ht, image_size w photo_path = Some (wd, ht) /\
    lookup "width" r = Some (PyInt wd) /\ lookup "height" r = Some (PyInt ht).
Proof.
  intros H. exact (photo_record_size_shape flt w photo_path r H).
Qed.

(** X13 on a JPEG that opens at 4032 x 3024. *)
Lemma photo_dimensions_paired_witness :
  exists r,
    extract_metadata_from_photo decimal_of_str plain_world "/photos/a.jpg" = Ok r /\
    ((lookup "width" r = None /\ lookup "height" r = None) \/
     exists wd ht, image_size plain_world "/photos/a.jpg" = Some (wd, ht) /\
       lookup "width" r = Some (PyInt wd) /\ lookup "height" r = Some (PyInt ht)).
Proof.
  eexists. split; [vm_compute; reflexivity|].
  apply (photo_dimensions_paired decimal_of_str plain_world "/photos/a.jpg").
  vm_compute. reflexivity.
Defined.

Lemma heic_dimensions_temp_file_source (w : World) (p name : string)
  (d : MetadataBag) :
  lookup "temp_file" d = Some PyNone ->
  lookup "temp_file" (heic_dimensions w p d) = Some (PyStr name) ->
  heic_to_jpeg w p = Some name /\ exists size, image_size w p = Some size.
Proof.
  intros Hd. unfold heic_dimensions.
  destruct (image_size w p) as [size|]; [|rewrite Hd; discriminate].
  destruct (heic_to_jpeg w p) as [n|].
  - rewrite lookup_setitem_same. intros H. injection H as ->.
    split; [reflexivity | exists size; reflexivity].
  - rewrite set_size_keeps by apply temp_file_not_caption_size.
    rewrite Hd. discriminate.
Qed.

(** X14. A temporary file is recorded only for a HEIC photo whose image
    opened, and it is the file the conversion wrote; the record then has
    its dimensions too. For any other format the temporary file stays
    [None]. *)
Theorem photo_temp_file_only_for_heic (flt : string -> option Q) (w : World)
  (photo_path : string) (r : MetadataBag) :
  extract_metadata_from_photo flt w photo_path = Ok r ->
  (is_heic_path photo_path = false -> lookup "temp_file" r = Some PyNone) /\
  (forall name,
     lookup "temp_file" r = Some (PyStr name) ->
     is_heic_path photo_path = true /\
     heic_to_jpeg w photo_path = Some name /\
     exists wd ht, image_size w photo_path = Some (wd, ht) /\
       lookup "width" r = Some (PyInt wd) /\ lookup "height" r = Some (PyInt ht)).
Proof.
  intros H.
  assert (Ht : lookup "temp_file" r = lookup "temp_file" (caption_cascade w photo_path)).
  { rewrite (final_record_other_key flt w photo_path "temp_file" r H)
      by discriminate.
    unfold resolve_caption. destruct (no_caption _); [|reflexivity].
    apply lookup_setitem_other. discriminate. }
  assert (Hs : forall c, lookup "temp_file" (set_caption c (new_photo_data photo_path))
                         = Some PyNone).
  { intros c. rewrite set_caption_only by discriminate. reflexivity. }
  assert (Hnon : is_heic_path photo_path = false ->
                 lookup "temp_file" (caption_cascade w photo_path) = Some PyNone).
  { intros Hh. unfold caption_cascade, caption_and_dimensions. rewrite Hh.
    destruct (no_caption _); [|reflexivity].
    destruct (image_size w photo_path); [|reflexivity].
    rewrite later_steps_only, exif_captions_only by discriminate.
    rewrite set_size_keeps by apply temp_file_not_caption_size. reflexivity. }
  split.
  - intros Hh. rewrite Ht. apply Hnon. exact Hh.
  - intros name Hn. rewrite Ht in Hn.
    destruct (is_heic_path photo_path) eqn:Hh.
    + split; [reflexivity|].
      unfold caption_cascade, caption_and_dimensions in Hn. rewrite Hh in Hn.
      destruct (no_caption _) eqn:Enc; [|rewrite Hs in Hn; discriminate].
      rewrite later_steps_only, set_caption_only in Hn by discriminate.
      destruct (heic_dimensions_temp_file_source w photo_path name _ (Hs _) Hn)
        as (Hj & size & Hsize).
      split; [exact Hj|].
      destruct (photo_record_size_shape flt w photo_path r H)
        as [[Hw _] | Hok]; [|exact Hok].
      exfalso.
      rewrite (final_record_other_key flt w photo_path "width" r H) in Hw
        by discriminate.
      unfold resolve_caption in Hw.
      assert (Hw' : lookup "width" (caption_cascade w photo_path) = None).
      { destruct (no_caption (caption_cascade w photo_path)); [|exact Hw].
        rewrite lookup_setitem_other in Hw by discriminate. exact Hw. }
      unfold caption_cascade, caption_and_dimensions in Hw'.
      rewrite Hh, Enc in Hw'.
      rewrite later_steps_only, set_caption_only in Hw' by discriminate.
      unfold heic_dimensions in Hw'. rewrite Hsize, Hj in Hw'.
      rewrite lookup_setitem_other in Hw' by discriminate.
      unfold set_size in Hw'.
      rewrite lookup_setitem_other, lookup_setitem_same in Hw' by discriminate.
      discriminate.
    + rewrite (Hnon eq_refl) in Hn. discriminate.
Qed.

(** X14 on a HEIC photo without caption metadata. *)
Lemma photo_temp_file_only_for_heic_witness :
  exists r,
    extract_metadata_from_photo decimal_of_str plain_world "/photos/b.heic" = Ok r /\
    lookup "temp_file" r = Some (PyStr "/tmp/tmpk3v9x2.jpg") /\
    is_heic_path "/photos/b.heic" = true /\
    heic_to_jpeg plain_world "/photos/b.heic" = Some "/tmp/tmpk3v9x2.jpg".
Proof.
  eexists. split; [vm_compute; reflexivity|].
  split; [vm_compute; reflexivity|].
  destruct (photo_temp_file_only_for_heic decimal_of_str plain_world
              "/photos/b.heic" _ eq_refl) as [_ H].
  destruct (H "/tmp/tmpk3v9x2.jpg") as (Hh & Hj & _).
  - vm_compute. reflexivity.
  - split; assumption.
Defined.

(** X15. For a HEIC photo whose external-tool metadata has a truthy value
    in one of the eleven description fields, the first such value is the
    caption, stored as it is, and nothing else of the caption stage runs:
    the returned record has that caption, no width, no height and no
    temporary file. *)
Theorem heic_first_step_ends_caption_stage (w : World) (photo_path : string)
  (v : pyval) :
  is_heic_path photo_path = true ->
  first_description_field
    (as_dict (get_heic_metadata_with_exiftool w photo_path))
    description_fields = Some v ->
  resolve_caption w photo_path
    = setitem "caption" v (new_photo_data photo_path) /\
  (forall flt r,
     extract_metadata_from_photo flt w photo_path = Ok r ->
     lookup "caption" r = Some v /\ lookup "width" r = None /\
     lookup "height" r = None /\ lookup "temp_file" r = Some PyNone).
Proof.
  intros Hh Hf.
  pose proof (heic_step_stores_raw_value w photo_path v Hh Hf) as Hr.
  split; [exact Hr|].
  intros flt r H.
  rewrite (final_record_other_key flt w photo_path "caption" r H),
    (final_record_other_key flt w photo_path "width" r H),
    (final_record_other_key flt w photo_path "height" r H),
    (final_record_other_key flt w photo_path "temp_file" r H)
    by discriminate.
  rewrite Hr. rewrite lookup_setitem_same.
  rewrite !lookup_setitem_other by discriminate.
  repeat split; reflexivity.
Qed.

(** X15 on a HEIC photo whose title is a number. *)
Lemma heic_first_step_ends_caption_stage_witness :
  resolve_caption (world_with_exiftool [("XMP:Title", PyInt 2024)])
    "/photos/IMG_0001.heic"
  = setitem "caption" (PyInt 2024) (new_photo_data "/photos/IMG_0001.heic").
Proof.
  apply (heic_first_step_ends_caption_stage
           (world_with_exiftool [("XMP:Title", PyInt 2024)])
           "/photos/IMG_0001.heic" (PyInt 2024)); reflexivity.
Defined.

(** X16. For a HEIC photo the embedded-tag reader is never consulted: the
    outcome is the same whatever the reader would return. *)
Theorem heic_ignores_tag_reader (flt : string -> option Q) (w : World)
  (reader : string -> option Tags) (photo_path : string) :
  is_heic_path photo_path = true ->
  extract_metadata_from_photo flt (with_exifread_tags w reader) photo_path
  = extract_metadata_from_photo flt w photo_path.
Proof.
  intros Hh.
  unfold extract_metadata_from_photo, photo_tags, resolve_caption,
    caption_cascade, caption_and_dimensions.
  rewrite Hh. reflexivity.
Qed.

(** X16 with a reader that would find GPS tags. *)
Lemma heic_ignores_tag_reader_witness :
  extract_metadata_from_photo decimal_of_str
    (with_exifread_tags plain_world (fun _ => Some tags_45N_10E))
    "/photos/b.heic"
  = extract_metadata_from_photo decimal_of_str plain_world "/photos/b.heic".
Proof.
  apply heic_ignores_tag_reader. reflexivity.
Defined.

Lemma lower_app (a b : string) : lower (a ++ b) = lower a ++ lower b.
Proof. induction a as [|c a IH]; simpl; [reflexivity | rewrite IH; reflexivity]. Qed.

Lemma length_app_string (a b : string) :
  String.length (a ++ b) = (String.length a + String.length b)%nat.
Proof. induction a as [|c a IH]; simpl; [reflexivity | rewrite IH; reflexivity]. Qed.

Lemma substring_whole (b : string) : String.substring 0 (String.length b) b = b.
Proof. induction b as [|c b IH]; simpl; [reflexivity | rewrite IH; reflexivity]. Qed.

Lemma substring_app_suffix (a b : string) :
  String.substring (String.length a) (String.length b) (a ++ b) = b.
Proof.
  induction a as [|c a IH]; simpl; [apply substring_whole | exact IH].
Qed.

Lemma endswith_app (a suffix : string) : endswith suffix (a ++ suffix) = true.
Proof.
  unfold endswith. rewrite length_app_string.
  replace (String.length a + String.length suffix - String.length suffix)%nat
    with (String.length a) by lia.
  rewrite substring_app_suffix, String.eqb_refl.
  apply andb_true_iff. split; [apply Nat.leb_le; lia | reflexivity].
Qed.

(** X17. The format is told from the end of the path without regard to
    case: a path whose last five characters are ".heic" in any mix of upper
    and lower case is a HEIC path. *)
Theorem is_heic_path_any_case (stem ext : string) :
  lower ext = ".heic" -> is_heic_path (stem ++ ext) = true.
Proof.
  intros H. unfold is_heic_path. rewrite lower_app, H. apply endswith_app.
Qed.

(** X17 on an upper-case and a mixed-case extension. *)
Lemma is_heic_path_any_case_witness :
  is_heic_path "/photos/IMG_0001.HEIC" = true /\
  is_heic_path "/photos/IMG_0001.HeIc" = true.
Proof.
  split.
  - apply (is_heic_path_any_case "/photos/IMG_0001" ".HEIC"). reflexivity.
  - apply (is_heic_path_any_case "/photos/IMG_0001" ".HeIc"). reflexivity.
Defined.

(** X18. First writer wins: on a record that already has a caption the
    OS-metadata step, the image-tool step and the sidecar step change
    nothing, and the filename fallback is not applied. *)
Theorem caption_first_writer_wins (w : World) (photo_path : string)
  (photo_data : MetadataBag) :
  no_caption photo_data = false ->
  aae_caption_step w photo_path
    (sips_caption_step w photo_path
       (mdls_caption_step w photo_path photo_data)) = photo_data /\
  (caption_cascade w photo_path = photo_data ->
   resolve_caption w photo_path = photo_data).
Proof.
  intros H. split.
  - unfold mdls_caption_step. rewrite H. cbn [andb].
    unfold sips_caption_step. rewrite H. cbn [andb].
    unfold aae_caption_step. rewrite H. reflexivity.
  - intros Hc. unfold resolve_caption. rewrite Hc, H. reflexivity.
Qed.

(** X18 on a record captioned "Family dinner", on a host whose OS
    metadata service would offer another description. *)
Lemma caption_first_writer_wins_witness :
  lookup "caption"
    (mdls_caption_step (world_with_mdls a_day_out) "/photos/a.jpg"
       (new_photo_data "/photos/a.jpg")) = Some (PyStr "A day out") /\
  aae_caption_step (world_with_mdls a_day_out) "/photos/a.jpg"
    (sips_caption_step (world_with_mdls a_day_out) "/photos/a.jpg"
       (mdls_caption_step (world_with_mdls a_day_out) "/photos/a.jpg"
          (setitem "caption" (PyStr "Family dinner")
             (new_photo_data "/photos/a.jpg"))))
  = setitem "caption" (PyStr "Family dinner") (new_photo_data "/photos/a.jpg").
Proof.
  split; [vm_compute; reflexivity|].
  apply (caption_first_writer_wins (world_with_mdls a_day_out) "/photos/a.jpg").
  reflexivity.
Defined.

(** ** Trimming *)

Lemma lstrip_fixed (s : string) :
  match s with
  | String c _ => is_space c = false
  | EmptyString => True
  end -> lstrip s = s.
Proof. destruct s as [|c s]; simpl; [reflexivity|]. intros ->. reflexivity. Qed.

Lemma lstrip_head (s : string) :
  match lstrip s with
  | String c _ => is_space c = false
  | EmptyString => True
  end.
Proof.
  induction s as [|c s IH]; simpl; [exact I|].
  destruct (is_space c) eqn:E; [exact IH | exact E].
Qed.

Lemma rstrip_head (s : string) :
  match s with
  | String c _ => is_space c = false
  | EmptyString => True
  end ->
  match rstrip s with
  | String c _ => is_space c = false
  | EmptyString => True
  end.
Proof.
  destruct s as [|c s]; simpl; [auto|].
  intros H. rewrite H. simpl. exact H.
Qed.

Lemma rstrip_idempotent (s : string) : rstrip (rstrip s) = rstrip s.
Proof.
  induction s as [|c s IH]; simpl; [reflexivity|].
  destruct (is_space c && String.eqb (rstrip s) EmptyString) eqn:E;
    [reflexivity|].
  simpl. rewrite IH, E. reflexivity.
Qed.

Lemma strip_idempotent (s : string) : strip (strip s) = strip s.
Proof.
  unfold strip.
  rewrite (lstrip_fixed (rstrip (lstrip s))).
  - apply rstrip_idempotent.
  - apply rstrip_head, lstrip_head.
Qed.

Lemma strip_nonempty (s : string) : nonempty (strip s) = true -> nonempty s = true.
Proof. destruct s; [discriminate | reflexivity]. Qed.

Lemma first_description_tag_source (dt : list (string * string)) (c : pyval) :
  first_description_tag dt = Some c ->
  exists name value, In (name, value) dt /\ c = PyStr (strip value) /\
                     nonempty (strip value) = true.
Proof.
  induction dt as [|[name value] dt IH]; simpl; [discriminate|].
  destruct (nonempty value && nonempty (strip value)) eqn:E.
  - intros H. injection H as <-. apply andb_true_iff in E.
    exists name, value. tauto.
  - intros H. destruct (IH H) as (n & v & Hin & Hc & Hne).
    exists n, v. auto.
Qed.

(** X19. The caption taken from the debugging tag list is the text of one
    of its entries with the surrounding whitespace removed: it is not
    empty and stripping it again changes nothing. The list gives no caption
    exactly when every entry is blank. *)
Theorem first_description_tag_trimmed (dt : list (string * string)) :
  (forall c, first_description_tag dt = Some c ->
     exists name value, In (name, value) dt /\ c = PyStr (strip value) /\
       nonempty (strip value) = true /\ strip (strip value) = strip value) /\
  (first_description_tag dt = None <->
   forall name value, In (name, value) dt -> nonempty (strip value) = false).
Proof.
  split.
  - intros c H. destruct (first_description_tag_source dt c H)
      as (name & value & Hin & Hc & Hne).
    exists name, value. repeat split; auto. apply strip_idempotent.
  - induction dt as [|[name value] dt IH]; simpl.
    + split; [intros _ n v [] | reflexivity].
    + destruct (nonempty value && nonempty (strip value)) eqn:E.
      * split; [discriminate|]. intros H.
        apply andb_true_iff in E. destruct E as [_ E].
        rewrite (H name value (or_introl eq_refl)) in E. discriminate.
      * split.
        -- intros H n v [Heq | Hin].
           ++ injection Heq as <- <-.
              destruct (nonempty (strip value)) eqn:Es; [|reflexivity].
              rewrite (strip_nonempty value Es) in E. discriminate.
           ++ apply (proj1 IH H n v Hin).
        -- intros H. apply IH. intros n v Hin. apply (H n v). right. exact Hin.
Qed.

(** X19 on a list whose first entry is blank. *)
Lemma first_description_tag_trimmed_witness :
  first_description_tag
    [("EXIF UserComment", "   "); ("Image ImageDescription", "  Family dinner ")]
    = Some (PyStr "Family dinner") /\
  strip "Family dinner" = "Family dinner".
Proof.
  split; [reflexivity|].
  destruct (first_description_tag_trimmed
              [("EXIF UserComment", "   ");
               ("Image ImageDescription", "  Family dinner ")]) as [H _].
  destruct (H (PyStr "Family dinner") eq_refl)
    as (name & value & _ & Hc & _ & Hs).
  injection Hc as Hc. rewrite Hc. exact Hs.
Defined.

(** X20. In the embedded-tag step the debugging tag list comes first: if
    it holds a non-blank entry, that is the caption and the well-known tags
    are not looked at. If the tag reader raises, the step sets nothing, not
    even a caption from the debugging list. *)
Theorem debug_tags_before_known_tags (w : World) (photo_path : string)
  (description_tags : list (string * string)) (photo_data : MetadataBag) :
  (exifread_tags w photo_path = None ->
   exif_captions w photo_path description_tags photo_data = photo_data) /\
  (forall tags c,
     exifread_tags w photo_path = Some tags ->
     first_description_tag description_tags = Some c ->
     exif_captions w photo_path description_tags photo_data
     = setitem "caption" c photo_data).
Proof.
  split.
  - intros H. unfold exif_captions. rewrite H. reflexivity.
  - intros tags c Ht Hc. unfold exif_captions. rewrite Ht, Hc.
    cbn [set_caption].
    destruct (first_description_tag_source _ _ Hc) as (n & v & _ & -> & Hne).
    assert (Hno : no_caption (setitem "caption" (PyStr (strip v)) photo_data) = false).
    { unfold no_caption, get_default. rewrite lookup_setitem_same.
      simpl. unfold nonempty in Hne. rewrite Hne. reflexivity. }
    rewrite Hno. reflexivity.
Qed.

(** X20 on a JPEG with both a debugging entry and a well-known tag. *)
Lemma debug_tags_before_known_tags_witness :
  exif_captions
    (world_with_tags_at "/photos/a.jpg"
       [("Image ImageDescription", tag "From the tag" (PyStr "From the tag"))])
    "/photos/a.jpg" [("EXIF UserComment", " From the scan ")]
    (new_photo_data "/photos/a.jpg")
  = setitem "caption" (PyStr "From the scan") (new_photo_data "/photos/a.jpg").
Proof.
  destruct (debug_tags_before_known_tags
              (world_with_tags_at "/photos/a.jpg"
                 [("Image ImageDescription",
                   tag "From the tag" (PyStr "From the tag"))])
              "/photos/a.jpg" [("EXIF UserComment", " From the scan ")]
              (new_photo_data "/photos/a.jpg")) as [_ H].
  apply (H [("Image ImageDescription", tag "From the tag" (PyStr "From the tag"))]);
    reflexivity.
Defined.

(** ** The filename caption *)

Lemma replace_char_shape (a b : ascii) (s : string) :
  a <> b ->
  all_chars (fun c => negb (Ascii.eqb c a)) (replace_char a b s) = true /\
  String.length (replace_char a b s) = String.length s.
Proof.
  intros Hab. induction s as [|c s [IH1 IH2]]; simpl; [auto|].
  rewrite IH1, IH2. split; [|reflexivity].
  destruct (Ascii.eqb c a) eqn:E; rewrite andb_true_r.
  - destruct (Ascii.eqb b a) eqn:E'; [|reflexivity].
    apply Ascii.eqb_eq in E'. subst b. contradiction.
  - rewrite E. reflexivity.
Qed.

Lemma replace_char_get (a b : ascii) (s : string) (n : nat) :
  String.get n (replace_char a b s) =
    option_map (fun c => if Ascii.eqb c a then b else c) (String.get n s).
Proof.
  revert n. induction s as [|c s IH]; intros n; [reflexivity|].
  destruct n as [|n]; cbn [replace_char String.get]; [reflexivity | apply IH].
Qed.

Lemma replace_char_absent (a b : ascii) (s : string) :
  all_chars (fun c => negb (Ascii.eqb c a)) s = true -> replace_char a b s = s.
Proof.
  induction s as [|c s IH]; cbn [all_chars replace_char]; [reflexivity|].
  intros H. apply andb_true_iff in H. destruct H as [Hc Hs].
  apply negb_true_iff in Hc. rewrite Hc, (IH Hs). reflexivity.
Qed.

Lemma strip_prefix_prefix (lit s r : string) :
  strip_prefix lit s = Some r -> String.prefix lit s = true.
Proof.
  revert s. induction lit as [|a lit IH]; intros s;
    [intros _; destruct s; reflexivity|].
  destruct s as [|b s]; cbn [strip_prefix String.prefix]; [discriminate|].
  destruct (Ascii.eqb a b) eqn:E; [|discriminate].
  apply Ascii.eqb_eq in E. subst b.
  destruct (ascii_dec a a); [apply IH | contradiction].
Qed.

(** X21. The filename-based caption is the filename without its extension
    and without a leading "IMG_", in which underscores have become spaces
    and nothing else has changed: it has the same length, at every
    position it has a space where that name has an underscore and the same
    character otherwise, it holds no underscore, and it is that name when
    the name holds none. *)
Theorem clean_name_replaces_underscores (filename : string) :
  let stem := strip_IMG (splitext_root filename) in
  String.length (clean_name filename) = String.length stem /\
  (forall n,
     String.get n (clean_name filename) =
       option_map (fun c => if Ascii.eqb c "_" then " "%char else c)
                  (String.get n stem)) /\
  all_chars (fun c => negb (Ascii.eqb c "_")) (clean_name filename) = true /\
  (all_chars (fun c => negb (Ascii.eqb c "_")) stem = true ->
   clean_name filename = stem) /\
  (forall rest, splitext_root filename = "IMG_" ++ rest -> stem = rest) /\
  (String.prefix "IMG_" (splitext_root filename) = false ->
   stem = splitext_root filename).
Proof.
  intros stem. unfold clean_name. fold stem.
  destruct (replace_char_shape "_" " " stem) as [H1 H2]; [discriminate|].
  split; [exact H2|].
  split; [intros n; apply replace_char_get|].
  split; [exact H1|].
  split; [apply replace_char_absent|].
  split.
  - intros rest E. subst stem. unfold strip_IMG. rewrite E. reflexivity.
  - intros Hp. subst stem. unfold strip_IMG.
    destruct (strip_prefix "IMG_" (splitext_root filename)) as [r|] eqn:E;
      [|reflexivity].
    rewrite (strip_prefix_prefix _ _ _ E) in Hp. discriminate.
Qed.

(** X21 on a camera filename without a date. *)
Lemma clean_name_replaces_underscores_witness :
  clean_name "IMG_Grand_Canyon.jpg" = "Grand Canyon" /\
  strip_IMG (splitext_root "IMG_Grand_Canyon.jpg") = "Grand_Canyon" /\
  clean_name "Sunset.jpg" = "Sunset".
Proof.
  destruct (clean_name_replaces_underscores "IMG_Grand_Canyon.jpg")
    as (_ & _ & _ & _ & Hstem & _).
  destruct (clean_name_replaces_underscores "Sunset.jpg")
    as (_ & _ & _ & Hsame & _).
  split; [reflexivity|].
  split; [apply Hstem; reflexivity|].
  rewrite Hsame; reflexivity.
Defined.

(** ** The batch: order and composition *)

Lemma batch_app_eq (flt : string -> option Q) (w : World) (a b : list string) :
  extract_metadata_from_photos flt w (a ++ b) =
    (ra <- extract_metadata_from_photos flt w a ;;
     rb <- extract_metadata_from_photos flt w b ;;
     Ok (ra ++ rb)%list).
Proof.
  induction a as [|p a IH]; simpl.
  - destruct (extract_metadata_from_photos flt w b); reflexivity.
  - destruct (extract_metadata_from_photo flt w p) as [r|e]; simpl; [|reflexivity].
    rewrite IH.
    destruct (extract_metadata_from_photos flt w a) as [ra|e]; simpl;
      [|reflexivity].
    destruct (extract_metadata_from_photos flt w b); reflexivity.
Qed.

(** X22. The batch keeps the input order: the records come one per path,
    and the path of the i-th record is the i-th input path. *)
Theorem batch_preserves_order (flt : string -> option Q) (w : World)
  (photo_paths : list string) (rs : list MetadataBag) :
  extract_metadata_from_photos flt w photo_paths = Ok rs ->
  map (lookup "path") rs = map (fun p => Some (PyStr p)) photo_paths /\
  List.length rs = List.length photo_paths.
Proof.
  intros H. apply batch_ok_iff in H.
  induction H as [|p r ps rs' Hr _ [IH1 IH2]]; simpl; [auto|].
  rewrite IH1, IH2. split; [|reflexivity].
  f_equal.
  rewrite (final_record_other_key flt w p "path" r Hr) by discriminate.
  rewrite resolve_caption_other_key by apply not_stage_key_path.
  reflexivity.
Qed.

(** X22 on two photos. *)
Lemma batch_preserves_order_witness :
  exists rs,
    extract_metadata_from_photos decimal_of_str plain_world
      ["/photos/b.heic"; "/photos/a.jpg"] = Ok rs /\
    map (lookup "path") rs
      = [Some (PyStr "/photos/b.heic"); Some (PyStr "/photos/a.jpg")].
Proof.
  eexists. split; [vm_compute; reflexivity|].
  apply (batch_preserves_order decimal_of_str plain_world
           ["/photos/b.heic"; "/photos/a.jpg"]).
  vm_compute. reflexivity.
Defined.

(** X23. Processing a list of paths in one batch gives what processing a
    first part and the rest in two batches gives, records appended; the
    batch of the whole list raises exactly when the first part raises, or
    returns and the rest raises. *)
Theorem batch_of_concatenation (flt : string -> option Q) (w : World)
  (first rest : list string) :
  (forall ra rb,
     extract_metadata_from_photos flt w first = Ok ra ->
     extract_metadata_from_photos flt w rest = Ok rb ->
     extract_metadata_from_photos flt w (first ++ rest)%list = Ok (ra ++ rb)%list) /\
  (forall e,
     extract_metadata_from_photos flt w first = Raise e ->
     extract_metadata_from_photos flt w (first ++ rest)%list = Raise e) /\
  (forall ra e,
     extract_metadata_from_photos flt w first = Ok ra ->
     extract_metadata_from_photos flt w rest = Raise e ->
     extract_metadata_from_photos flt w (first ++ rest)%list = Raise e).
Proof.
  split; [|split].
  - intros ra rb Ha Hb. rewrite batch_app_eq, Ha, Hb. reflexivity.
  - intros e Ha. rewrite batch_app_eq, Ha. reflexivity.
  - intros ra e Ha Hb. rewrite batch_app_eq, Ha, Hb. reflexivity.
Qed.

(** X23 on a batch of three photos split after the first. *)
Lemma batch_of_concatenation_witness :
  exists ra rb,
    extract_metadata_from_photos decimal_of_str plain_world ["/photos/a.jpg"]
      = Ok ra /\
    extract_metadata_from_photos decimal_of_str plain_world
      ["/photos/b.heic"; "/photos/c.jpg"] = Ok rb /\
    extract_metadata_from_photos decimal_of_str plain_world
      (["/photos/a.jpg"] ++ ["/photos/b.heic"; "/photos/c.jpg"])%list
      = Ok (ra ++ rb)%list.
Proof.
  eexists. eexists.
  split; [vm_compute; reflexivity|].
  split; [vm_compute; reflexivity|].
  apply (batch_of_concatenation decimal_of_str plain_world
           ["/photos/a.jpg"] ["/photos/b.heic"; "/photos/c.jpg"]);
    vm_compute; reflexivity.
Defined.

(** ** The clean-up: what it removes and what it leaves *)

Lemma file_in_delete_other (p q : string) (fs : FileSystem) :
  p <> q -> file_in q fs = true -> file_in q (delete_file p fs) = true.
Proof.
  intros Hne. rewrite !file_in_spec. unfold delete_file. intros H.
  apply filter_In. split; [exact H|].
  destruct (String.eqb p q) eqn:E; [|reflexivity].
  apply String.eqb_eq in E. contradiction.
Qed.

Lemma unlink_fold_keeps_others (can : string -> bool)
  (paths : list (option string)) (st : CleanupState) (q : string) :
  ~ In (Some q) paths ->
  file_in q (fst st) = true ->
  file_in q (fst (fold_left (unlink_step can) paths st)) = true.
Proof.
  revert st. induction paths as [|x xs IH]; intros st Hnot Hq; simpl; [exact Hq|].
  apply IH.
  - intros Hin. apply Hnot. right. exact Hin.
  - destruct x as [p|]; simpl; [|exact Hq].
    destruct (file_in p (fst st)); [|exact Hq].
    destruct (can p); simpl; [|exact Hq].
    apply file_in_delete_other; [|exact Hq].
    intros ->. apply Hnot. left. reflexivity.
Qed.

Lemma unlink_fold_attempts_listed (can : string -> bool)
  (paths : list (option string)) (st : CleanupState) (p : string) :
  In p (attempted (snd (fold_left (unlink_step can) paths st))) ->
  In p (attempted (snd st)) \/ In (Some p) paths.
Proof.
  revert st. induction paths as [|x xs IH]; intros st; simpl; [auto|].
  intros H. apply IH in H. destruct H as [H | H]; [|auto].
  destruct x as [q|]; simpl in H; [|auto].
  destruct (file_in q (fst st)); [|auto].
  destruct (can q); simpl in H; unfold attempted in H; rewrite map_app in H;
    apply in_app_or in H; destruct H as [H | H]; auto;
    simpl in H; destruct H as [<- | []]; auto.
Qed.

(** X24. [cleanup_temp_files] touches nothing but temporary files of the
    records it is given: every path handed to [os.unlink] is the temporary
    file of some record, and a file that is no record's temporary file
    still exists afterwards. *)
Theorem cleanup_leaves_other_files (can : string -> bool)
  (entries : list pyval) (fs fs' : FileSystem) (calls : list (string * bool)) :
  Forall record_entry entries ->
  cleanup_temp_files can (Some entries) fs = Ok (fs', calls) ->
  (forall p, In p (attempted calls) -> In (Some p) (map entry_path entries)) /\
  (forall q, file_in q fs = true ->
             ~ In (Some q) (map entry_path entries) ->
             file_in q fs' = true).
Proof.
  intros Hrec H. unfold cleanup_temp_files in H.
  rewrite (cleanup_loop_records can _ _ Hrec) in H. injection H as H.
  split.
  - intros p Hp.
    destruct (unlink_fold_attempts_listed can (map entry_path entries) (fs, []) p)
      as [[] | Hin]; [|exact Hin].
    rewrite H. exact Hp.
  - intros q Hq Hnot.
    pose proof (unlink_fold_keeps_others can (map entry_path entries) (fs, [])
                  q Hnot Hq) as Hk.
    rewrite H in Hk. exact Hk.
Qed.

(** X24 on the record of a HEIC photo: the photo itself is kept. *)
Lemma cleanup_leaves_other_files_witness :
  exists fs' calls,
    cleanup_temp_files (fun _ => true)
      (Some [PyDict (setitem "temp_file" (PyStr "/tmp/tmpk3v9x2.jpg")
                       (new_photo_data "/photos/b.heic"))])
      ["/photos/b.heic"; "/tmp/tmpk3v9x2.jpg"] = Ok (fs', calls) /\
    file_in "/photos/b.heic" fs' = true.
Proof.
  eexists. eexists. split; [vm_compute; reflexivity|].
  refine (proj2 (cleanup_leaves_other_files (fun _ => true)
                   [PyDict (setitem "temp_file" (PyStr "/tmp/tmpk3v9x2.jpg")
                              (new_photo_data "/photos/b.heic"))]
                   ["/photos/b.heic"; "/tmp/tmpk3v9x2.jpg"] _ _ _ _)
                "/photos/b.heic" _ _).
  - constructor; [|constructor].
    eexists. split; [reflexivity|]. right.
    exists "/tmp/tmpk3v9x2.jpg". reflexivity.
  - vm_compute. reflexivity.
  - reflexivity.
  - vm_compute. intros [H | []]. discriminate.
Defined.

(** X25. When every deletion is permitted, no temporary file named by a
    record exists after [cleanup_temp_files]. In general a named temporary
    file that still exists is one whose deletion failed. *)
Theorem cleanup_removes_temp_files (can : string -> bool)
  (entries : list pyval) (fs fs' : FileSystem) (calls : list (string * bool)) :
  Forall record_entry entries ->
  cleanup_temp_files can (Some entries) fs = Ok (fs', calls) ->
  (forall p, In (Some p) (map entry_path entries) ->
             file_in p fs' = true -> can p = false) /\
  ((forall p, can p = true) ->
   forall p, In (Some p) (map entry_path entries) -> file_in p fs' = false).
Proof.
  intros Hrec H. unfold cleanup_temp_files in H.
  rewrite (cleanup_loop_records can _ _ Hrec) in H. injection H as H.
  assert (Hsurv : forall p, In (Some p) (map entry_path entries) ->
                            file_in p fs' = true -> can p = false).
  { intros p Hin Hex.
    apply (unlink_fold_survivors can (map entry_path entries) (fs, []) p Hin).
    rewrite H. exact Hex. }
  split; [exact Hsurv|].
  intros Hall p Hin.
  destruct (file_in p fs') eqn:E; [|reflexivity].
  pose proof (Hsurv p Hin E) as Hc. rewrite (Hall p) in Hc. discriminate.
Qed.

(** X25 on the record of a HEIC photo. *)
Lemma cleanup_removes_temp_files_witness :
  exists fs' calls,
    cleanup_temp_files (fun _ => true)
      (Some [PyDict (setitem "temp_file" (PyStr "/tmp/tmpk3v9x2.jpg")
                       (new_photo_data "/photos/b.heic"))])
      ["/photos/b.heic"; "/tmp/tmpk3v9x2.jpg"] = Ok (fs', calls) /\
    file_in "/tmp/tmpk3v9x2.jpg" fs' = false.
Proof.
  eexists. eexists. split; [vm_compute; reflexivity|].
  refine (proj2 (cleanup_removes_temp_files (fun _ => true)
                   [PyDict (setitem "temp_file" (PyStr "/tmp/tmpk3v9x2.jpg")
                              (new_photo_data "/photos/b.heic"))]
                   ["/photos/b.heic"; "/tmp/tmpk3v9x2.jpg"] _ _ _ _)
                _ "/tmp/tmpk3v9x2.jpg" _).
  - constructor; [|constructor].
    eexists. split; [reflexivity|]. right.
    exists "/tmp/tmpk3v9x2.jpg". reflexivity.
  - vm_compute. reflexivity.
  - reflexivity.
  - vm_compute. left. reflexivity.
Defined.

(** ** The debugging scans *)

Lemma debug_fold_lookup (k : string) (md acc : MetadataBag) :
  NoDup (keys md) ->
  (forall k', In k' (keys md) -> lookup k' acc = None) ->
  lookup k
    (fold_left
       (fun description_fields kv =>
          if contains_any debug_terms (lower (fst kv))
          then setitem (fst kv) (snd kv) description_fields
          else description_fields) md acc)
  = match lookup k acc with
    | Some v => Some v
    | None => if contains_any debug_terms (lower k) then lookup k md else None
    end.
Proof.
  revert acc. induction md as [|[k0 v0] md IH]; intros acc Hnd Hacc.
  - cbn [fold_left lookup]. destruct (lookup k acc); [reflexivity|].
    destruct (contains_any debug_terms (lower k)); reflexivity.
  - simpl in Hnd. inversion Hnd as [|x xs Hnotin Hnd']; subst.
    cbn [fold_left fst snd].
    assert (Hk0 : lookup k0 acc = None) by (apply Hacc; left; reflexivity).
    rewrite IH; [|exact Hnd'|].
    + cbn [lookup].
      destruct (String.eqb k k0) eqn:E.
      * apply String.eqb_eq in E. subst k0. rewrite Hk0.
        destruct (contains_any debug_terms (lower k)).
        -- rewrite lookup_setitem_same. reflexivity.
        -- rewrite Hk0.
           destruct (lookup k md) eqn:El; [|reflexivity].
           exfalso. apply Hnotin. clear - El.
           induction md as [|[k1 v1] md IH]; simpl in *; [discriminate|].
           destruct (String.eqb k k1) eqn:E1.
           ++ apply String.eqb_eq in E1. left. symmetry. exact E1.
           ++ right. apply IH. exact El.
      * apply String.eqb_neq in E.
        destruct (contains_any debug_terms (lower k0)); [|reflexivity].
        rewrite lookup_setitem_other by exact E. reflexivity.
    + intros k' Hin.
      destruct (contains_any debug_terms (lower k0)).
      * rewrite lookup_setitem_other.
        -- apply Hacc. right. exact Hin.
        -- intros ->. contradiction.
      * apply Hacc. right. exact Hin.
Qed.

(** X26. On a dict of the external tool [debug_heic_with_exiftool]
    returns exactly its description-like part: a key whose lower-case form
    contains "descr", "caption", "title" or "comment" has the value it has
    in the metadata, and no other key is in the result. On a value of the
    tool that is no dict it raises [AttributeError]. *)
Theorem debug_heic_with_exiftool_lookup (w : World) (photo_path k : string) :
  (forall md,
     get_heic_metadata_with_exiftool w photo_path = PyDict md ->
     NoDup (keys md) ->
     exists d,
       debug_heic_with_exiftool w photo_path = Ok d /\
       lookup k d =
         if contains_any debug_terms (lower k) then lookup k md else None) /\
  (is_dict (get_heic_metadata_with_exiftool w photo_path) = false ->
   debug_heic_with_exiftool w photo_path = Raise AttributeError).
Proof.
  unfold debug_heic_with_exiftool. split.
  - intros md E Hnd. rewrite E. eexists. split; [reflexivity|].
    rewrite debug_fold_lookup; [reflexivity | exact Hnd | reflexivity].
  - destruct (get_heic_metadata_with_exiftool w photo_path);
      try reflexivity. discriminate.
Qed.

(** X26 on metadata with a description, a title and a GPS field. *)
Lemma debug_heic_with_exiftool_lookup_witness :
  exists d,
    debug_heic_with_exiftool
      (world_with_exiftool
         [ ("XMP:Description", PyStr "Family dinner");
           ("EXIF:GPSLatitude", PyFloat 45);
           ("XMP:Title", PyStr "Dinner") ])
      "/photos/a.heic" = Ok d /\
    lookup "XMP:Title" d = Some (PyStr "Dinner") /\
    lookup "EXIF:GPSLatitude" d = None.
Proof.
  assert (Hnd : NoDup (keys [ ("XMP:Description", PyStr "Family dinner");
                              ("EXIF:GPSLatitude", PyFloat 45);
                              ("XMP:Title", PyStr "Dinner") ])).
  { simpl. repeat constructor; simpl; intuition discriminate. }
  destruct (debug_heic_with_exiftool_lookup
              (world_with_exiftool
                 [ ("XMP:Description", PyStr "Family dinner");
                   ("EXIF:GPSLatitude", PyFloat 45);
                   ("XMP:Title", PyStr "Dinner") ])
              "/photos/a.heic" "XMP:Title") as [H1 _].
  destruct (debug_heic_with_exiftool_lookup
              (world_with_exiftool
                 [ ("XMP:Description", PyStr "Family dinner");
                   ("EXIF:GPSLatitude", PyFloat 45);
                   ("XMP:Title", PyStr "Dinner") ])
              "/photos/a.heic" "EXIF:GPSLatitude") as [H2 _].
  destruct (H1 _ eq_refl Hnd) as (d1 & E1 & L1).
  destruct (H2 _ eq_refl Hnd) as (d2 & E2 & L2).
  exists d1. split; [exact E1|]. split; [exact L1|].
  rewrite E1 in E2. injection E2 as <-. exact L2.
Defined.

(** X27. [extract_all_metadata] reads one tag source per format: for a
    HEIC photo the detailed pass of the tag reader is never consulted, for
    any other format the external tool is never consulted. *)
Theorem scan_reads_one_tag_source (w : World) (src : DebugSources)
  (photo_path : string) :
  (is_heic_path photo_path = true ->
   forall reader,
     Debug.extract_all_metadata w (with_detailed_reader src reader) photo_path
     = Debug.extract_all_metadata w src photo_path) /\
  (is_heic_path photo_path = false ->
   forall tool,
     Debug.extract_all_metadata (with_exiftool_metadata w tool) src photo_path
     = Debug.extract_all_metadata w src photo_path).
Proof.
  split; intros Hh x; unfold Debug.extract_all_metadata; rewrite Hh; reflexivity.
Qed.

(** X27 on a JPEG, with a tool that would report a title. *)
Lemma scan_reads_one_tag_source_witness :
  Debug.extract_all_metadata
    (with_exiftool_metadata plain_world
       (fun _ => Some (PyList [PyDict [("XMP:Title", PyStr "Dinner")]])))
    plain_sources "/photos/a.jpg"
  = Debug.extract_all_metadata plain_world plain_sources "/photos/a.jpg".
Proof.
  apply (scan_reads_one_tag_source plain_world plain_sources "/photos/a.jpg").
  reflexivity.
Defined.

Lemma exiftool_description_tags_entries (str : pyval -> string)
  (items : MetadataBag) (k v : string) :
  In (k, v) (Debug.exiftool_description_tags str items) ->
  contains_any caption_keywords (lower k) = true /\
  nonempty (strip v) = true /\
  exists x, In (k, x) items /\ truthy x = true /\ v = str x.
Proof.
  induction items as [|[k0 x0] items IH];
    cbn [Debug.exiftool_description_tags]; [intros []|].
  destruct (contains_any caption_keywords (lower k0) && truthy x0
            && nonempty (strip (str x0))) eqn:E.
  - cbn [In]. intros [Heq | Hin].
    + injection Heq as <- <-. rewrite !andb_true_iff in E.
      destruct E as [[E1 E2] E3]. split; [exact E1|]. split; [exact E3|].
      exists x0. split; [left; reflexivity | auto].
    + destruct (IH Hin) as (H1 & H2 & x & Hx & Ht & Hv).
      split; [exact H1|]. split; [exact H2|].
      exists x. split; [right; exact Hx | auto].
  - intros Hin. destruct (IH Hin) as (H1 & H2 & x & Hx & Ht & Hv).
    split; [exact H1|]. split; [exact H2|].
    exists x. split; [right; exact Hx | auto].
Qed.

Lemma later_steps_with_caption (w : World) (p : string) (d : MetadataBag) :
  no_caption d = false ->
  aae_caption_step w p (sips_caption_step w p (mdls_caption_step w p d)) = d.
Proof.
  intros H.
  unfold mdls_caption_step. rewrite H. cbn [andb].
  unfold sips_caption_step. rewrite H. cbn [andb].
  unfold aae_caption_step. rewrite H. reflexivity.
Qed.

(** X28. For a HEIC photo whose eleven description fields give no caption,
    the caption is the first entry of the scan of the tool's metadata,
    trimmed: the text of the first field whose key contains one of the
    five keywords and whose value is truthy and not blank. *)
Theorem heic_caption_from_scan (w : World) (src : DebugSources)
  (photo_path k v : string) (rest : list (string * string)) :
  is_heic_path photo_path = true ->
  first_description_field
    (as_dict (get_heic_metadata_with_exiftool w photo_path))
    description_fields = None ->
  Debug.exiftool_description_tags (py_str src)
    (as_dict (get_heic_metadata_with_exiftool w photo_path)) = (k, v) :: rest ->
  lookup "caption" (resolve_caption (with_debug_scan w src) photo_path)
    = Some (PyStr (strip v)) /\
  contains_any caption_keywords (lower k) = true /\
  exists x, In (k, x) (as_dict (get_heic_metadata_with_exiftool w photo_path)) /\
            v = py_str src x.
Proof.
  intros Hh Hf Hs.
  destruct (exiftool_description_tags_entries (py_str src)
              (as_dict (get_heic_metadata_with_exiftool w photo_path)) k v)
    as (Hk & Hne & x & Hx & _ & Hv).
  { rewrite Hs. left. reflexivity. }
  split; [|split; [exact Hk | exists x; auto]].
  set (w' := with_debug_scan w src).
  assert (Hscan : first_description_tag (extract_all_metadata w' photo_path)
                  = Some (PyStr (strip v))).
  { change (extract_all_metadata w' photo_path)
      with (Debug.extract_all_metadata w src photo_path).
    unfold Debug.extract_all_metadata, Debug.exiftool_entries. rewrite Hh.
    destruct (get_heic_metadata_with_exiftool w photo_path) as [| | | | | | |d];
      try discriminate Hs.
    cbn [as_dict] in Hs. destruct d as [|kv d]; [discriminate Hs|].
    cbn [truthy]. rewrite Hs. cbn [bind try_except app first_description_tag].
    rewrite (strip_nonempty v Hne), Hne. reflexivity. }
  assert (Hset : forall d, no_caption (setitem "caption" (PyStr (strip v)) d) = false).
  { intros d. unfold no_caption, get_default. rewrite lookup_setitem_same.
    simpl. unfold nonempty in Hne. rewrite Hne. reflexivity. }
  assert (Hc : caption_cascade w' photo_path
               = setitem "caption" (PyStr (strip v))
                   (heic_dimensions w' photo_path (new_photo_data photo_path))).
  { unfold caption_cascade. cbv zeta. rewrite Hh.
    change (get_heic_metadata_with_exiftool w' photo_path)
      with (get_heic_metadata_with_exiftool w photo_path).
    rewrite Hf. cbn [set_caption].
    change (no_caption (new_photo_data photo_path)) with true. cbv iota.
    unfold caption_and_dimensions. cbv zeta. rewrite Hscan. cbn [set_caption].
    apply later_steps_with_caption. apply Hset. }
  unfold resolve_caption. rewrite Hc, Hset. apply lookup_setitem_same.
Qed.

(** X28 on a HEIC photo whose only description-like field is a subject. *)
Lemma heic_caption_from_scan_witness :
  lookup "caption"
    (resolve_caption
       (with_debug_scan
          (world_with_exiftool [("XMP:Subject", PyStr "  Harbour at dusk ")])
          plain_sources)
       "/photos/IMG_0001.heic")
  = Some (PyStr "Harbour at dusk").
Proof.
  apply (heic_caption_from_scan
           (world_with_exiftool [("XMP:Subject", PyStr "  Harbour at dusk ")])
           plain_sources "/photos/IMG_0001.heic"
           "XMP:Subject" "  Harbour at dusk " []); reflexivity.
Defined.

(** ** Answers of the OS metadata service *)

Lemma search_quoted_eq (s : string) :
  search_quoted s =
    match match_quoted_at s with
    | Some g => Some g
    | None =>
        match s with
        | String _ s' => search_quoted s'
        | EmptyString => None
        end
    end.
Proof. destruct s; reflexivity. Qed.

Lemma match_quoted_at_sound (s g : string) :
  match_quoted_at s = Some g ->
  nonempty g = true /\ all_chars not_quote g = true.
Proof.
  unfold match_quoted_at.
  destruct s as [|c s]; [discriminate|].
  destruct (Ascii.eqb c dquote); [|discriminate].
  destruct (drop_while not_quote s); [discriminate|].
  destruct (String.eqb (take_while not_quote s) EmptyString) eqn:E;
    [discriminate|].
  intros H. injection H as <-. unfold nonempty. rewrite E.
  split; [reflexivity | apply take_while_all_chars].
Qed.

Lemma search_quoted_sound (s g : string) :
  search_quoted s = Some g ->
  nonempty g = true /\ all_chars not_quote g = true.
Proof.
  induction s as [|c s IH]; rewrite search_quoted_eq.
  - simpl. discriminate.
  - destruct (match_quoted_at (String c s)) as [g'|] eqn:E.
    + intros H. injection H as <-. exact (match_quoted_at_sound _ _ E).
    + exact IH.
Qed.

(** X29. A caption taken from an answer of the OS metadata service is a
    text that is not empty and holds no double quote; it is taken only
    from an answer with exit code 0 that names the attribute and does not
    contain "(null)". *)
Theorem mdls_quoted_sound (attribute : string) (returncode : Z)
  (stdout : string) (c : pyval) :
  mdls_quoted attribute returncode stdout = Some c ->
  returncode = 0 /\
  contains attribute (strip stdout) = true /\
  contains "(null)" (strip stdout) = false /\
  exists g, c = PyStr g /\ nonempty g = true /\ all_chars not_quote g = true.
Proof.
  unfold mdls_quoted.
  destruct ((returncode =? 0) && nonempty stdout) eqn:E1; [|discriminate].
  destruct (contains attribute (strip stdout)
            && negb (contains "(null)" (strip stdout))) eqn:E2; [|discriminate].
  destruct (search_quoted (strip stdout)) as [g|] eqn:E3; [|discriminate].
  intros H. injection H as <-.
  apply andb_true_iff in E1. destruct E1 as [E1 _].
  apply andb_true_iff in E2. destruct E2 as [E2 E2'].
  apply negb_true_iff in E2'.
  split; [apply Z.eqb_eq; exact E1|].
  split; [exact E2|]. split; [exact E2'|].
  exists g. split; [reflexivity|]. exact (search_quoted_sound _ _ E3).
Qed.

(** X29 on an answer for the title. *)
Lemma mdls_quoted_sound_witness :
  mdls_quoted "kMDItemTitle" 0 (String.append "kMDItemTitle = " (quoted "A day out"))
    = Some (PyStr "A day out") /\
  all_chars not_quote "A day out" = true.
Proof.
  split; [reflexivity|].
  destruct (mdls_quoted_sound "kMDItemTitle" 0
              (String.append "kMDItemTitle = " (quoted "A day out"))
              (PyStr "A day out") eq_refl)
    as (_ & _ & _ & g & Hg & _ & Hq).
  injection Hg as <-. exact Hq.
Defined.
